(** * Phishing detector: scoring core

    A shallow embedding of [phishing_detector.py] (class [PhishingDetector])
    and the properties of its scoring pipeline.

    Python values are modelled by [pyval]; dictionaries are finite maps with
    string keys; floats are IEEE-754 binary64 numbers with round-to-nearest-even
    arithmetic ([spec_float] at precision 53, emax 1024); [try]/[except] is
    an error monad [result].  Outcomes of network calls (TLS handshake, page
    fetch, registration lookup, remote classifier) and the clock are inputs. *)

From Stdlib Require Import ZArith Bool List Lia Ascii String.
From Stdlib Require Import Floats.SpecFloat.
From stdpp Require Import gmap strings list fin_maps.

Set Warnings "-register-all".
Local Open Scope string_scope.
Local Open Scope Z_scope.

(** ** Binary64 floats *)

Module F64.

Definition prec : Z := 53.
Definition emax : Z := 1024.

Definition of_Z (z : Z) : spec_float := binary_normalize prec emax z 0 false.

Definition add := SFadd prec emax.
Definition sub := SFsub prec emax.
Definition mul := SFmul prec emax.
Definition div := SFdiv prec emax.
Definition ltb := SFltb.
Definition leb := SFleb.
Definition compare := SFcompare.

Definition is_nan (x : spec_float) : bool :=
  match x with S754_nan => true | _ => false end.

(** The float denoted by the decimal literal [n/d] (correctly rounded
    quotient of two exactly representable integers): [dec 3 10] is the
    double that Python writes [0.3]. *)
Definition dec (n d : Z) : spec_float := div (of_Z n) (of_Z d).

Definition zero : spec_float := S754_zero false.
Definition one : spec_float := of_Z 1.

(** [x > y] and [x < y] as Python evaluates them on floats. *)
Definition gt (x y : spec_float) : bool := ltb y x.
Definition lt (x y : spec_float) : bool := ltb x y.

(** Built-in [max(a, b)] and [min(a, b)] on two floats: the first
    argument is kept unless the second compares strictly beyond it. *)
Definition py_max (a b : spec_float) : spec_float := if gt b a then b else a.
Definition py_min (a b : spec_float) : spec_float := if lt b a then b else a.

(** Sign bit clear, or NaN. *)
Definition nonneg (x : spec_float) : Prop :=
  match x with
  | S754_zero true | S754_infinity true | S754_finite true _ _ => False
  | _ => True
  end.

(** Exact comparison of an integer with a float (Python compares the two
    mathematically, without converting the integer). *)
Definition compare_Z (z : Z) (x : spec_float) : option comparison :=
  match x with
  | S754_nan => None
  | S754_zero _ => Some (z ?= 0)
  | S754_infinity s => Some (if s then Gt else Lt)
  | S754_finite s m e =>
      let v := if s then Z.neg m else Z.pos m in
      Some (if 0 <=? e then z ?= v * 2 ^ e else z * 2 ^ (- e) ?= v)
  end.

End F64.

(** ** Python values, exceptions, dictionaries *)

Inductive pyval :=
  | PNone
  | PBool (b : bool)
  | PInt (z : Z)
  | PFloat (x : spec_float)
  | PStr (s : string)
  | PList (l : list pyval)
  | PDict (d : gmap string pyval).

(** Exceptions that are instances of [Exception]; each carries what
    [str(e)] prints. *)
Inductive exn :=
  | KeyError (key : string)
  | TypeError (msg : string)
  | IndexError (msg : string)
  | AttributeError (msg : string)
  | ValueError (msg : string)
  | OSError (msg : string)
  | LibraryError (cls msg : string).

Definition str_exn (e : exn) : string :=
  match e with
  | KeyError k => "'" ++ k ++ "'"
  | TypeError m | IndexError m | AttributeError m | ValueError m
  | OSError m | LibraryError _ m => m
  end.

Inductive result (A : Type) :=
  | Ok (a : A)
  | Raise (e : exn).
Arguments Ok {A} a.
Arguments Raise {A} e.

Definition bind {A B} (m : result A) (k : A -> result B) : result B :=
  match m with Ok a => k a | Raise e => Raise e end.

Notation "x <- m ;; k" := (bind m (fun x => k))
  (at level 100, m at next level, right associativity).

(** [try: body except Exception as e: handler(e)] *)
Definition try_except {A} (body : result A) (handler : exn -> result A) : result A :=
  match body with Ok a => Ok a | Raise e => handler e end.

(** Truth value of an object in a condition. *)
Definition truthy (v : pyval) : bool :=
  match v with
  | PNone => false
  | PBool b => b
  | PInt z => negb (z =? 0)
  | PFloat x => match x with S754_zero _ => false | _ => true end
  | PStr s => negb (String.eqb s "")
  | PList l => match l with [] => false | _ => true end
  | PDict d => negb (bool_decide (d = ∅))
  end.

(** [d[k]] *)
Definition getitem (d : gmap string pyval) (k : string) : result pyval :=
  match d !! k with
  | Some v => Ok v
  | None => Raise (KeyError k)
  end.

(** [d.get(k, dflt)] on a dictionary *)
Definition dict_get (d : gmap string pyval) (k : string) (dflt : pyval) : pyval :=
  default dflt (d !! k).

(** [type(v).__name__] *)
Definition type_name (v : pyval) : string :=
  match v with
  | PNone => "NoneType"
  | PBool _ => "bool"
  | PInt _ => "int"
  | PFloat _ => "float"
  | PStr _ => "str"
  | PList _ => "list"
  | PDict _ => "dict"
  end.

(** [v.get(k, dflt)] on an arbitrary object *)
Definition py_get (v : pyval) (k : string) (dflt : pyval) : result pyval :=
  match v with
  | PDict d => Ok (dict_get d k dflt)
  | _ => Raise (AttributeError
                  ("'" ++ type_name v ++ "' object has no attribute 'get'"))
  end.

(** [len(v)] *)
Definition py_len (v : pyval) : result Z :=
  match v with
  | PStr s => Ok (Z.of_nat (String.length s))
  | PList l => Ok (Z.of_nat (length l))
  | PDict d => Ok (Z.of_nat (size d))
  | _ => Raise (TypeError
                  ("object of type '" ++ type_name v ++ "' has no len()"))
  end.

(** Numbers: [bool] is a subclass of [int]. *)
Inductive num := NInt (z : Z) | NFloat (x : spec_float).

Definition as_num (v : pyval) : option num :=
  match v with
  | PBool b => Some (NInt (Z.b2z b))
  | PInt z => Some (NInt z)
  | PFloat x => Some (NFloat x)
  | _ => None
  end.

Definition num_compare (a b : num) : option comparison :=
  match a, b with
  | NInt x, NInt y => Some (x ?= y)
  | NFloat x, NFloat y => F64.compare x y
  | NInt x, NFloat y => F64.compare_Z x y
  | NFloat x, NInt y => option_map CompOpp (F64.compare_Z y x)
  end.

Definition num_type_name (n : num) : string :=
  match n with NInt _ => "int" | NFloat _ => "float" end.

(** [v > n] for a numeric literal [n] *)
Definition py_gt (v : pyval) (n : num) : result bool :=
  match as_num v with
  | Some a => Ok (match num_compare a n with Some Gt => true | _ => false end)
  | None => Raise (TypeError
                     ("'>' not supported between instances of '"
                      ++ type_name v ++ "' and '" ++ num_type_name n ++ "'"))
  end.

(** ** The rule-based scorer and the risk label *)

Definition rule_based_scoring (features : gmap string pyval) : result spec_float :=
  let score := F64.zero in
  (* URL-based features *)
  has_ip <- getitem features "has_ip";;
  let score := if truthy has_ip then F64.add score (F64.dec 3 10) else score in
  patterns <- getitem features "suspicious_patterns";;
  score <- (if truthy patterns
           then patterns <- getitem features "suspicious_patterns";;
                n <- py_len patterns;;
                Ok (F64.add score (F64.mul (F64.dec 2 10) (F64.of_Z n)))
           else Ok score);;
  domain_length <- getitem features "domain_length";;
  long <- py_gt domain_length (NInt 30);;
  let score := if long then F64.add score (F64.dec 1 10) else score in
  subdomain_count <- getitem features "subdomain_count";;
  deep <- py_gt subdomain_count (NInt 3);;
  let score := if deep then F64.add score (F64.dec 2 10) else score in
  (* SSL-based features *)
  let ssl_info := dict_get features "ssl_info" (PDict ∅) in
  valid <- py_get ssl_info "valid" (PBool false);;
  let score := if negb (truthy valid) then F64.add score (F64.dec 3 10) else score in
  self_signed <- py_get ssl_info "is_self_signed" (PBool false);;
  let score := if truthy self_signed then F64.add score (F64.dec 2 10) else score in
  (* Content-based features *)
  let content := dict_get features "content_analysis" (PDict ∅) in
  keywords <- py_get content "suspicious_keywords" PNone;;
  score <- (if truthy keywords
           then match content with
                | PDict c =>
                    keywords <- getitem c "suspicious_keywords";;
                    n <- py_len keywords;;
                    Ok (F64.add score (F64.mul (F64.dec 1 10) (F64.of_Z n)))
                | _ => Raise (TypeError
                                ("'" ++ type_name content
                                 ++ "' object is not subscriptable"))
                end
           else Ok score);;
  password <- py_get content "has_password_field" (PBool false);;
  let score := if truthy password then F64.add score (F64.dec 1 10) else score in
  links <- py_get content "external_links_count" (PInt 0);;
  many <- py_gt links (NInt 10);;
  let score := if many then F64.add score (F64.dec 1 10) else score in
  (* Domain-based features *)
  let domain_info := dict_get features "domain_info" (PDict ∅) in
  is_new <- py_get domain_info "is_new_domain" (PBool false);;
  let score := if truthy is_new then F64.add score (F64.dec 2 10) else score in
  (* Whitelist override *)
  whitelisted <- getitem features "is_whitelisted";;
  let score := if truthy whitelisted then F64.sub score (F64.dec 5 10) else score in
  Ok (F64.py_min F64.one (F64.py_max F64.zero score)).

Inductive risk_level := LOW | MEDIUM | HIGH.

Definition risk_level_str (r : risk_level) : string :=
  match r with LOW => "LOW" | MEDIUM => "MEDIUM" | HIGH => "HIGH" end.

Definition calculate_risk_level (features : gmap string pyval) (ai_score : pyval)
  : result risk_level :=
  whitelisted <- getitem features "is_whitelisted";;
  if truthy whitelisted then Ok LOW
  else
    high <- py_gt ai_score (NFloat (F64.dec 7 10));;
    if high then Ok HIGH
    else
      medium <- py_gt ai_score (NFloat (F64.dec 4 10));;
      if medium then Ok MEDIUM else Ok LOW.

(** ** The feature vector read by the scorer

    The typed reading of a features dictionary: the five keys the scorer
    subscripts must be present, the three sub-records are dictionaries or
    absent, and every field read through [.get] takes the scorer's default
    when it is absent. *)

Record FeatureVector := {
  has_ip : bool;
  suspicious_patterns : list pyval;
  domain_length : Z;
  subdomain_count : Z;
  tls_valid : bool;
  tls_self_signed : bool;
  suspicious_keywords : list pyval;
  has_password_field : bool;
  external_links_count : Z;
  is_new_domain : bool;
  is_whitelisted : bool
}.

Definition bool_field (d : gmap string pyval) (k : string) (dflt : bool) : option bool :=
  match d !! k with
  | None => Some dflt
  | Some (PBool b) => Some b
  | Some _ => None
  end.

Definition int_field (d : gmap string pyval) (k : string) (dflt : Z) : option Z :=
  match d !! k with
  | None => Some dflt
  | Some (PInt z) => Some z
  | Some _ => None
  end.

Definition list_field (d : gmap string pyval) (k : string) : option (list pyval) :=
  match d !! k with
  | None => Some []
  | Some (PList l) => Some l
  | Some _ => None
  end.

Definition sub_record (d : gmap string pyval) (k : string) : option (gmap string pyval) :=
  match d !! k with
  | None => Some ∅
  | Some (PDict r) => Some r
  | Some _ => None
  end.

Definition required {A} (d : gmap string pyval) (k : string)
    (field : gmap string pyval -> string -> option A) : option A :=
  match d !! k with
  | None => None
  | Some _ => field d k
  end.

Definition feature_vector (features : gmap string pyval) : option FeatureVector :=
  ip ← required features "has_ip" (fun d k => bool_field d k false);
  pats ← required features "suspicious_patterns" list_field;
  dl ← required features "domain_length" (fun d k => int_field d k 0);
  sc ← required features "subdomain_count" (fun d k => int_field d k 0);
  wl ← required features "is_whitelisted" (fun d k => bool_field d k false);
  ssl ← sub_record features "ssl_info";
  content ← sub_record features "content_analysis";
  dom ← sub_record features "domain_info";
  valid ← bool_field ssl "valid" false;
  self ← bool_field ssl "is_self_signed" false;
  kws ← list_field content "suspicious_keywords";
  pw ← bool_field content "has_password_field" false;
  links ← int_field content "external_links_count" 0;
  new ← bool_field dom "is_new_domain" false;
  Some {| has_ip := ip; suspicious_patterns := pats; domain_length := dl;
          subdomain_count := sc; tls_valid := valid; tls_self_signed := self;
          suspicious_keywords := kws; has_password_field := pw;
          external_links_count := links; is_new_domain := new;
          is_whitelisted := wl |}.

(** The weighted sum as the specification words it: eleven terms, each
    decided by its own feature alone. *)

Definition term (cond : bool) (weight : spec_float) : spec_float :=
  if cond then weight else F64.zero.

Definition count (weight : spec_float) {A} (l : list A) : spec_float :=
  F64.mul weight (F64.of_Z (Z.of_nat (length l))).

Definition positive_terms (v : FeatureVector) : list spec_float :=
  [ term (has_ip v) (F64.dec 3 10);
    count (F64.dec 2 10) (suspicious_patterns v);
    term (30 <? domain_length v) (F64.dec 1 10);
    term (3 <? subdomain_count v) (F64.dec 2 10);
    term (negb (tls_valid v)) (F64.dec 3 10);
    term (tls_self_signed v) (F64.dec 2 10);
    count (F64.dec 1 10) (suspicious_keywords v);
    term (has_password_field v) (F64.dec 1 10);
    term (10 <? external_links_count v) (F64.dec 1 10);
    term (is_new_domain v) (F64.dec 2 10) ].

Definition weighted_sum (v : FeatureVector) : spec_float :=
  F64.sub (fold_left F64.add (positive_terms v) F64.zero)
          (term (is_whitelisted v) (F64.dec 5 10)).

Definition clamp01 (x : spec_float) : spec_float :=
  F64.py_min F64.one (F64.py_max F64.zero x).

Definition in_unit_interval (x : spec_float) : Prop :=
  F64.leb F64.zero x = true /\ F64.leb x F64.one = true.

(** ** TLS inspection *)

(** What [getpeercert()] returns after a verified handshake.  The issuer
    and subject names are sequences of relative distinguished names; each
    is a non-empty sequence of (attribute, value) pairs, given here as its
    first pair and the remaining ones. *)
Definition rdn : Type := (string * string) * list (string * string).

Record certificate := {
  cert_issuer : list rdn;
  cert_subject : list rdn;
  cert_notAfter : string
}.

(** [x[0] for x in name] *)
Definition first_pairs (name : list rdn) : list (string * string) :=
  map fst name.

(** [dict(pairs)]: a later pair replaces an earlier one with the same key. *)
Definition dict_of_pairs (pairs : list (string * string)) : gmap string pyval :=
  fold_left (fun d p => <[fst p := PStr (snd p)]> d) pairs ∅.

(** [handshake] is the outcome of connecting to port 443 and wrapping the
    socket: the peer certificate, or the exception raised on the way. *)
Definition check_ssl_certificate (handshake : result certificate)
  : result (gmap string pyval) :=
  try_except
    (cert <- handshake;;
     Ok (<["valid" := PBool true]>
         (<["issuer" := PDict (dict_of_pairs (first_pairs (cert_issuer cert)))]>
         (<["subject" := PDict (dict_of_pairs (first_pairs (cert_subject cert)))]>
         (<["expires" := PStr (cert_notAfter cert)]>
         (<["is_self_signed" :=
              PBool (bool_decide (cert_issuer cert = cert_subject cert))]> ∅))))))
    (fun e =>
     Ok (<["valid" := PBool false]>
         (<["error" := PStr (str_exn e)]>
         (<["is_self_signed" := PBool true]> ∅)))).

(** ** Registration lookup *)

(** A creation date as the lookup library reports it. *)
Inductive wdate :=
  | WNone
  | WDatetime (us : Z)   (* naive datetime, microseconds since the epoch *)
  | WText (s : string).  (* a date the library could not parse *)

Inductive wfield :=
  | WOne (d : wdate)
  | WMany (l : list wdate).

Record whois_entry := {
  creation_date : wfield;
  registrar : pyval
}.

Definition wdate_truthy (d : wdate) : bool :=
  match d with
  | WNone => false
  | WDatetime _ => true
  | WText s => negb (String.eqb s "")
  end.

Definition us_per_day : Z := 86400 * 1000000.

(** [(a - b).days] for two naive datetimes *)
Definition timedelta_days (a b : Z) : Z := (a - b) / us_per_day.

(** [days_old < 30 if creation_date else True] and its companions *)
Definition select_creation_date (f : wfield) : result wdate :=
  match f with
  | WMany [] => Raise (IndexError "list index out of range")
  | WMany (d :: _) => Ok d
  | WOne d => Ok d
  end.

Definition days_since (now : Z) (d : wdate) : result Z :=
  if wdate_truthy d then
    match d with
    | WDatetime t => Ok (timedelta_days now t)
    | _ => Raise (TypeError "unsupported operand type(s) for -: 'datetime.datetime' and 'str'")
    end
  else Ok 0.

Section Registration.

(** [str(d)] for a datetime: rendering is left to the library. *)
Variable str_datetime : Z -> string.

Definition str_wdate (d : wdate) : string :=
  match d with
  | WNone => "None"
  | WDatetime t => str_datetime t
  | WText s => s
  end.

(** [now] is [datetime.now()]; [lookup] is the outcome of
    [whois.whois(domain)]. *)
Definition get_domain_info (now : Z) (lookup : result whois_entry)
  : result (gmap string pyval) :=
  try_except
    (w <- lookup;;
     created <- select_creation_date (creation_date w);;
     days_old <- days_since now created;;
     Ok (<["creation_date" :=
             if wdate_truthy created then PStr (str_wdate created) else PNone]>
         (<["days_old" := PInt days_old]>
         (<["registrar" := registrar w]>
         (<["is_new_domain" :=
              PBool (if wdate_truthy created then days_old <? 30 else true)]> ∅)))))
    (fun e =>
     Ok (<["error" := PStr (str_exn e)]>
         (<["is_new_domain" := PBool true]> ∅))).

End Registration.

(** ** Page content *)

(** What the parsed page offers to the analysis. *)
Record page := {
  text_content : string;                  (* soup.get_text().lower() *)
  forms : list (list (option string));    (* per form: the type attribute of each input *)
  anchors : list string;                  (* href of every <a href=...>, in document order *)
  title : option (option string);         (* soup.title, and its .string *)
  favicon : bool                          (* soup.find('link', rel='icon') found a tag *)
}.

(** [needle in hay] on strings *)
Fixpoint contains (needle hay : string) : bool :=
  String.prefix needle hay ||
  match hay with
  | EmptyString => false
  | String _ rest => contains needle rest
  end.

Definition keyword_list : list string :=
  [ "verify account"; "suspended"; "urgent action";
    "click here immediately"; "limited time"; "act now";
    "confirm identity"; "update payment"; "security alert" ].

Definition is_password (ty : option string) : bool :=
  match ty with
  | Some t => String.eqb t "password"
  | None => false
  end.

Definition py_title (t : option (option string)) : pyval :=
  match t with
  | None => PStr ""
  | Some None => PNone
  | Some (Some s) => PStr s
  end.

Section Content.

(** [urlparse(u).netloc], which raises [ValueError] on some malformed
    hosts. *)
Variable urlparse_netloc : string -> result string.

(** An anchor is outbound from host [u] when it starts with [http] and
    parses to a host other than [u]. *)
Definition outbound (u : string) (href : string) : bool :=
  String.prefix "http" href &&
  match urlparse_netloc href with
  | Ok h => negb (String.eqb h u)
  | Raise _ => false
  end.

(** The list comprehension over the anchors: an href is kept when it
    starts with [http] and its host differs from the page's. *)
Fixpoint external_links (url : string) (links : list string)
  : result (list string) :=
  match links with
  | [] => Ok []
  | href :: rest =>
      keep <- (if String.prefix "http" href
               then h <- urlparse_netloc href;;
                    u <- urlparse_netloc url;;
                    Ok (negb (String.eqb h u))
               else Ok false);;
      tail <- external_links url rest;;
      Ok (if keep then href :: tail else tail)
  end.

(** [fetch] is the outcome of the GET request and of parsing its body. *)
Definition analyze_content (url : string) (fetch : result page)
  : result (gmap string pyval) :=
  try_except
    (soup <- fetch;;
     let found_keywords :=
       filter (fun kw => contains kw (text_content soup) = true) keyword_list in
     let has_password := existsb (existsb is_password) (forms soup) in
     links <- external_links url (anchors soup);;
     Ok (<["suspicious_keywords" := PList (PStr <$> found_keywords)]>
         (<["has_forms" := PBool (0 <? Z.of_nat (length (forms soup)))]>
         (<["has_password_field" := PBool has_password]>
         (<["form_count" := PInt (Z.of_nat (length (forms soup)))]>
         (<["external_links_count" := PInt (Z.of_nat (length links))]>
         (<["title" := py_title (title soup)]>
         (<["has_favicon" := PBool (favicon soup)]> ∅))))))))
    (fun e =>
     Ok (<["error" := PStr (str_exn e)]>
         (<["analyzed" := PBool false]> ∅))).

End Content.

(** ** The classifier *)

(** A response of the remote service: its status line and the outcome of
    [response.json()]. *)
Record http_response := {
  status_code : Z;
  json : result pyval
}.

(** [remote] is the outcome of the POST request: a response, or the
    exception raised by the transport (connection error, timeout).
    [remote_prediction] is the body of the [try]. *)
Definition remote_prediction (remote : result http_response) : result pyval :=
  response <- remote;;
  body <- json response;;
  py_get body "phishing_probability" (PFloat F64.zero).

Definition get_ai_prediction (remote : result http_response)
    (features : gmap string pyval) : result pyval :=
  match remote_prediction remote with
  | Ok v => Ok v
  | Raise _ =>
      (* Fallback to rule-based scoring *)
      s <- rule_based_scoring features;; Ok (PFloat s)
  end.

(** ** Feature collection *)

Record config := {
  cfg_patterns : list string;
  cfg_whitelist : list string;
  cfg_endpoint : option string
}.

(** The collaborators of one analysis: what each network call answers,
    and the clock. *)
Record world := {
  tls : string -> result certificate;
  fetch : string -> result page;
  whois : string -> result whois_entry;
  clock : Z;
  post : option string -> gmap string pyval -> result http_response
}.

(** [s.split(sep)] for a one-character separator *)
Fixpoint split_on (sep : ascii) (s : string) : list string :=
  match s with
  | EmptyString => [EmptyString]
  | String c rest =>
      let parts := split_on sep rest in
      if Ascii.eqb c sep then EmptyString :: parts
      else match parts with
           | p :: ps => String c p :: ps
           | [] => [String c EmptyString]
           end
  end.

Section Analyze.

Variable urlparse_netloc : string -> result string.
(** [re.search(r'\d+\.\d+\.\d+\.\d+', s)] found a match *)
Variable ip_search : string -> bool.
(** [re.search(pattern, s, re.IGNORECASE)] found a match *)
Variable pattern_search : string -> string -> bool.
Variable str_datetime : Z -> string.

Definition check_suspicious_patterns (cfg : config) (url : string) : list string :=
  List.filter (fun pattern => pattern_search pattern url) (cfg_patterns cfg).

Definition collect_features (cfg : config) (w : world) (url : string)
  : result (gmap string pyval) :=
  netloc <- urlparse_netloc url;;
  ssl_info <- check_ssl_certificate (tls w netloc);;
  content <- analyze_content urlparse_netloc url (fetch w url);;
  domain_info <- get_domain_info str_datetime (clock w) (whois w netloc);;
  Ok (<["url" := PStr url]>
      (<["domain" := PStr netloc]>
      (<["has_ip" := PBool (ip_search netloc)]>
      (<["suspicious_patterns" := PList (PStr <$> check_suspicious_patterns cfg url)]>
      (<["domain_length" := PInt (Z.of_nat (String.length netloc))]>
      (<["subdomain_count" := PInt (Z.of_nat (length (split_on "."%char netloc)) - 2)]>
      (<["is_whitelisted" := PBool (bool_decide (netloc ∈ cfg_whitelist cfg))]>
      (<["ssl_info" := PDict ssl_info]>
      (<["content_analysis" := PDict content]>
      (<["domain_info" := PDict domain_info]> ∅)))))))))).

Definition analyze_url (cfg : config) (w : world) (url : string)
  : result (gmap string pyval) :=
  features <- collect_features cfg w url;;
  ai_score <- get_ai_prediction (post w (cfg_endpoint cfg) features) features;;
  risk <- calculate_risk_level features ai_score;;
  Ok (<["features" := PDict features]>
      (<["ai_score" := ai_score]>
      (<["risk_level" := PStr (risk_level_str risk)]> ∅))).

End Analyze.

(** ** Reference behaviour of the library calls on ASCII text

    Used to run the analysis on concrete URLs. *)

Definition is_digit (c : ascii) : bool :=
  let n := nat_of_ascii c in (48 <=? n)%nat && (n <=? 57)%nat.

Definition is_alpha (c : ascii) : bool :=
  let n := nat_of_ascii c in
  ((65 <=? n)%nat && (n <=? 90)%nat) || ((97 <=? n)%nat && (n <=? 122)%nat).

(** A scanner for [\d+\.\d+\.\d+\.\d+]: [QDigits k] is inside the [k]-th
    run of digits, [QDot k] has just read the dot after it. *)
Inductive quad_state := QStart | QDigits (k : nat) | QDot (k : nat).

Definition quad_step (st : quad_state) (c : ascii) : quad_state :=
  match st with
  | QStart => if is_digit c then QDigits 1 else QStart
  | QDigits k =>
      if is_digit c then QDigits k
      else if Ascii.eqb c "."%char then QDot k
      else QStart
  | QDot k => if is_digit c then QDigits (S k) else QStart
  end.

Fixpoint quad_run (st : quad_state) (s : string) : bool :=
  match st with
  | QDigits 4 => true
  | _ =>
      match s with
      | EmptyString => false
      | String c rest => quad_run (quad_step st c) rest
      end
  end.

Definition has_dotted_quad (s : string) : bool := quad_run QStart s.

(** [re.search(pattern, s, re.IGNORECASE)] for a pattern without
    metacharacters, on text without upper-case letters. *)
Definition literal_search (pattern s : string) : bool := contains pattern s.

(** The text before the first character satisfying [stop], and the text
    from that character on. *)
Fixpoint span_until (stop : ascii -> bool) (s : string) : string * string :=
  match s with
  | EmptyString => (EmptyString, EmptyString)
  | String c rest =>
      if stop c then (EmptyString, s)
      else let '(a, b) := span_until stop rest in (String c a, b)
  end.

Fixpoint string_forallb (p : ascii -> bool) (s : string) : bool :=
  match s with
  | EmptyString => true
  | String c rest => p c && string_forallb p rest
  end.

Definition is_scheme_char (c : ascii) : bool :=
  is_alpha c || is_digit c || Ascii.eqb c "+"%char || Ascii.eqb c "-"%char || Ascii.eqb c "."%char.

Definition strip_scheme (url : string) : string :=
  match span_until (Ascii.eqb ":"%char) url with
  | (String c pre, String _ rest) =>
      if is_alpha c && string_forallb is_scheme_char pre then rest else url
  | _ => url
  end.

Definition is_netloc_end (c : ascii) : bool :=
  Ascii.eqb c "/"%char || Ascii.eqb c "?"%char || Ascii.eqb c "#"%char.

(** [urlsplit(url).netloc] for a URL free of control characters. *)
Definition netloc_of (url : string) : result string :=
  match strip_scheme url with
  | String "/"%char (String "/"%char rest) =>
      let netloc := fst (span_until is_netloc_end rest) in
      if xorb (contains "[" netloc) (contains "]" netloc)
      then Raise (ValueError "Invalid IPv6 URL")
      else Ok netloc
  | _ => Ok EmptyString
  end.

(** ** Vocabulary of the specification *)

(** One conditional update of the running score: [if c: score += w]. *)
Definition update (s : spec_float) (t : bool * spec_float) : spec_float :=
  if fst t then F64.add s (snd t) else s.

(** The ten additive terms as guarded updates, in source order. *)
Definition guarded_terms (v : FeatureVector) : list (bool * spec_float) :=
  [ (has_ip v, F64.dec 3 10);
    (match suspicious_patterns v with [] => false | _ => true end,
     F64.mul (F64.dec 2 10) (F64.of_Z (Z.of_nat (length (suspicious_patterns v)))));
    (30 <? domain_length v, F64.dec 1 10);
    (3 <? subdomain_count v, F64.dec 2 10);
    (negb (tls_valid v), F64.dec 3 10);
    (tls_self_signed v, F64.dec 2 10);
    (match suspicious_keywords v with [] => false | _ => true end,
     F64.mul (F64.dec 1 10) (F64.of_Z (Z.of_nat (length (suspicious_keywords v)))));
    (has_password_field v, F64.dec 1 10);
    (10 <? external_links_count v, F64.dec 1 10);
    (is_new_domain v, F64.dec 2 10) ].

(** The label of a score on a host that is not whitelisted. *)
Definition label_of (score : spec_float) : risk_level :=
  if F64.gt score (F64.dec 7 10) then HIGH
  else if F64.gt score (F64.dec 4 10) then MEDIUM else LOW.

(** The remote call failed in a way the [try] catches: the transport
    raised, the body is not JSON, or the JSON value is not an object. *)
Inductive unavailable : result http_response -> Prop :=
  | transport_failure e : unavailable (Raise e)
  | unparsable_body status e :
      unavailable (Ok {| status_code := status; json := Raise e |})
  | body_not_object status v :
      (forall d, v <> PDict d) ->
      unavailable (Ok {| status_code := status; json := Ok v |}).

(** The record [analyze_content] returns from its handler. *)
Definition content_failure (e : exn) : gmap string pyval :=
  <["error" := PStr (str_exn e)]> (<["analyzed" := PBool false]> ∅).

(** A sub-record that is missing, or a dictionary that carries error
    fields only. *)
Definition error_fields_only (d : gmap string pyval) : Prop :=
  forall k, is_Some (d !! k) -> k = "error" \/ k = "analyzed".

Definition degraded (sub : option pyval) : Prop :=
  sub = None \/ exists d, sub = Some (PDict d) /\ error_fields_only d.

(** A sub-record the scorer can read: it is missing, or a dictionary in
    which every field the scorer reads is absent or has the type the
    scorer expects.  The three sub-records differ in the fields read. *)
Definition ssl_readable (sub : option pyval) : Prop :=
  sub = None
  \/ exists d, sub = Some (PDict d)
       /\ is_Some (bool_field d "valid" false)
       /\ is_Some (bool_field d "is_self_signed" false).

Definition content_readable (sub : option pyval) : Prop :=
  sub = None
  \/ exists d, sub = Some (PDict d)
       /\ is_Some (list_field d "suspicious_keywords")
       /\ is_Some (bool_field d "has_password_field" false)
       /\ is_Some (int_field d "external_links_count" 0).

Definition domain_readable (sub : option pyval) : Prop :=
  sub = None
  \/ exists d, sub = Some (PDict d)
       /\ is_Some (bool_field d "is_new_domain" false).

(** The sum of the terms taken in the order [order], less the whitelist
    deduction: [weighted_sum] is the case of the source order. *)
Definition weighted_sum_in (order : list spec_float) (v : FeatureVector)
  : spec_float :=
  F64.sub (fold_left F64.add order F64.zero)
          (term (is_whitelisted v) (F64.dec 5 10)).

(** The earliest datetime of a list, as the specification words the
    choice among several creation dates. *)
Definition earliest (l : list Z) : option Z :=
  match l with
  | [] => None
  | t :: rest => Some (fold_left Z.min rest t)
  end.

(** The number of distinct entries of a list of hrefs. *)
Definition distinct_count (l : list string) : nat :=
  length (remove_dups l).

(** ** The scenario of an unreachable IP-literal host *)

Definition day (n : Z) : Z := n * us_per_day.

Definition scenario_url : string := "http://192.0.2.10/login".
Definition scenario_host : string := "192.0.2.10".

Definition scenario_vector : FeatureVector :=
  {| has_ip := true; suspicious_patterns := []; domain_length := 10;
     subdomain_count := 2; tls_valid := false; tls_self_signed := true;
     suspicious_keywords := []; has_password_field := false;
     external_links_count := 0; is_new_domain := true; is_whitelisted := false |}.

Definition scenario_config : config :=
  {| cfg_patterns := [];
     cfg_whitelist := ["google.com"; "facebook.com"; "amazon.com"];
     cfg_endpoint := Some "http://localhost:8000/predict" |}.

(** Every collaborator is unreachable. *)
Definition scenario_world : world :=
  {| tls := fun _ => Raise (OSError "timed out");
     fetch := fun _ => Raise (LibraryError "ConnectionError" "connection refused");
     whois := fun _ => Raise (LibraryError "PywhoisError" "no match");
     clock := day 20000;
     post := fun _ _ => Raise (LibraryError "ConnectionError" "connection refused") |}.

Definition scenario_features : result (gmap string pyval) :=
  collect_features netloc_of has_dotted_quad literal_search (fun _ => EmptyString)
    scenario_config scenario_world scenario_url.

(** ** Sample inputs *)

(** A reachable page on a long host name, with a login form. *)
Definition sample_features : gmap string pyval :=
  <["url" := PStr "https://secure-login.accounts.example.org/verify"]>
  (<["domain" := PStr "secure-login.accounts.example.org"]>
  (<["has_ip" := PBool false]>
  (<["suspicious_patterns" := PList [PStr "secure.*login"]]>
  (<["domain_length" := PInt 33]>
  (<["subdomain_count" := PInt 2]>
  (<["is_whitelisted" := PBool false]>
  (<["ssl_info" :=
       PDict (<["valid" := PBool true]>
             (<["expires" := PStr "Jan  1 00:00:00 2030 GMT"]>
             (<["is_self_signed" := PBool false]> ∅)))]>
  (<["content_analysis" :=
       PDict (<["suspicious_keywords" := PList [PStr "act now"]]>
             (<["has_forms" := PBool true]>
             (<["has_password_field" := PBool true]>
             (<["form_count" := PInt 1]>
             (<["external_links_count" := PInt 12]>
             (<["title" := PStr "Sign in"]>
             (<["has_favicon" := PBool false]> ∅)))))))]>
  (<["domain_info" :=
       PDict (<["creation_date" := PStr "2020-01-01 00:00:00"]>
             (<["days_old" := PInt 400]>
             (<["registrar" := PStr "Example Registrar"]>
             (<["is_new_domain" := PBool false]> ∅))))]> ∅))))))))).

Definition sample_vector : FeatureVector :=
  {| has_ip := false; suspicious_patterns := [PStr "secure.*login"];
     domain_length := 33; subdomain_count := 2; tls_valid := true;
     tls_self_signed := false; suspicious_keywords := [PStr "act now"];
     has_password_field := true; external_links_count := 12;
     is_new_domain := false; is_whitelisted := false |}.

(** A long host name without working TLS, with a password form: four
    terms of 0.1, 0.3, 0.2 and 0.1 apply. *)
Definition rounding_features : gmap string pyval :=
  <["has_ip" := PBool false]>
  (<["suspicious_patterns" := PList []]>
  (<["domain_length" := PInt 31]>
  (<["subdomain_count" := PInt 1]>
  (<["is_whitelisted" := PBool false]>
  (<["ssl_info" :=
       PDict (<["valid" := PBool false]>
             (<["error" := PStr "timed out"]>
             (<["is_self_signed" := PBool true]> ∅)))]>
  (<["content_analysis" :=
       PDict (<["suspicious_keywords" := PList []]>
             (<["has_forms" := PBool true]>
             (<["has_password_field" := PBool true]>
             (<["form_count" := PInt 1]>
             (<["external_links_count" := PInt 0]>
             (<["title" := PStr "Sign in"]>
             (<["has_favicon" := PBool false]> ∅)))))))]>
  (<["domain_info" :=
       PDict (<["creation_date" := PStr "2020-01-01 00:00:00"]>
             (<["days_old" := PInt 400]>
             (<["registrar" := PStr "Example Registrar"]>
             (<["is_new_domain" := PBool false]> ∅))))]> ∅))))))).

Definition rounding_vector : FeatureVector :=
  {| has_ip := false; suspicious_patterns := []; domain_length := 31;
     subdomain_count := 1; tls_valid := false; tls_self_signed := true;
     suspicious_keywords := []; has_password_field := true;
     external_links_count := 0; is_new_domain := false; is_whitelisted := false |}.

(** The terms of [rounding_vector] with the two TLS terms moved to the
    front. *)
Definition tls_first (v : FeatureVector) : list spec_float :=
  [ term (negb (tls_valid v)) (F64.dec 3 10);
    term (tls_self_signed v) (F64.dec 2 10);
    term (has_ip v) (F64.dec 3 10);
    count (F64.dec 2 10) (suspicious_patterns v);
    term (30 <? domain_length v) (F64.dec 1 10);
    term (3 <? subdomain_count v) (F64.dec 2 10);
    count (F64.dec 1 10) (suspicious_keywords v);
    term (has_password_field v) (F64.dec 1 10);
    term (10 <? external_links_count v) (F64.dec 1 10);
    term (is_new_domain v) (F64.dec 2 10) ].

(** The sample page's features when only the content fetch failed. *)
Definition content_degraded_features : gmap string pyval :=
  <["content_analysis" := PDict (content_failure (OSError "timed out"))]>
    sample_features.

(** A protocol-relative href that the URL parser rejects; it does not
    start with [http]. *)
Definition unparsable_relative_link : string := "//[cdn.example/x.js".

(** The same URL features with nothing but error records behind them. *)
Definition degraded_features : gmap string pyval :=
  <["has_ip" := PBool true]>
  (<["suspicious_patterns" := PList []]>
  (<["domain_length" := PInt 10]>
  (<["subdomain_count" := PInt 2]>
  (<["is_whitelisted" := PBool false]>
  (<["ssl_info" := PDict (<["error" := PStr "timed out"]> ∅)]>
  (<["content_analysis" := PDict (content_failure (OSError "timed out"))]> ∅)))))).

Definition degraded_vector : FeatureVector :=
  {| has_ip := true; suspicious_patterns := []; domain_length := 10;
     subdomain_count := 2; tls_valid := false; tls_self_signed := false;
     suspicious_keywords := []; has_password_field := false;
     external_links_count := 0; is_new_domain := false; is_whitelisted := false |}.

(** A remote answer outside the unit interval, one without the field on
    an error status, and an error status that carries the field. *)
Definition response_with (status : Z) (body : gmap string pyval) : result http_response :=
  Ok {| status_code := status; json := Ok (PDict body) |}.

Definition remote_too_high : result http_response :=
  response_with 200 (<["phishing_probability" := PFloat (F64.dec 15 10)]> ∅).

Definition remote_missing_field : result http_response :=
  response_with 200 (<["detail" := PStr "model not loaded"]> ∅).

Definition remote_server_error : result http_response :=
  response_with 503 (<["phishing_probability" := PFloat (F64.dec 1 10)]> ∅).

Definition remote_timeout : result http_response :=
  Raise (LibraryError "ReadTimeout" "Read timed out. (read timeout=5)").

(** A page on host [a.example] that links twice to the same page of
    [b.example], and one whose only anchor does not parse. *)
Definition page_with_links (links : list string) : page :=
  {| text_content := ""; forms := []; anchors := links;
     title := None; favicon := false |}.

Definition page_url : string := "http://a.example/".
Definition repeated_link : string := "http://b.example/x".
Definition malformed_link : string := "http://[b.example/x".

(** ** Counting and ranking *)

(** The number of occurrences of a character in a string. *)
Fixpoint count_char (c : ascii) (s : string) : nat :=
  match s with
  | EmptyString => 0%nat
  | String c' rest =>
      ((if Ascii.eqb c' c then 1 else 0) + count_char c rest)%nat
  end.

(** The severity order of the labels. *)
Definition risk_rank (r : risk_level) : nat :=
  match r with LOW => 0%nat | MEDIUM => 1%nat | HIGH => 2%nat end.

(** The keys [rule_based_scoring] reads, at the top level and in each of
    the three sub-records. *)
Definition scorer_keys : list string :=
  [ "has_ip"; "suspicious_patterns"; "domain_length"; "subdomain_count";
    "ssl_info"; "content_analysis"; "domain_info"; "is_whitelisted" ].

Definition required_keys : list string :=
  [ "has_ip"; "suspicious_patterns"; "domain_length"; "subdomain_count";
    "is_whitelisted" ].

Definition feature_keys : list string :=
  [ "url"; "domain"; "has_ip"; "suspicious_patterns"; "domain_length";
    "subdomain_count"; "is_whitelisted"; "ssl_info"; "content_analysis";
    "domain_info" ].

(** ** The web front end (web_interface.py) *)

Module WebInterface.

(** [v == s] for a string literal [s] *)
Definition py_eq_str (v : pyval) (s : string) : bool :=
  match v with
  | PStr t => String.eqb t s
  | _ => false
  end.

Definition rec_high_risk : string :=
  "⚠️ HIGH RISK: Do not enter personal information on this site".
Definition rec_avoid_links : string :=
  "🚫 Avoid clicking links or downloading files".
Definition rec_contact_directly : string :=
  "📞 Contact the legitimate organization directly if needed".
Definition rec_ip_address : string :=
  "🔍 Site uses IP address instead of domain name - suspicious".
Definition rec_no_ssl : string :=
  "🔒 No valid SSL certificate - data transmission not secure".
Definition rec_urgent_language : string :=
  "⚡ Contains urgent/suspicious language - be cautious".
Definition rec_new_domain : string :=
  "📅 Domain is very new - exercise extra caution".
Definition rec_appears_legitimate : string :=
  "✅ Site appears legitimate, but always verify URLs carefully".

Definition high_risk_block : list string :=
  [rec_high_risk; rec_avoid_links; rec_contact_directly].

Definition generate_recommendations (analysis : gmap string pyval)
  : result (list string) :=
  let recommendations : list string := [] in
  features <- getitem analysis "features";;
  risk_level <- getitem analysis "risk_level";;
  let recommendations :=
    if py_eq_str risk_level "HIGH"
    then (recommendations ++ high_risk_block)%list else recommendations in
  has_ip <- py_get features "has_ip" PNone;;
  let recommendations :=
    if truthy has_ip then (recommendations ++ [rec_ip_address])%list else recommendations in
  ssl_info <- py_get features "ssl_info" (PDict ∅);;
  valid <- py_get ssl_info "valid" PNone;;
  let recommendations :=
    if negb (truthy valid) then (recommendations ++ [rec_no_ssl])%list else recommendations in
  content <- py_get features "content_analysis" (PDict ∅);;
  keywords <- py_get content "suspicious_keywords" PNone;;
  let recommendations :=
    if truthy keywords
    then (recommendations ++ [rec_urgent_language])%list else recommendations in
  domain_info <- py_get features "domain_info" (PDict ∅);;
  is_new <- py_get domain_info "is_new_domain" PNone;;
  let recommendations :=
    if truthy is_new then (recommendations ++ [rec_new_domain])%list else recommendations in
  let recommendations :=
    if py_eq_str risk_level "LOW"
    then (recommendations ++ [rec_appears_legitimate])%list else recommendations in
  Ok recommendations.

(** What the endpoint answers: the response body, or the HTTP error it
    raises. *)
Inductive http_reply :=
  | Response (body : gmap string pyval)
  | HTTPException (status : Z) (detail : string).

Section Endpoint.

Variable urlparse_netloc : string -> result string.
Variable ip_search : string -> bool.
Variable pattern_search : string -> string -> bool.
Variable str_datetime : Z -> string.
(** The response model's validation of its [ai_score: float] field. *)
Variable validate_float : pyval -> result pyval.

(** [DetectionResponse(url=..., risk_level=..., ai_score=..., ...)] *)
Definition detection_response (url : string) (analysis : gmap string pyval)
    (recommendations : list string) : result (gmap string pyval) :=
  risk_level <- getitem analysis "risk_level";;
  ai_score <- getitem analysis "ai_score";;
  features <- getitem analysis "features";;
  ai_score <- validate_float ai_score;;
  Ok (<["url" := PStr url]>
      (<["risk_level" := risk_level]>
      (<["ai_score" := ai_score]>
      (<["features" := features]>
      (<["recommendations" := PList (PStr <$> recommendations)]> ∅))))).

(** The POST /analyze handler. *)
Definition analyze_url (cfg : config) (w : world) (url : string) : http_reply :=
  match (analysis <- analyze_url urlparse_netloc ip_search pattern_search
                       str_datetime cfg w url;;
         recommendations <- generate_recommendations analysis;;
         detection_response url analysis recommendations) with
  | Ok body => Response body
  | Raise e => HTTPException 500 (str_exn e)
  end.

End Endpoint.

End WebInterface.

(** ** Configuration (load_config, create_default_config, __init__) *)

(** A file is JSON text, given by the value it parses to, or other text,
    or cannot be opened for reading.  The store is flat; [writable] tells
    which paths can be opened for writing. *)
Inductive file :=
  | JsonFile (v : pyval)
  | TextFile (text : string)
  | Unreadable (msg : string).

Record filesystem := {
  files : gmap string file;
  writable : string -> bool
}.

Definition file_not_found (path : string) : exn :=
  LibraryError "FileNotFoundError"
    ("[Errno 2] No such file or directory: '" ++ path ++ "'").

Definition is_file_not_found (e : exn) : bool :=
  match e with
  | LibraryError cls _ => String.eqb cls "FileNotFoundError"
  | _ => false
  end.

(** [json.load(open(path, 'r'))] *)
Definition read_json (fs : filesystem) (path : string) : result pyval :=
  match files fs !! path with
  | None => Raise (file_not_found path)
  | Some (Unreadable msg) => Raise (OSError msg)
  | Some (TextFile _) => Raise (LibraryError "JSONDecodeError" "Expecting value")
  | Some (JsonFile v) => Ok v
  end.

(** [json.dump(v, open(path, 'w'))] *)
Definition write_json (fs : filesystem) (path : string) (v : pyval)
  : result filesystem :=
  if writable fs path
  then Ok {| files := <[path := JsonFile v]> (files fs); writable := writable fs |}
  else Raise (OSError ("[Errno 13] Permission denied: '" ++ path ++ "'")).

Definition default_config : gmap string pyval :=
  <["suspicious_patterns" :=
      PList [ PStr "[0-9]+\.[0-9]+\.[0-9]+\.[0-9]+";
              PStr "[a-z]+-[a-z]+\.(tk|ml|ga|cf)";
              PStr "secure.*login";
              PStr "verify.*account" ]]>
  (<["whitelist_domains" :=
      PList [PStr "google.com"; PStr "facebook.com"; PStr "amazon.com"]]>
  (<["ai_model_endpoint" := PStr "http://localhost:8000/predict"]> ∅)).

Definition create_default_config (fs : filesystem) (config_file : string)
  : result (pyval * filesystem) :=
  fs' <- write_json fs config_file (PDict default_config);;
  Ok (PDict default_config, fs').

Definition load_config (fs : filesystem) (config_file : string)
  : result (pyval * filesystem) :=
  match read_json fs config_file with
  | Ok v => Ok (v, fs)
  | Raise e =>
      if is_file_not_found e then create_default_config fs config_file
      else Raise e
  end.

(** The state of a detector object. *)
Record detector := {
  det_config : pyval;
  det_patterns : pyval;
  det_whitelist : pyval
}.

(** [PhishingDetector(config_file)] *)
Definition init (fs : filesystem) (config_file : string)
  : result (detector * filesystem) :=
  loaded <- load_config fs config_file;;
  patterns <- py_get (fst loaded) "suspicious_patterns" (PList []);;
  whitelist <- py_get (fst loaded) "whitelist_domains" (PList []);;
  Ok ({| det_config := fst loaded; det_patterns := patterns;
         det_whitelist := whitelist |}, snd loaded).

(** The strings of a list of strings. *)
Fixpoint strings_of (l : list pyval) : option (list string) :=
  match l with
  | [] => Some []
  | PStr s :: rest => cons s <$> strings_of rest
  | _ :: _ => None
  end.

(** The detector's settings as the analysis takes them, when the patterns
    and the whitelist are lists of strings. *)
Definition detector_config (d : detector) : option config :=
  match det_patterns d, det_whitelist d, det_config d with
  | PList ps, PList ws, PDict c =>
      patterns ← strings_of ps;
      whitelist ← strings_of ws;
      Some {| cfg_patterns := patterns; cfg_whitelist := whitelist;
              cfg_endpoint := match c !! "ai_model_endpoint" with
                              | Some (PStr s) => Some s
                              | _ => None
                              end |}
  | _, _, _ => None
  end.

(** Every recommendation the front end can give, in the order in which
    they are appended. *)
Definition all_recommendations : list string :=
  [ WebInterface.rec_high_risk; WebInterface.rec_avoid_links;
    WebInterface.rec_contact_directly; WebInterface.rec_ip_address;
    WebInterface.rec_no_ssl; WebInterface.rec_urgent_language;
    WebInterface.rec_new_domain; WebInterface.rec_appears_legitimate ].

(** The recommendations that follow from the features, not from the label. *)
Definition feature_recommendations (ip no_ssl urgent new : bool) : list string :=
  ((if ip then [WebInterface.rec_ip_address] else [])
   ++ (if no_ssl then [WebInterface.rec_no_ssl] else [])
   ++ (if urgent then [WebInterface.rec_urgent_language] else [])
   ++ (if new then [WebInterface.rec_new_domain] else []))%list.

(** What a collection of features from host [netloc] in world [w]
    establishes about the dictionary [f] it returns: [f] reads as the
    vector [v], and the fields of [v] come from the host, the settings and
    the outcomes of the extractors.  [ip] and [patterns] are what the two
    regular-expression searches found. *)
Record collected (cfg : config) (w : world) (netloc : string) (ip : bool)
    (patterns : list string) (f : gmap string pyval) (v : FeatureVector)
  : Prop := {
  col_vector : feature_vector f = Some v;
  col_keys : dom f = list_to_set feature_keys;
  col_has_ip : has_ip v = ip;
  col_patterns : suspicious_patterns v = PStr <$> patterns;
  col_domain_length : domain_length v = Z.of_nat (String.length netloc);
  col_subdomain_count :
    subdomain_count v = Z.of_nat (length (split_on "."%char netloc)) - 2;
  col_whitelisted :
    is_whitelisted v = bool_decide (netloc ∈ cfg_whitelist cfg);
  col_tls_failed : tls_valid v = false <-> exists e, tls w netloc = Raise e;
  col_self_signed : tls_valid v = false -> tls_self_signed v = true;
  col_whois_failed :
    forall e, whois w netloc = Raise e -> is_new_domain v = true;
  col_ssl_info :
    exists ssl, f !! "ssl_info" = Some (PDict ssl)
                /\ ssl !! "valid" = Some (PBool (tls_valid v));
  col_content :
    exists content,
      f !! "content_analysis" = Some (PDict content)
      /\ list_field content "suspicious_keywords" = Some (suspicious_keywords v);
  col_domain_info :
    exists dinfo, f !! "domain_info" = Some (PDict dinfo)
                  /\ dinfo !! "is_new_domain" = Some (PBool (is_new_domain v))
}.

(** ** Sample inputs of the wider analysis *)

(** A login page with urgent wording, a password form and three anchors,
    none of them an absolute link. *)
Definition login_page : page :=
  {| text_content := "your account is suspended. act now to verify account";
     forms := [[Some "text"; Some "password"; None]];
     anchors := ["/help"; "mailto:support@a.example"; "//cdn.a.example/app.js"];
     title := Some (Some "Sign in"); favicon := true |}.

Definition whitelisted_url : string := "https://google.com/search?q=mail".

(** An analysis result whose remote score is 0.9. *)
Definition sample_analysis : gmap string pyval :=
  <["features" := PDict sample_features]>
  (<["ai_score" := PFloat (F64.dec 9 10)]>
  (<["risk_level" := PStr "HIGH"]> ∅)).

(** A response model that takes floats, converts integers and rejects
    every other value. *)
Definition strict_float (v : pyval) : result pyval :=
  match v with
  | PFloat x => Ok (PFloat x)
  | PInt z => Ok (PFloat (F64.of_Z z))
  | _ => Raise (LibraryError "ValidationError" "Input should be a valid number")
  end.

(** A store without files in which every path can be written, and one
    whose configuration file names an endpoint only. *)
Definition empty_store : filesystem :=
  {| files := ∅; writable := fun _ => true |}.

Definition config_path : string := "detector_config.json".

Definition endpoint_only : gmap string pyval :=
  <["ai_model_endpoint" := PStr "http://localhost:8000/predict"]> ∅.

Definition endpoint_only_store : filesystem :=
  {| files := <[config_path := JsonFile (PDict endpoint_only)]> ∅;
     writable := fun _ => false |}.

(** * Properties *)

(** ** Binary64 arithmetic *)

Lemma binary_round_aux_nonneg m e l :
  F64.nonneg (binary_round_aux F64.prec F64.emax false m e l).
Proof.
  unfold binary_round_aux.
  destruct (shr_fexp _ _ m e l) as [mrs' e'].
  destruct (shr_fexp _ _ _ e' loc_Exact) as [mrs'' e''].
  destruct (shr_m mrs''); [exact I | | exact I].
  destruct (Z.leb _ _); exact I.
Qed.

Lemma binary_round_nonneg m e :
  F64.nonneg (binary_round F64.prec F64.emax false m e).
Proof.
  unfold binary_round.
  destruct (shl_align _ _ _) as [mz ez]. apply binary_round_aux_nonneg.
Qed.

Lemma of_Z_nonneg z : 0 <= z -> F64.nonneg (F64.of_Z z).
Proof.
  intros Hz. unfold F64.of_Z, binary_normalize.
  destruct z as [|p|p]; [exact I | apply binary_round_nonneg | lia].
Qed.

Lemma add_nonneg x y : F64.nonneg x -> F64.nonneg y -> F64.nonneg (F64.add x y).
Proof.
  destruct x as [[]|[]| |[] mx ex], y as [[]|[]| |[] my ey];
    cbn; try tauto; intros _ _.
  unfold binary_normalize, cond_Zopp.
  destruct (shl_align mx ex _) as [a ?], (shl_align my ey _) as [b ?]; cbn.
  apply binary_round_nonneg.
Qed.

Lemma mul_nonneg x y : F64.nonneg x -> F64.nonneg y -> F64.nonneg (F64.mul x y).
Proof.
  destruct x as [[]|[]| |[] mx ex], y as [[]|[]| |[] my ey];
    cbn; try tauto; intros _ _.
  apply binary_round_aux_nonneg.
Qed.

Lemma add_zero_r x : F64.nonneg x -> F64.add x F64.zero = x.
Proof. destruct x as [[]|[]| |[] mx ex]; cbn; tauto. Qed.

Lemma sub_zero_r x : F64.nonneg x -> F64.sub x F64.zero = x.
Proof. destruct x as [[]|[]| |[] mx ex]; cbn; tauto. Qed.

Lemma dec_nonneg n d : 0 <= n -> 0 < d -> F64.nonneg (F64.dec n d).
Proof.
  intros Hn Hd. unfold F64.dec.
  pose proof (of_Z_nonneg n Hn) as Hx.
  assert (F64.nonneg (F64.of_Z d)) as Hy by (apply of_Z_nonneg; lia).
  destruct (F64.of_Z n) as [[]|[]| |[] mx ex], (F64.of_Z d) as [[]|[]| |[] my ey];
    cbn in *; try tauto.
  destruct (SFdiv_core_binary _ _ _ _ _ _) as [[mz ez] lz].
  apply binary_round_aux_nonneg.
Qed.

(** ** Reading typed fields *)

Lemma required_bool_lookup (d : gmap string pyval) k b :
  required d k (fun d k => bool_field d k false) = Some b -> d !! k = Some (PBool b).
Proof.
  unfold required, bool_field.
  destruct (d !! k) as [[]|]; intros; simplify_eq; reflexivity.
Qed.

Lemma required_int_lookup (d : gmap string pyval) k z :
  required d k (fun d k => int_field d k 0) = Some z -> d !! k = Some (PInt z).
Proof.
  unfold required, int_field.
  destruct (d !! k) as [[]|]; intros; simplify_eq; reflexivity.
Qed.

Lemma required_list_lookup (d : gmap string pyval) k l :
  required d k list_field = Some l -> d !! k = Some (PList l).
Proof.
  unfold required, list_field.
  destruct (d !! k) as [[]|]; intros; simplify_eq; reflexivity.
Qed.

Lemma sub_record_get (d : gmap string pyval) k r :
  sub_record d k = Some r -> dict_get d k (PDict ∅) = PDict r.
Proof.
  unfold sub_record, dict_get.
  destruct (d !! k) as [[]|]; intros; simplify_eq; reflexivity.
Qed.

Lemma bool_field_get (d : gmap string pyval) k dflt b :
  bool_field d k dflt = Some b -> dict_get d k (PBool dflt) = PBool b.
Proof.
  unfold bool_field, dict_get.
  destruct (d !! k) as [[]|]; intros; simplify_eq; reflexivity.
Qed.

Lemma int_field_get (d : gmap string pyval) k dflt z :
  int_field d k dflt = Some z -> dict_get d k (PInt dflt) = PInt z.
Proof.
  unfold int_field, dict_get.
  destruct (d !! k) as [[]|]; intros; simplify_eq; reflexivity.
Qed.

Lemma list_field_get (d : gmap string pyval) k l :
  list_field d k = Some l ->
  (d !! k = None /\ l = []) \/ d !! k = Some (PList l).
Proof.
  unfold list_field.
  destruct (d !! k) as [[]|]; intros; simplify_eq; auto.
Qed.

Lemma py_gt_int z n : py_gt (PInt z) (NInt n) = Ok (n <? z).
Proof.
  unfold py_gt; cbn. f_equal.
  rewrite <- Z.gtb_ltb. reflexivity.
Qed.

(** ** The scorer against the weighted sum *)

Lemma fold_terms (ts : list (bool * spec_float)) (s : spec_float) :
  Forall (fun t => F64.nonneg (snd t)) ts -> F64.nonneg s ->
  fold_left F64.add (map (fun t => term (fst t) (snd t)) ts) s = fold_left update ts s
  /\ F64.nonneg (fold_left update ts s).
Proof.
  intros Hts. revert s. induction Hts as [|[c w] ts Hw _ IH]; intros s Hs.
  - split; [reflexivity | exact Hs].
  - cbn [map fold_left fst snd]. cbn in Hw.
    assert (F64.add s (term c w) = update s (c, w)) as ->.
    { unfold update, term; destruct c; cbn [fst snd]; auto using add_zero_r. }
    apply IH. unfold update; destruct c; cbn [fst snd]; auto using add_nonneg.
Qed.

Lemma count_term w {A} (l : list A) :
  F64.mul w F64.zero = F64.zero ->
  count w l = term (match l with [] => false | _ => true end)
                   (F64.mul w (F64.of_Z (Z.of_nat (length l)))).
Proof. intros Hw. destruct l; [exact Hw | reflexivity]. Qed.

Lemma positive_terms_guarded v :
  positive_terms v = map (fun t => term (fst t) (snd t)) (guarded_terms v).
Proof.
  unfold positive_terms, guarded_terms. cbn [map fst snd].
  rewrite !count_term by (vm_compute; reflexivity). reflexivity.
Qed.

Lemma zero_lt_one : SFcompare F64.zero F64.one = Some Lt.
Proof. vm_compute. reflexivity. Qed.

Lemma zero_le_zero : SFcompare F64.zero F64.zero = Some Eq.
Proof. reflexivity. Qed.

Lemma one_le_one : SFcompare F64.one F64.one = Some Eq.
Proof. vm_compute. reflexivity. Qed.

Lemma clamp01_cases x :
  (F64.lt F64.zero x = true /\ F64.lt x F64.one = true /\ clamp01 x = x)
  \/ (F64.lt F64.zero x = true /\ F64.lt x F64.one = false /\ clamp01 x = F64.one)
  \/ (F64.lt F64.zero x = false /\ clamp01 x = F64.zero).
Proof.
  unfold clamp01, F64.py_min, F64.py_max, F64.gt.
  fold (F64.lt F64.zero x).
  destruct (F64.lt F64.zero x) eqn:H0.
  - fold (F64.lt x F64.one). destruct (F64.lt x F64.one) eqn:H1; auto.
  - right; right. split; [reflexivity|].
    unfold F64.lt, F64.ltb, SFltb. rewrite zero_lt_one. reflexivity.
Qed.

Lemma clamp01_in_unit_interval x : in_unit_interval (clamp01 x).
Proof.
  unfold in_unit_interval, F64.leb, SFleb.
  destruct (clamp01_cases x) as [(H0 & H1 & ->)|[(H0 & H1 & ->)|(H0 & ->)]].
  - unfold F64.lt, F64.ltb, SFltb in H0, H1.
    destruct (SFcompare F64.zero x) as [[]|]; try discriminate.
    destruct (SFcompare x F64.one) as [[]|]; try discriminate.
    split; reflexivity.
  - rewrite zero_lt_one, one_le_one. split; reflexivity.
  - rewrite zero_lt_one, zero_le_zero. split; reflexivity.
Qed.

#[local] Opaque F64.add F64.sub F64.mul F64.dec F64.of_Z F64.py_min F64.py_max
  F64.zero F64.one.

Lemma guarded_terms_nonneg v :
  Forall (fun t => F64.nonneg (snd t)) (guarded_terms v).
Proof.
  unfold guarded_terms.
  repeat apply Forall_cons_2; try apply Forall_nil_2; cbn [snd];
    try (apply dec_nonneg; lia);
    (apply mul_nonneg; [apply dec_nonneg; lia | apply of_Z_nonneg; lia]).
Qed.

Lemma weighted_sum_updates v :
  weighted_sum v =
  let s := fold_left update (guarded_terms v) F64.zero in
  if is_whitelisted v then F64.sub s (F64.dec 5 10) else s.
Proof.
  unfold weighted_sum. rewrite positive_terms_guarded.
  destruct (fold_terms (guarded_terms v) F64.zero (guarded_terms_nonneg v) I)
    as [-> Hnn].
  cbv zeta. unfold term. destruct (is_whitelisted v); [reflexivity|].
  apply sub_zero_r, Hnn.
Qed.

Ltac option_bind H :=
  repeat match type of H with
  | mbind _ ?x = Some _ =>
      let E := fresh "E" in
      destruct x eqn:E; cbn [mbind option_bind] in H; [|discriminate H]
  end.

Lemma rule_based_scoring_eq features v :
  feature_vector features = Some v ->
  rule_based_scoring features = Ok (clamp01 (weighted_sum v)).
Proof.
  intros H. unfold feature_vector in H. option_bind H.
  injection H as <-.
  apply required_bool_lookup in E, E3.
  apply required_list_lookup in E0.
  apply required_int_lookup in E1, E2.
  apply sub_record_get in E4, E5, E6.
  apply bool_field_get in E7, E8, E10, E12.
  apply int_field_get in E11.
  rewrite weighted_sum_updates. unfold guarded_terms. cbn [fold_left fst snd
    has_ip suspicious_patterns domain_length subdomain_count tls_valid tls_self_signed
    suspicious_keywords has_password_field external_links_count is_new_domain
    is_whitelisted].
  unfold update; cbn [fst snd].
  unfold rule_based_scoring, getitem.
  rewrite E, E0, E1, E2, E3, E4, E5, E6.
  unfold py_get. rewrite E7, E8, E10, E11, E12.
  cbn [bind truthy]. rewrite !py_gt_int. cbn [bind py_len].
  apply list_field_get in E9 as [[E9 ->]|E9];
    unfold dict_get at 1; rewrite E9; cbn [default truthy bind].
  - destruct l; reflexivity.
  - destruct l; [destruct l0|destruct l0]; cbn [bind py_len]; reflexivity.
Qed.

(** C1, as amended.  For every feature vector the scorer returns the sum
    of the eleven terms, each term entering exactly when its own feature
    says so, whatever the other features are.  The sum is a binary64 sum:
    the additions are carried out in the listed order, each one rounded,
    and the whitelist deduction comes last; it is this rounded sum, which
    the order of the additions can change, and not the exact one.  The sum
    is clamped: a sum that is not above 0 gives 0.0, a sum that is not below
    1 gives 1.0, and a sum strictly between is returned as it is; so the
    score lies in [0, 1].  The score is a function of the feature vector
    alone: another dictionary that reads as the same vector gets the same
    score. *)
Theorem rule_based_scoring_weighted_sum features v :
  feature_vector features = Some v ->
  rule_based_scoring features = Ok (clamp01 (weighted_sum v))
  /\ weighted_sum v = weighted_sum_in (positive_terms v) v
  /\ in_unit_interval (clamp01 (weighted_sum v))
  /\ ((F64.lt F64.zero (weighted_sum v) = true
       /\ F64.lt (weighted_sum v) F64.one = true
       /\ clamp01 (weighted_sum v) = weighted_sum v)
      \/ (F64.lt F64.zero (weighted_sum v) = true
          /\ F64.lt (weighted_sum v) F64.one = false
          /\ clamp01 (weighted_sum v) = F64.one)
      \/ (F64.lt F64.zero (weighted_sum v) = false
          /\ clamp01 (weighted_sum v) = F64.zero))
  /\ (forall features',
        feature_vector features' = Some v ->
        rule_based_scoring features' = rule_based_scoring features).
Proof.
  intros Hv. split; [apply rule_based_scoring_eq, Hv|].
  split; [reflexivity|].
  split; [apply clamp01_in_unit_interval|].
  split; [apply clamp01_cases|].
  intros features' Hv'.
  rewrite (rule_based_scoring_eq _ _ Hv), (rule_based_scoring_eq _ _ Hv').
  reflexivity.
Qed.

(** ** The risk label *)

Lemma SFcompare_antisym x y :
  SFcompare y x = option_map CompOpp (SFcompare x y).
Proof.
  destruct x as [[]|[]| |[] mx ex], y as [[]|[]| |[] my ey]; cbn; try reflexivity.
  - rewrite (Z.compare_antisym ex ey).
    destruct (ex ?= ey); cbn; try reflexivity.
    rewrite (Pos.compare_cont_antisym mx my Eq). cbn.
    destruct (Pos.compare_cont Eq mx my); reflexivity.
  - rewrite (Z.compare_antisym ex ey).
    destruct (ex ?= ey); cbn; try reflexivity.
    rewrite (Pos.compare_cont_antisym mx my Eq). reflexivity.
Qed.

Lemma SFcompare_nan x y :
  SFcompare x y = None -> F64.is_nan x = true \/ F64.is_nan y = true.
Proof.
  destruct x as [[]|[]| |[] mx ex], y as [[]|[]| |[] my ey]; cbn; auto; discriminate.
Qed.

(** Away from NaN, [not (y < x)] is [x <= y]. *)
Lemma not_gt_leb x y :
  F64.is_nan x = false -> F64.is_nan y = false ->
  F64.gt x y = false <-> F64.leb x y = true.
Proof.
  intros Hx Hy. unfold F64.gt, F64.ltb, F64.leb, SFltb, SFleb.
  rewrite (SFcompare_antisym x y).
  destruct (SFcompare x y) as [[]|] eqn:E; cbn; try tauto; try (split; congruence).
  apply SFcompare_nan in E as [E|E]; congruence.
Qed.

Lemma gt_leb_false x y : F64.gt x y = true -> F64.leb x y = false.
Proof.
  unfold F64.gt, F64.ltb, F64.leb, SFltb, SFleb.
  rewrite (SFcompare_antisym x y).
  destruct (SFcompare x y) as [[]|]; cbn; congruence.
Qed.

Lemma py_gt_float x y : py_gt (PFloat x) (NFloat y) = Ok (F64.gt x y).
Proof.
  unfold py_gt, F64.gt, F64.ltb, SFltb; cbn. unfold F64.compare.
  rewrite (SFcompare_antisym x y).
  destruct (SFcompare x y) as [[]|]; reflexivity.
Qed.

Lemma gt_not_nan x y : F64.gt x y = true -> F64.is_nan x = false.
Proof.
  unfold F64.gt, F64.ltb, SFltb.
  destruct x as [[]|[]| |[] mx ex], y as [[]|[]| |[] my ey]; cbn; congruence.
Qed.

Lemma dec_7_10 : F64.dec 7 10 = S754_finite false 6305039478318694 (-53).
Proof. vm_compute. reflexivity. Qed.

Lemma dec_4_10 : F64.dec 4 10 = S754_finite false 7205759403792794 (-54).
Proof. vm_compute. reflexivity. Qed.

Lemma gt_seven_gt_four x :
  F64.gt x (F64.dec 7 10) = true -> F64.gt x (F64.dec 4 10) = true.
Proof.
  unfold F64.gt, F64.ltb, SFltb. rewrite dec_7_10, dec_4_10.
  destruct x as [[]|[]| |[] m e]; cbn [SFcompare]; try congruence.
  destruct (Z.compare_spec (-53) e), (Z.compare_spec (-54) e);
    try congruence; lia.
Qed.

Lemma seven_tenths_is_medium :
  F64.gt (F64.dec 7 10) (F64.dec 7 10) = false
  /\ F64.gt (F64.dec 7 10) (F64.dec 4 10) = true.
Proof. vm_compute. split; reflexivity. Qed.

Lemma calculate_risk_level_code (f : gmap string pyval) wl score :
  f !! "is_whitelisted" = Some (PBool wl) ->
  calculate_risk_level f (PFloat score) = Ok (if wl then LOW else label_of score).
Proof.
  intros Hf. unfold calculate_risk_level, getitem, label_of. rewrite Hf.
  cbn [bind truthy]. destruct wl; [reflexivity|].
  rewrite !py_gt_float. cbn [bind].
  destruct (F64.gt score (F64.dec 7 10)); [reflexivity|]. cbn [bind].
  destruct (F64.gt score (F64.dec 4 10)); reflexivity.
Qed.

Lemma label_of_spec score :
  (label_of score = HIGH <-> F64.gt score (F64.dec 7 10) = true)
  /\ (label_of score = MEDIUM <->
        F64.gt score (F64.dec 4 10) = true /\ F64.leb score (F64.dec 7 10) = true)
  /\ (F64.is_nan score = false ->
        (label_of score = LOW <-> F64.leb score (F64.dec 4 10) = true)).
Proof.
  assert (F64.is_nan (F64.dec 7 10) = false) as N7 by (vm_compute; reflexivity).
  assert (F64.is_nan (F64.dec 4 10) = false) as N4 by (vm_compute; reflexivity).
  unfold label_of.
  destruct (F64.gt score (F64.dec 7 10)) eqn:H7.
  - pose proof (gt_seven_gt_four _ H7) as H4.
    pose proof (gt_leb_false _ _ H7) as L7.
    pose proof (gt_leb_false _ _ H4) as L4.
    repeat split; try congruence; intros [? ?]; congruence.
  - destruct (F64.gt score (F64.dec 4 10)) eqn:H4.
    + pose proof (gt_leb_false _ _ H4) as L4.
      pose proof (gt_not_nan _ _ H4) as Hn.
      apply (not_gt_leb _ _ Hn N7) in H7.
      repeat split; try congruence; auto.
    + repeat split; try congruence;
        try (intros [? ?]; congruence);
        intros; apply not_gt_leb; assumption.
Qed.

(** C2.  A whitelisted host is labelled LOW whatever the score is.
    Otherwise the label is HIGH exactly when the score is above 0.7, MEDIUM
    exactly when it is above 0.4 and at most 0.7, and, for a score that is a
    number, LOW exactly when it is at most 0.4; a score of exactly 0.7 is
    MEDIUM.  Nothing but the whitelist flag and the score enters the
    label. *)
Theorem calculate_risk_level_thresholds (features : gmap string pyval) (wl : bool) :
  features !! "is_whitelisted" = Some (PBool wl) ->
  (wl = true -> forall ai_score, calculate_risk_level features ai_score = Ok LOW)
  /\ (wl = false -> forall score,
        exists label,
          calculate_risk_level features (PFloat score) = Ok label
          /\ (label = HIGH <-> F64.gt score (F64.dec 7 10) = true)
          /\ (label = MEDIUM <->
                F64.gt score (F64.dec 4 10) = true /\ F64.leb score (F64.dec 7 10) = true)
          /\ (F64.is_nan score = false ->
                (label = LOW <-> F64.leb score (F64.dec 4 10) = true)))
  /\ (wl = false ->
        calculate_risk_level features (PFloat (F64.dec 7 10)) = Ok MEDIUM)
  /\ (forall features' ai_score,
        features' !! "is_whitelisted" = Some (PBool wl) ->
        calculate_risk_level features' ai_score
        = calculate_risk_level features ai_score).
Proof.
  intros Hwl. split; [|split; [|split]].
  - intros -> a. unfold calculate_risk_level, getitem. rewrite Hwl. reflexivity.
  - intros -> score. exists (label_of score).
    split; [apply (calculate_risk_level_code _ false), Hwl | apply label_of_spec].
  - intros ->. rewrite (calculate_risk_level_code _ false) by exact Hwl.
    unfold label_of. destruct seven_tenths_is_medium as [-> ->]. reflexivity.
  - intros f a Hf. unfold calculate_risk_level, getitem. rewrite Hf, Hwl. reflexivity.
Qed.

(** ** The classifier and its fallback *)

Lemma unavailable_raises remote :
  unavailable remote <-> exists e, remote_prediction remote = Raise e.
Proof.
  split.
  - intros [e|status e|status v Hv]; cbn; eauto.
    destruct v; cbn; eauto. destruct (Hv d); reflexivity.
  - intros [e He]. destruct remote as [[status [v|e']]|e']; cbn in He.
    + apply body_not_object. intros d ->. discriminate.
    + apply unparsable_body.
    + apply transport_failure.
Qed.

(** C3, as amended.  When the remote response carries a JSON object,
    its [phishing_probability] value (0.0 when the object has no such
    field) is returned as received, without clamping; when the remote call
    raises, the returned score is the rule-based score, which lies in
    [0, 1]. *)
Theorem get_ai_prediction_unclamped remote features v :
  feature_vector features = Some v ->
  match remote_prediction remote with
  | Ok p => get_ai_prediction remote features = Ok p
  | Raise _ =>
      exists score,
        get_ai_prediction remote features = Ok (PFloat score)
        /\ rule_based_scoring features = Ok score
        /\ in_unit_interval score
  end
  /\ (forall status body,
        remote = Ok {| status_code := status; json := Ok (PDict body) |} ->
        get_ai_prediction remote features
        = Ok (dict_get body "phishing_probability" (PFloat F64.zero))).
Proof.
  intros Hv. unfold get_ai_prediction. split.
  - destruct (remote_prediction remote); [reflexivity|].
    rewrite (rule_based_scoring_eq _ _ Hv). cbn [bind].
    eexists; split; [reflexivity|]. split; [reflexivity|].
    apply clamp01_in_unit_interval.
  - intros status body ->. reflexivity.
Qed.

(** C4, as amended.  When the remote call raises (transport error,
    timeout), or its body is not JSON or not a JSON object, the prediction
    is exactly the rule-based score and no error reaches the caller.  A
    JSON object without the [phishing_probability] field gives 0.0, whatever
    the status of the response. *)
Theorem get_ai_prediction_fallback remote features v :
  feature_vector features = Some v ->
  (unavailable remote ->
     exists score,
       rule_based_scoring features = Ok score
       /\ get_ai_prediction remote features = Ok (PFloat score))
  /\ (forall status body,
        remote = Ok {| status_code := status; json := Ok (PDict body) |} ->
        body !! "phishing_probability" = None ->
        get_ai_prediction remote features = Ok (PFloat F64.zero)).
Proof.
  intros Hv. split.
  - intros [e He]%unavailable_raises. unfold get_ai_prediction. rewrite He.
    rewrite (rule_based_scoring_eq _ _ Hv). cbn [bind]. eauto.
  - intros status body -> Hb. unfold get_ai_prediction; cbn.
    unfold dict_get. rewrite Hb. reflexivity.
Qed.

(** ** The unreachable IP-literal host *)

Lemma scenario_terms :
  positive_terms scenario_vector =
  [ F64.dec 3 10; F64.zero; F64.zero; F64.zero; F64.dec 3 10;
    F64.dec 2 10; F64.zero; F64.zero; F64.zero; F64.dec 2 10 ]
  /\ weighted_sum scenario_vector = F64.one.
Proof. split; vm_compute; reflexivity. Qed.

Section Scenario.
Variable urlparse_netloc : string -> result string.
Variable ip_search : string -> bool.
Variable pattern_search : string -> string -> bool.
Variable str_datetime : Z -> string.

(** C5, as amended.  For the URL [http://192.0.2.10/login] with the TLS
    check, the content fetch and the registration lookup all failed, no
    pattern matched and the host not whitelisted, the weighted sum is 1.0:
    0.3 for the IP host, 0.3 for invalid TLS, 0.2 for the self-signed default
    of a failed handshake and 0.2 for the new-domain default of a failed
    lookup.  The clamped score is 1.0 and the label is HIGH. *)
Theorem scenario_score cfg w e_tls e_fetch e_whois :
  urlparse_netloc scenario_url = Ok scenario_host ->
  ip_search scenario_host = true ->
  check_suspicious_patterns pattern_search cfg scenario_url = [] ->
  scenario_host ∉ cfg_whitelist cfg ->
  tls w scenario_host = Raise e_tls ->
  fetch w scenario_url = Raise e_fetch ->
  whois w scenario_host = Raise e_whois ->
  exists features,
    collect_features urlparse_netloc ip_search pattern_search str_datetime
      cfg w scenario_url = Ok features
    /\ feature_vector features = Some scenario_vector
    /\ positive_terms scenario_vector
       = [ F64.dec 3 10; F64.zero; F64.zero; F64.zero; F64.dec 3 10;
           F64.dec 2 10; F64.zero; F64.zero; F64.zero; F64.dec 2 10 ]
    /\ weighted_sum scenario_vector = F64.one
    /\ rule_based_scoring features = Ok F64.one
    /\ calculate_risk_level features (PFloat F64.one) = Ok HIGH.
Proof.
  intros Hnet Hip Hpat Hwl Htls Hfetch Hwhois.
  unfold collect_features. rewrite Hnet. cbn [bind].
  rewrite Htls, Hfetch, Hwhois, Hip, Hpat.
  rewrite (bool_decide_eq_false_2 _ Hwl).
  cbn [check_ssl_certificate analyze_content get_domain_info try_except bind].
  eexists. split; [reflexivity|].
  match goal with
  | |- feature_vector ?f = _ /\ _ =>
      assert (feature_vector f = Some scenario_vector) as Hv
        by (vm_compute; reflexivity)
  end.
  split; [exact Hv|].
  destruct scenario_terms as [Hterms Hsum].
  split; [exact Hterms|]. split; [exact Hsum|]. split.
  - rewrite (rule_based_scoring_eq _ _ Hv), Hsum. vm_compute. reflexivity.
  - erewrite (calculate_risk_level_code _ false); [vm_compute; reflexivity|].
    vm_compute. reflexivity.
Qed.
End Scenario.

(** ** The extractors *)

(** C6.  The certificate check never raises.  On any failure of the
    connection or handshake it returns [valid = False],
    [is_self_signed = True] and the text of the exception; on success it
    returns [valid = True] with [is_self_signed] true exactly when issuer and
    subject are equal. *)
Theorem check_ssl_certificate_total :
  (forall handshake, exists d, check_ssl_certificate handshake = Ok d)
  /\ (forall e, exists d,
        check_ssl_certificate (Raise e) = Ok d
        /\ d !! "valid" = Some (PBool false)
        /\ d !! "is_self_signed" = Some (PBool true)
        /\ d !! "error" = Some (PStr (str_exn e)))
  /\ (forall cert, exists d self_signed,
        check_ssl_certificate (Ok cert) = Ok d
        /\ d !! "valid" = Some (PBool true)
        /\ d !! "is_self_signed" = Some (PBool self_signed)
        /\ (self_signed = true <-> cert_issuer cert = cert_subject cert)
        /\ d !! "error" = None).
Proof.
  split; [|split].
  - intros [cert|e]; cbn; eauto.
  - intros e. eexists. split; [reflexivity|]. repeat split.
  - intros cert. eexists _, _. split; [reflexivity|].
    split; [reflexivity|]. split; [reflexivity|]. split; [|reflexivity].
    apply bool_decide_eq_true.
Qed.

Section RegistrationFacts.
Variable str_datetime : Z -> string.

(** C7, as amended.  When the lookup reports several creation dates the
    first one of the list is used for [days_old] and [is_new_domain]; with a
    creation date, [is_new_domain] holds exactly when [days_old < 30]; when
    the lookup fails the record has [is_new_domain = True] and the text of
    the exception; the function never raises. *)
Theorem get_domain_info_first_date now :
  (forall t rest reg, exists r,
      get_domain_info str_datetime now
        (Ok {| creation_date := WMany (WDatetime t :: rest); registrar := reg |}) = Ok r
      /\ r !! "days_old" = Some (PInt (timedelta_days now t))
      /\ r !! "is_new_domain" = Some (PBool (timedelta_days now t <? 30)))
  /\ (forall t reg, exists r,
      get_domain_info str_datetime now
        (Ok {| creation_date := WOne (WDatetime t); registrar := reg |}) = Ok r
      /\ r !! "days_old" = Some (PInt (timedelta_days now t))
      /\ r !! "is_new_domain" = Some (PBool (timedelta_days now t <? 30)))
  /\ (forall reg, exists r,
      get_domain_info str_datetime now
        (Ok {| creation_date := WOne WNone; registrar := reg |}) = Ok r
      /\ r !! "days_old" = Some (PInt 0)
      /\ r !! "is_new_domain" = Some (PBool true))
  /\ (forall e, exists r,
      get_domain_info str_datetime now (Raise e) = Ok r
      /\ r !! "is_new_domain" = Some (PBool true)
      /\ r !! "error" = Some (PStr (str_exn e)))
  /\ (forall lookup, exists r, get_domain_info str_datetime now lookup = Ok r).
Proof.
  split; [|split; [|split; [|split]]].
  - intros t rest reg. eexists. split; [reflexivity|]. split; reflexivity.
  - intros t reg. eexists. split; [reflexivity|]. split; reflexivity.
  - intros reg. eexists. split; [reflexivity|]. split; reflexivity.
  - intros e. eexists. split; [reflexivity|]. split; reflexivity.
  - intros lookup. unfold get_domain_info, try_except.
    destruct (bind lookup _); eauto.
Qed.
End RegistrationFacts.

Section ContentFacts.
Variable urlparse_netloc : string -> result string.

Lemma external_links_filter url u links :
  urlparse_netloc url = Ok u ->
  (forall href, In href links -> String.prefix "http" href = true ->
                exists h, urlparse_netloc href = Ok h) ->
  external_links urlparse_netloc url links
  = Ok (List.filter (outbound urlparse_netloc u) links).
Proof.
  intros Hu. induction links as [|href rest IH]; intros Hok; [reflexivity|].
  cbn [external_links List.filter]. unfold outbound at 1.
  rewrite IH by (intros h Hin; apply Hok; right; exact Hin).
  destruct (String.prefix "http" href) eqn:Hp; cbn [bind andb]; [|reflexivity].
  destruct (Hok href) as [h Hh]; [left; reflexivity | exact Hp |].
  rewrite Hh, Hu. cbn [bind]. destruct (negb (String.eqb h u)); reflexivity.
Qed.

Lemma external_links_parsed url links l :
  external_links urlparse_netloc url links = Ok l ->
  forall href, In href links -> String.prefix "http" href = true ->
               exists h, urlparse_netloc href = Ok h.
Proof.
  revert l. induction links as [|a rest IH]; intros l H href Hin Hp;
    [destruct Hin|].
  cbn [external_links] in H.
  destruct Hin as [<-|Hin].
  - rewrite Hp in H. destruct (urlparse_netloc a) as [h|e]; [eauto|].
    discriminate H.
  - destruct (if String.prefix "http" a
              then h <- urlparse_netloc a;;
                   u <- urlparse_netloc url;; Ok (negb (String.eqb h u))
              else Ok false) as [keep|e]; cbn [bind] in H; [|discriminate H].
    destruct (external_links urlparse_netloc url rest) as [tail|e] eqn:Ht;
      cbn [bind] in H; [|discriminate H].
    exact (IH tail eq_refl href Hin Hp).
Qed.

Lemma filter_repeat (p : string -> bool) href n :
  p href = true -> List.filter p (repeat href n) = repeat href n.
Proof.
  intros Hp. induction n as [|n IH]; [reflexivity|].
  cbn. rewrite Hp, IH. reflexivity.
Qed.

Lemma analyze_content_links url soup links :
  external_links urlparse_netloc url (anchors soup) = Ok links ->
  exists d,
    analyze_content urlparse_netloc url (Ok soup) = Ok d
    /\ d !! "external_links_count" = Some (PInt (Z.of_nat (length links))).
Proof.
  intros H. unfold analyze_content. cbn [bind try_except]. rewrite H.
  eexists. split; reflexivity.
Qed.

(** C8, as amended.  A page gets an [external_links_count] exactly when
    the URL parser accepts every href that starts with [http]; the hrefs
    that do not start with [http] are never parsed.  The count is then the
    number of anchors whose href starts with [http] and whose host differs
    from the host of the analysed URL, each occurrence counted: a page that
    repeats one outbound link [n] times contributes [n]. *)
Theorem external_links_count_with_multiplicity url u soup :
  urlparse_netloc url = Ok u ->
  ((forall href, In href (anchors soup) -> String.prefix "http" href = true ->
                 exists h, urlparse_netloc href = Ok h)
   <-> exists d c,
         analyze_content urlparse_netloc url (Ok soup) = Ok d
         /\ d !! "external_links_count" = Some c)
  /\ (forall d c,
        analyze_content urlparse_netloc url (Ok soup) = Ok d ->
        d !! "external_links_count" = Some c ->
        c = PInt (Z.of_nat (length (List.filter (outbound urlparse_netloc u)
                                                (anchors soup)))))
  /\ (forall href n,
        anchors soup = repeat href n -> outbound urlparse_netloc u href = true ->
        exists d,
          analyze_content urlparse_netloc url (Ok soup) = Ok d
          /\ d !! "external_links_count" = Some (PInt (Z.of_nat n))).
Proof.
  intros Hu.
  assert (forall d c,
            analyze_content urlparse_netloc url (Ok soup) = Ok d ->
            d !! "external_links_count" = Some c ->
            exists l, external_links urlparse_netloc url (anchors soup) = Ok l)
    as Hinv.
  { intros d c Hd Hc. unfold analyze_content in Hd. cbn [bind try_except] in Hd.
    destruct (external_links urlparse_netloc url (anchors soup)) as [l|e];
      [eauto|].
    cbn [bind] in Hd. injection Hd as <-. discriminate Hc. }
  split; [split|split].
  - intros Hok.
    destruct (analyze_content_links _ _ _
                (external_links_filter _ _ _ Hu Hok)) as (d & Hd & Hc).
    eauto.
  - intros (d & c & Hd & Hc). destruct (Hinv d c Hd Hc) as [l Hl].
    exact (external_links_parsed _ _ _ Hl).
  - intros d c Hd Hc. destruct (Hinv d c Hd Hc) as [l Hl].
    pose proof (external_links_filter _ _ _ Hu (external_links_parsed _ _ _ Hl))
      as Hf.
    destruct (analyze_content_links _ _ _ Hf) as (d' & Hd' & Hc').
    rewrite Hd in Hd'. injection Hd' as <-. rewrite Hc in Hc'.
    injection Hc' as ->. reflexivity.
  - intros href n Hrep Hout.
    assert (forall h, In h (anchors soup) -> String.prefix "http" h = true ->
                      exists x, urlparse_netloc h = Ok x) as Hok.
    { intros h Hin _. rewrite Hrep in Hin. apply repeat_spec in Hin as ->.
      unfold outbound in Hout. apply andb_true_iff in Hout as [_ Hout].
      destruct (urlparse_netloc href) as [x|e]; [eauto | discriminate Hout]. }
    pose proof (analyze_content_links _ _ _
                  (external_links_filter _ _ _ Hu Hok)) as Hcode.
    rewrite Hrep, (filter_repeat _ _ _ Hout), repeat_length in Hcode.
    exact Hcode.
Qed.

(** C9, as amended.  The content analysis never raises.  On a fetch or
    parse failure it returns a record of exactly two fields, [error] with the
    text of the exception and [analyzed = False]; the other content fields
    are absent from it. *)
Theorem analyze_content_failure_record url :
  (forall fetch, exists d, analyze_content urlparse_netloc url fetch = Ok d)
  /\ (forall e,
        analyze_content urlparse_netloc url (Raise e) = Ok (content_failure e))
  /\ (forall soup e,
        external_links urlparse_netloc url (anchors soup) = Raise e ->
        analyze_content urlparse_netloc url (Ok soup) = Ok (content_failure e))
  /\ (forall e,
        content_failure e !! "error" = Some (PStr (str_exn e))
        /\ content_failure e !! "analyzed" = Some (PBool false)
        /\ dom (content_failure e) = {["error"; "analyzed"]}
        /\ content_failure e !! "suspicious_keywords" = None
        /\ content_failure e !! "has_password_field" = None
        /\ content_failure e !! "form_count" = None
        /\ content_failure e !! "external_links_count" = None
        /\ content_failure e !! "title" = None
        /\ content_failure e !! "has_favicon" = None).
Proof.
  split; [|split; [|split]].
  - intros fetch. unfold analyze_content, try_except.
    destruct (bind fetch _); eauto.
  - reflexivity.
  - intros soup e He. unfold analyze_content. cbn [bind try_except].
    rewrite He. reflexivity.
  - intros e. unfold content_failure. repeat split.
Qed.
End ContentFacts.

(** ** Degraded feature dictionaries *)

Lemma ssl_record_typed handshake :
  exists d valid self,
    check_ssl_certificate handshake = Ok d
    /\ d !! "valid" = Some (PBool valid)
    /\ d !! "is_self_signed" = Some (PBool self)
    /\ (valid = false -> self = true)
    /\ (valid = false <-> exists e, handshake = Raise e).
Proof.
  destruct handshake as [cert|e]; cbn [check_ssl_certificate try_except bind].
  - eexists _, true, _. split; [reflexivity|]. split; [reflexivity|].
    split; [reflexivity|]. split; [discriminate|].
    split; [discriminate | intros [e He]; discriminate He].
  - eexists _, false, true. split; [reflexivity|]. split; [reflexivity|].
    split; [reflexivity|]. split; [reflexivity|].
    split; [eauto | reflexivity].
Qed.

Lemma domain_record_typed str_datetime now lookup :
  exists d new,
    get_domain_info str_datetime now lookup = Ok d
    /\ d !! "is_new_domain" = Some (PBool new)
    /\ (forall e, lookup = Raise e -> new = true).
Proof.
  unfold get_domain_info.
  destruct lookup as [w|e]; cbn [bind try_except];
    [|eexists _, _; split; [reflexivity|]; split; reflexivity].
  destruct (select_creation_date (creation_date w)) as [c|e]; cbn [bind];
    [|eexists _, _; split; [reflexivity|]; split; [reflexivity | discriminate]].
  destruct (days_since now c) as [n|e]; cbn [bind];
    eexists _, _; (split; [reflexivity|]; split; [reflexivity | discriminate]).
Qed.

Lemma content_record_typed urlparse_netloc url fetch :
  exists d kws pw links,
    analyze_content urlparse_netloc url fetch = Ok d
    /\ list_field d "suspicious_keywords" = Some kws
    /\ bool_field d "has_password_field" false = Some pw
    /\ int_field d "external_links_count" 0 = Some links.
Proof.
  unfold analyze_content.
  destruct fetch as [soup|e]; cbn [bind try_except];
    [|eexists _, _, _, _; repeat split; reflexivity].
  destruct (external_links urlparse_netloc url (anchors soup)) as [l|e];
    cbn [bind]; eexists _, _, _, _; repeat split; reflexivity.
Qed.

Lemma error_fields_only_lookup (d : gmap string pyval) k :
  error_fields_only d -> k <> "error" -> k <> "analyzed" -> d !! k = None.
Proof.
  intros Hd H1 H2. destruct (d !! k) eqn:E; [|reflexivity].
  destruct (Hd k) as [->| ->]; [rewrite E; eauto | |]; congruence.
Qed.

Lemma degraded_sub_record (features : gmap string pyval) k :
  degraded (features !! k) ->
  exists d : gmap string pyval,
    sub_record features k = Some d
    /\ forall f, f <> "error" -> f <> "analyzed" -> d !! f = None.
Proof.
  unfold sub_record. intros [->|(d & -> & Hd)].
  - exists ∅. split; [reflexivity|]. intros; apply lookup_empty.
  - exists d. split; [reflexivity|]. intros f. apply error_fields_only_lookup, Hd.
Qed.

Lemma bool_field_insert_ne (d : gmap string pyval) k x k' dflt :
  k <> k' -> bool_field (<[k := x]> d) k' dflt = bool_field d k' dflt.
Proof. intros H. unfold bool_field. rewrite lookup_insert_ne by exact H. reflexivity. Qed.

Lemma int_field_insert_ne (d : gmap string pyval) k x k' dflt :
  k <> k' -> int_field (<[k := x]> d) k' dflt = int_field d k' dflt.
Proof. intros H. unfold int_field. rewrite lookup_insert_ne by exact H. reflexivity. Qed.

Lemma list_field_insert_ne (d : gmap string pyval) k x k' :
  k <> k' -> list_field (<[k := x]> d) k' = list_field d k'.
Proof. intros H. unfold list_field. rewrite lookup_insert_ne by exact H. reflexivity. Qed.

Lemma sub_record_insert_ne (d : gmap string pyval) k x k' :
  k <> k' -> sub_record (<[k := x]> d) k' = sub_record d k'.
Proof. intros H. unfold sub_record. rewrite lookup_insert_ne by exact H. reflexivity. Qed.

Lemma sub_record_insert_eq (d r : gmap string pyval) k :
  sub_record (<[k := PDict r]> d) k = Some r.
Proof. unfold sub_record. rewrite lookup_insert_eq. reflexivity. Qed.

Lemma required_insert_ne {A} (d : gmap string pyval) k x k'
    (field : gmap string pyval -> string -> option A) :
  k <> k' -> field (<[k := x]> d) k' = field d k' ->
  required (<[k := x]> d) k' field = required d k' field.
Proof.
  intros H Hf. unfold required. rewrite lookup_insert_ne by exact H.
  rewrite Hf. reflexivity.
Qed.

Lemma feature_vector_insert_valid (features ssl : gmap string pyval) v :
  feature_vector features = Some v ->
  features !! "ssl_info" = Some (PDict ssl) ->
  ssl !! "valid" = None ->
  tls_valid v = false
  /\ feature_vector (<["ssl_info" := PDict (<["valid" := PBool false]> ssl)]> features)
     = Some v.
Proof.
  intros Hv Hssl Hvalid.
  unfold feature_vector in Hv. option_bind Hv. injection Hv as <-.
  assert (sub_record features "ssl_info" = Some ssl) as Hsub
    by (unfold sub_record; rewrite Hssl; reflexivity).
  assert (bool_field ssl "valid" false = Some false) as Hold
    by (unfold bool_field; rewrite Hvalid; reflexivity).
  assert (bool_field (<["valid" := PBool false]> ssl) "valid" false = Some false) as Hnew
    by (unfold bool_field; rewrite lookup_insert_eq; reflexivity).
  match goal with
  | H : sub_record features "ssl_info" = Some _ |- _ =>
      rewrite Hsub in H; injection H as <-
  end.
  match goal with
  | H : bool_field ssl "valid" false = Some _ |- _ =>
      rewrite Hold in H; injection H as <-
  end.
  split; [reflexivity|].
  unfold feature_vector.
  rewrite !required_insert_ne
    by (try discriminate;
        first [apply bool_field_insert_ne | apply int_field_insert_ne
              | apply list_field_insert_ne]; discriminate).
  rewrite sub_record_insert_eq, !sub_record_insert_ne by discriminate.
  repeat (first [ rewrite Hnew
                | rewrite bool_field_insert_ne by discriminate
                | match goal with
                  | H : ?x = Some _ |- context [?x] => rewrite H
                  end ];
          cbn [mbind option_bind]).
  reflexivity.
Qed.

Lemma degraded_readable sub :
  degraded sub ->
  ssl_readable sub /\ content_readable sub /\ domain_readable sub.
Proof.
  intros [->|(d & -> & Hd)].
  - repeat split; left; reflexivity.
  - assert (forall k, k <> "error" -> k <> "analyzed" -> d !! k = None) as Hnone
      by (intros k; apply error_fields_only_lookup, Hd).
    repeat split; right; exists d; (split; [reflexivity|]);
      unfold bool_field, int_field, list_field;
      rewrite !Hnone by discriminate; eauto.
Qed.

Lemma ssl_readable_sub (features : gmap string pyval) :
  ssl_readable (features !! "ssl_info") ->
  exists d valid self,
    sub_record features "ssl_info" = Some d
    /\ bool_field d "valid" false = Some valid
    /\ bool_field d "is_self_signed" false = Some self.
Proof.
  unfold sub_record. intros [->|(d & -> & [valid Hv] & [self Hs])].
  - exists ∅, false, false. repeat split.
  - exists d, valid, self. auto.
Qed.

Lemma content_readable_sub (features : gmap string pyval) :
  content_readable (features !! "content_analysis") ->
  exists d kws pw links,
    sub_record features "content_analysis" = Some d
    /\ list_field d "suspicious_keywords" = Some kws
    /\ bool_field d "has_password_field" false = Some pw
    /\ int_field d "external_links_count" 0 = Some links.
Proof.
  unfold sub_record. intros [->|(d & -> & [kws Hk] & [pw Hp] & [links Hl])].
  - exists ∅, [], false, 0. repeat split.
  - exists d, kws, pw, links. auto.
Qed.

Lemma domain_readable_sub (features : gmap string pyval) :
  domain_readable (features !! "domain_info") ->
  exists d new,
    sub_record features "domain_info" = Some d
    /\ bool_field d "is_new_domain" false = Some new.
Proof.
  unfold sub_record. intros [->|(d & -> & [new Hn])].
  - exists ∅, false. repeat split.
  - exists d, new. auto.
Qed.

Lemma feature_vector_degraded (features : gmap string pyval) v :
  feature_vector features = Some v ->
  (degraded (features !! "ssl_info") ->
   tls_valid v = false /\ tls_self_signed v = false)
  /\ (degraded (features !! "content_analysis") ->
      suspicious_keywords v = [] /\ has_password_field v = false
      /\ external_links_count v = 0)
  /\ (degraded (features !! "domain_info") -> is_new_domain v = false)
  /\ (forall ssl, features !! "ssl_info" = Some (PDict ssl) ->
                  ssl !! "valid" = None ->
                  tls_valid v = false
                  /\ nth 4 (positive_terms v) F64.zero = F64.dec 3 10).
Proof.
  intros H. unfold feature_vector in H. option_bind H. injection H as <-.
  cbn [tls_valid tls_self_signed suspicious_keywords has_password_field
       external_links_count is_new_domain].
  split; [|split; [|split]].
  - intros Hd. destruct (degraded_sub_record _ _ Hd) as (d & Hsub & Hnone).
    rewrite E4 in Hsub. injection Hsub as ->.
    unfold bool_field in E7, E8. rewrite Hnone in E7, E8 by discriminate.
    split; congruence.
  - intros Hd. destruct (degraded_sub_record _ _ Hd) as (d & Hsub & Hnone).
    rewrite E5 in Hsub. injection Hsub as ->.
    unfold bool_field in E10. unfold list_field in E9. unfold int_field in E11.
    rewrite Hnone in E9, E10, E11 by discriminate.
    repeat split; congruence.
  - intros Hd. destruct (degraded_sub_record _ _ Hd) as (d & Hsub & Hnone).
    rewrite E6 in Hsub. injection Hsub as ->.
    unfold bool_field in E12. rewrite Hnone in E12 by discriminate. congruence.
  - intros ssl Hssl Hvalid. unfold sub_record in E4. rewrite Hssl in E4.
    injection E4 as <-. unfold bool_field in E7. rewrite Hvalid in E7.
    injection E7 as <-. split; reflexivity.
Qed.

(** C10.  The scorer is defined on degraded feature dictionaries.  With
    the five URL keys present, each of the three sub-records may be missing,
    a failure record carrying error fields only, or any record whose fields
    read by the scorer have the expected types, in any combination: every
    field the scorer reads resolves to a value or to its default and the
    score is the clamped weighted sum, in [0, 1]; the fields of a missing or
    error-only sub-record take their defaults.  The records the three
    extractors return, on success and on failure, are among those read.  A
    TLS sub-record without a [valid] field is scored as invalid TLS: the
    0.3 term is part of the sum, and the score is that of the same
    dictionary with [valid = False] written out. *)
Theorem rule_based_scoring_total_on_degraded :
  (forall (features : gmap string pyval) ip pats dl sc wl,
      features !! "has_ip" = Some (PBool ip) ->
      features !! "suspicious_patterns" = Some (PList pats) ->
      features !! "domain_length" = Some (PInt dl) ->
      features !! "subdomain_count" = Some (PInt sc) ->
      features !! "is_whitelisted" = Some (PBool wl) ->
      ssl_readable (features !! "ssl_info") ->
      content_readable (features !! "content_analysis") ->
      domain_readable (features !! "domain_info") ->
      exists v,
        feature_vector features = Some v
        /\ rule_based_scoring features = Ok (clamp01 (weighted_sum v))
        /\ in_unit_interval (clamp01 (weighted_sum v))
        /\ (has_ip v, suspicious_patterns v, domain_length v,
            subdomain_count v, is_whitelisted v) = (ip, pats, dl, sc, wl)
        /\ (degraded (features !! "ssl_info") ->
            tls_valid v = false /\ tls_self_signed v = false)
        /\ (degraded (features !! "content_analysis") ->
            suspicious_keywords v = [] /\ has_password_field v = false
            /\ external_links_count v = 0)
        /\ (degraded (features !! "domain_info") -> is_new_domain v = false)
        /\ (forall ssl, features !! "ssl_info" = Some (PDict ssl) ->
                        ssl !! "valid" = None ->
                        tls_valid v = false
                        /\ nth 4 (positive_terms v) F64.zero = F64.dec 3 10))
  /\ (forall sub,
        degraded sub ->
        ssl_readable sub /\ content_readable sub /\ domain_readable sub)
  /\ (forall handshake,
        exists d, check_ssl_certificate handshake = Ok d
                  /\ ssl_readable (Some (PDict d)))
  /\ (forall urlparse_netloc url fetch,
        exists d, analyze_content urlparse_netloc url fetch = Ok d
                  /\ content_readable (Some (PDict d)))
  /\ (forall str_datetime now lookup,
        exists d, get_domain_info str_datetime now lookup = Ok d
                  /\ domain_readable (Some (PDict d)))
  /\ (forall (features ssl : gmap string pyval) v,
        feature_vector features = Some v ->
        features !! "ssl_info" = Some (PDict ssl) ->
        ssl !! "valid" = None ->
        tls_valid v = false
        /\ nth 4 (positive_terms v) F64.zero = F64.dec 3 10
        /\ rule_based_scoring features = Ok (clamp01 (weighted_sum v))
        /\ rule_based_scoring features
           = rule_based_scoring
               (<["ssl_info" := PDict (<["valid" := PBool false]> ssl)]> features)).
Proof.
  split; [|split; [|split; [|split; [|split]]]].
  - intros features ip pats dl sc wl Hip Hpats Hdl Hsc Hwl Hssl Hcontent Hdom.
    destruct (ssl_readable_sub _ Hssl) as (ssl & valid & self & Es & Hv1 & Hv2).
    destruct (content_readable_sub _ Hcontent)
      as (content & kws & pw & links & Ec & Hc1 & Hc2 & Hc3).
    destruct (domain_readable_sub _ Hdom) as (dinfo & new & Ed & Hd1).
    assert (required features "has_ip" (fun d k => bool_field d k false) = Some ip)
      as R1 by (unfold required, bool_field; rewrite Hip; reflexivity).
    assert (required features "suspicious_patterns" list_field = Some pats)
      as R2 by (unfold required, list_field; rewrite Hpats; reflexivity).
    assert (required features "domain_length" (fun d k => int_field d k 0) = Some dl)
      as R3 by (unfold required, int_field; rewrite Hdl; reflexivity).
    assert (required features "subdomain_count" (fun d k => int_field d k 0) = Some sc)
      as R4 by (unfold required, int_field; rewrite Hsc; reflexivity).
    assert (required features "is_whitelisted" (fun d k => bool_field d k false) = Some wl)
      as R5 by (unfold required, bool_field; rewrite Hwl; reflexivity).
    assert (feature_vector features
            = Some {| has_ip := ip; suspicious_patterns := pats;
                      domain_length := dl; subdomain_count := sc;
                      tls_valid := valid; tls_self_signed := self;
                      suspicious_keywords := kws; has_password_field := pw;
                      external_links_count := links; is_new_domain := new;
                      is_whitelisted := wl |}) as Hv.
    { unfold feature_vector.
      rewrite R1, R2, R3, R4, R5, Es, Ec, Ed. cbn [mbind option_bind].
      rewrite Hv1, Hv2, Hc1, Hc2, Hc3, Hd1. reflexivity. }
    eexists. split; [exact Hv|].
    split; [apply rule_based_scoring_eq, Hv|].
    split; [apply clamp01_in_unit_interval|].
    split; [reflexivity|].
    apply (feature_vector_degraded _ _ Hv).
  - apply degraded_readable.
  - intros handshake.
    destruct (ssl_record_typed handshake) as (d & valid & self & Hd & Hv & Hs & _).
    exists d. split; [exact Hd|]. right. exists d. split; [reflexivity|].
    unfold bool_field. rewrite Hv, Hs. eauto.
  - intros urlparse_netloc url fetch.
    destruct (content_record_typed urlparse_netloc url fetch)
      as (d & kws & pw & links & Hd & Hk & Hp & Hl).
    exists d. split; [exact Hd|]. right. exists d. split; [reflexivity|].
    rewrite Hk, Hp, Hl. eauto.
  - intros str_datetime now lookup.
    destruct (domain_record_typed str_datetime now lookup)
      as (d & new & Hd & Hn & _).
    exists d. split; [exact Hd|]. right. exists d. split; [reflexivity|].
    unfold bool_field. rewrite Hn. eauto.
  - intros features ssl v Hv Hssl Hvalid.
    destruct (feature_vector_insert_valid _ _ _ Hv Hssl Hvalid) as [Ht Hv'].
    split; [exact Ht|]. split.
    + unfold positive_terms. cbn [nth]. rewrite Ht. reflexivity.
    + split; [apply rule_based_scoring_eq, Hv|].
      rewrite (rule_based_scoring_eq _ _ Hv), (rule_based_scoring_eq _ _ Hv').
      reflexivity.
Qed.

(** * Further properties of the code *)

(** ** Keys the scorer needs and keys it ignores *)

Lemma in_required_keys k :
  In k required_keys ->
  k = "has_ip" \/ k = "suspicious_patterns" \/ k = "domain_length"
  \/ k = "subdomain_count" \/ k = "is_whitelisted".
Proof. cbn. intuition (subst; auto). Qed.

(** X1.  The five keys the scorer subscripts have no default: taking any
    one of them out of a well-typed features dictionary makes the scorer
    raise [KeyError] for that key. *)
Theorem rule_based_scoring_missing_key features v k :
  feature_vector features = Some v ->
  In k required_keys ->
  rule_based_scoring (delete k features) = Raise (KeyError k).
Proof.
  intros H Hk. unfold feature_vector in H. option_bind H. clear H.
  apply required_bool_lookup in E, E3.
  apply required_list_lookup in E0.
  apply required_int_lookup in E1, E2.
  apply sub_record_get in E4, E5, E6.
  apply bool_field_get in E7, E8, E10, E12.
  apply int_field_get in E11.
  unfold dict_get in E4, E5, E6.
  apply in_required_keys in Hk as [->|[->|[->|[->| ->]]]];
    unfold rule_based_scoring, getitem, dict_get;
    rewrite ?lookup_delete_eq, ?lookup_delete_ne by discriminate;
    try reflexivity;
    rewrite ?E, ?E0, ?E1, ?E2, ?E3, ?E4, ?E5, ?E6; cbn [bind truthy];
    try (destruct l; cbn [bind py_len]; reflexivity);
    rewrite ?py_gt_int; cbn [bind];
    try (destruct l; cbn [bind py_len]; rewrite ?py_gt_int; reflexivity).
  unfold py_get. fold (dict_get g "valid" (PBool false)).
  fold (dict_get g "is_self_signed" (PBool false)).
  fold (dict_get g0 "has_password_field" (PBool false)).
  fold (dict_get g0 "external_links_count" (PInt 0)).
  fold (dict_get g1 "is_new_domain" (PBool false)).
  rewrite E7, E8, E10, E11, E12. rewrite ?py_gt_int. cbn [bind truthy].
  apply list_field_get in E9 as [[E9 ->]|E9]; unfold dict_get; rewrite E9;
    cbn [default truthy bind].
  - destruct l; reflexivity.
  - destruct l; [destruct l0|destruct l0]; cbn [bind py_len]; reflexivity.
Qed.


Lemma not_in_scorer_keys k :
  ~ In k scorer_keys ->
  k <> "has_ip" /\ k <> "suspicious_patterns" /\ k <> "domain_length"
  /\ k <> "subdomain_count" /\ k <> "ssl_info" /\ k <> "content_analysis"
  /\ k <> "domain_info" /\ k <> "is_whitelisted".
Proof. cbn. intuition. Qed.

Lemma rule_based_scoring_lookups (f g : gmap string pyval) :
  (forall k, In k scorer_keys -> f !! k = g !! k) ->
  rule_based_scoring f = rule_based_scoring g.
Proof.
  intros H. unfold rule_based_scoring, getitem, dict_get.
  rewrite !(H "has_ip"), !(H "suspicious_patterns"), !(H "domain_length"),
    !(H "subdomain_count"), !(H "ssl_info"), !(H "content_analysis"),
    !(H "domain_info"), !(H "is_whitelisted") by (cbn; tauto).
  reflexivity.
Qed.

Lemma rule_based_scoring_sub_record (f : gmap string pyval) sub d d' :
  In sub ["ssl_info"; "content_analysis"; "domain_info"] ->
  f !! sub = Some (PDict d) ->
  (forall k, In k ["valid"; "is_self_signed"; "suspicious_keywords";
                   "has_password_field"; "external_links_count";
                   "is_new_domain"] -> d' !! k = d !! k) ->
  rule_based_scoring (<[sub := PDict d']> f) = rule_based_scoring f.
Proof.
  intros Hsub Hf Hd.
  unfold rule_based_scoring, getitem, dict_get, py_get.
  cbn in Hsub. destruct Hsub as [<-|[<-|[<-|[]]]];
    rewrite ?lookup_insert_eq, ?lookup_insert_ne by discriminate;
    rewrite Hf; cbn [default from_option id]; cbv beta iota;
    unfold dict_get, getitem;
    rewrite ?(Hd "valid"), ?(Hd "is_self_signed"), ?(Hd "suspicious_keywords"),
      ?(Hd "has_password_field"), ?(Hd "external_links_count"),
      ?(Hd "is_new_domain") by (cbn; tauto);
    reflexivity.
Qed.

(** X2.  The score depends on the eight keys the scorer reads and on
    nothing else: writing or removing any other top-level key ([url],
    [domain], ...) leaves it unchanged, and so does writing, inside a
    sub-record, any field other than the six the scorer reads ([error],
    [days_old], [form_count], [title], ...).  This holds for every
    dictionary, well-typed or not. *)
Theorem rule_based_scoring_ignores_other_keys (features : gmap string pyval) k x :
  (~ In k scorer_keys ->
     rule_based_scoring (<[k := x]> features) = rule_based_scoring features
     /\ rule_based_scoring (delete k features) = rule_based_scoring features)
  /\ (forall sub d,
        In sub ["ssl_info"; "content_analysis"; "domain_info"] ->
        features !! sub = Some (PDict d) ->
        ~ In k ["valid"; "is_self_signed"; "suspicious_keywords";
                "has_password_field"; "external_links_count"; "is_new_domain"] ->
        rule_based_scoring (<[sub := PDict (<[k := x]> d)]> features)
        = rule_based_scoring features).
Proof.
  split.
  - intros Hk. split; apply rule_based_scoring_lookups; intros k' Hk'.
    + apply lookup_insert_ne. intros ->. exact (Hk Hk').
    + apply lookup_delete_ne. intros ->. exact (Hk Hk').
  - intros sub d Hsub Hf Hk.
    apply (rule_based_scoring_sub_record _ _ d); [exact Hsub | exact Hf |].
    intros k' Hk'. apply lookup_insert_ne. intros ->. exact (Hk Hk').
Qed.


(** ** More on the risk label *)

(** A positive finite threshold below [a] is below everything above [a]. *)
Lemma gt_threshold_mono mc ec a b :
  F64.gt a (S754_finite false mc ec) = true ->
  F64.leb a b = true ->
  F64.gt b (S754_finite false mc ec) = true.
Proof.
  unfold F64.gt, F64.ltb, F64.leb, SFltb, SFleb.
  destruct a as [[]|[]| |[] ma ea], b as [[]|[]| |[] mb eb];
    cbn [SFcompare]; try congruence.
  change (Pos.compare_cont Eq mc ma) with (mc ?= ma)%positive.
  change (Pos.compare_cont Eq ma mb) with (ma ?= mb)%positive.
  change (Pos.compare_cont Eq mc mb) with (mc ?= mb)%positive.
  destruct (Z.compare_spec ec ea), (Z.compare_spec ea eb), (Z.compare_spec ec eb);
    try congruence; try lia; subst;
    destruct (Pos.compare_spec mc ma), (Pos.compare_spec ma mb),
      (Pos.compare_spec mc mb); try congruence; lia.
Qed.

Lemma label_of_mono s1 s2 :
  F64.leb s1 s2 = true -> (risk_rank (label_of s1) <= risk_rank (label_of s2))%nat.
Proof.
  intros Hle. unfold label_of.
  pose proof (gt_threshold_mono 6305039478318694 (-53) s1 s2) as H7.
  pose proof (gt_threshold_mono 7205759403792794 (-54) s1 s2) as H4.
  rewrite <- dec_7_10 in H7. rewrite <- dec_4_10 in H4.
  destruct (F64.gt s1 (F64.dec 7 10)) eqn:E7.
  - rewrite (H7 eq_refl Hle). reflexivity.
  - destruct (F64.gt s1 (F64.dec 4 10)) eqn:E4.
    + rewrite (H4 eq_refl Hle). destruct (F64.gt s2 (F64.dec 7 10)); cbn; lia.
    + cbn. lia.
Qed.

(** X3.  The label is monotone in the score: of two float scores, the
    larger one never gets the lower label (LOW below MEDIUM below HIGH),
    whether or not the host is whitelisted. *)
Theorem calculate_risk_level_monotone (features : gmap string pyval) wl s1 s2 :
  features !! "is_whitelisted" = Some (PBool wl) ->
  F64.leb s1 s2 = true ->
  exists l1 l2,
    calculate_risk_level features (PFloat s1) = Ok l1
    /\ calculate_risk_level features (PFloat s2) = Ok l2
    /\ (risk_rank l1 <= risk_rank l2)%nat.
Proof.
  intros Hwl Hle.
  rewrite !(calculate_risk_level_code _ wl) by exact Hwl.
  eexists _, _. split; [reflexivity|]. split; [reflexivity|].
  destruct wl; [reflexivity | apply label_of_mono, Hle].
Qed.

Lemma py_gt_int_float z m e :
  (e < 0) ->
  py_gt (PInt z) (NFloat (S754_finite false m e))
  = Ok (Z.pos m <? z * 2 ^ (- e)).
Proof.
  intros He. unfold py_gt. cbn [as_num num_compare F64.compare_Z].
  destruct (Z.leb_spec 0 e); [lia|].
  destruct (Z.compare_spec (z * 2 ^ (- e)) (Z.pos m)),
    (Z.ltb_spec (Z.pos m) (z * 2 ^ (- e))); try lia; reflexivity.
Qed.

Lemma int_score_label (f : gmap string pyval) z :
  f !! "is_whitelisted" = Some (PBool false) ->
  calculate_risk_level f (PInt z) = Ok (if 1 <=? z then HIGH else LOW).
Proof.
  intros Hf. unfold calculate_risk_level, getitem. rewrite Hf. cbn [bind truthy].
  rewrite dec_7_10, dec_4_10, !py_gt_int_float by lia. cbn [bind].
  change (2 ^ (- (-53))) with 9007199254740992.
  change (2 ^ (- (-54))) with 18014398509481984.
  destruct (Z.leb_spec 1 z), (Z.ltb_spec 6305039478318694 (z * 9007199254740992));
    try lia; [reflexivity|].
  cbn [bind].
  destruct (Z.ltb_spec 7205759403792794 (z * 18014398509481984)); try lia.
  reflexivity.
Qed.

(** X4.  On a host that is not whitelisted the label needs a number: an
    integer score is HIGH from 1 upwards and LOW otherwise (never MEDIUM),
    [True] is HIGH and [False] is LOW, and any other value (a string, null,
    a list, an object) makes [calculate_risk_level] raise [TypeError]. *)
Theorem calculate_risk_level_score_types (features : gmap string pyval) :
  features !! "is_whitelisted" = Some (PBool false) ->
  (forall z, calculate_risk_level features (PInt z)
             = Ok (if 1 <=? z then HIGH else LOW))
  /\ (forall b, calculate_risk_level features (PBool b)
                = Ok (if b then HIGH else LOW))
  /\ (forall v, as_num v = None ->
        exists msg, calculate_risk_level features v = Raise (TypeError msg)).
Proof.
  intros Hf. split; [|split].
  - intros z. apply int_score_label, Hf.
  - intros b.
    assert (calculate_risk_level features (PBool b)
            = calculate_risk_level features (PInt (Z.b2z b))) as ->.
    { unfold calculate_risk_level, py_gt. reflexivity. }
    rewrite (int_score_label _ _ Hf). destruct b; reflexivity.
  - intros v Hv. unfold calculate_risk_level, getitem. rewrite Hf.
    cbn [bind truthy]. unfold py_gt. rewrite Hv. cbn [bind]. eauto.
Qed.

(** X5.  [get_ai_prediction] raises only through its fallback: it raises
    [e] exactly when the remote call is unavailable and the rule-based
    scorer raises [e] on the same features. *)
Theorem get_ai_prediction_raises remote features e :
  get_ai_prediction remote features = Raise e
  <-> unavailable remote /\ rule_based_scoring features = Raise e.
Proof.
  rewrite unavailable_raises. unfold get_ai_prediction.
  destruct (remote_prediction remote) as [p|e'].
  - split; [discriminate|]. intros [[e' He'] _]. discriminate.
  - destruct (rule_based_scoring features) as [s|e'']; cbn [bind].
    + split; [discriminate|]. intros [_ H]. discriminate.
    + split.
      * intros [= ->]. split; [eauto | reflexivity].
      * intros [_ [= ->]]. reflexivity.
Qed.


(** ** Feature collection *)

Lemma required_insert_bool (d : gmap string pyval) k b :
  required (<[k := PBool b]> d) k (fun d k => bool_field d k false) = Some b.
Proof. unfold required, bool_field. rewrite lookup_insert_eq. reflexivity. Qed.

Lemma required_insert_int (d : gmap string pyval) k z :
  required (<[k := PInt z]> d) k (fun d k => int_field d k 0) = Some z.
Proof. unfold required, int_field. rewrite lookup_insert_eq. reflexivity. Qed.

Lemma required_insert_list (d : gmap string pyval) k l :
  required (<[k := PList l]> d) k list_field = Some l.
Proof. unfold required, list_field. rewrite lookup_insert_eq. reflexivity. Qed.

Ltac required_lookup :=
  rewrite ?required_insert_ne
    by (try discriminate;
        first [apply bool_field_insert_ne | apply int_field_insert_ne
              | apply list_field_insert_ne]; discriminate);
  first [rewrite required_insert_bool | rewrite required_insert_int
        | rewrite required_insert_list];
  cbn [mbind option_bind].

Ltac sub_record_lookup :=
  rewrite ?sub_record_insert_ne by discriminate;
  rewrite sub_record_insert_eq; cbn [mbind option_bind].

Section CollectFacts.
Variable urlparse_netloc : string -> result string.
Variable ip_search : string -> bool.
Variable pattern_search : string -> string -> bool.
Variable str_datetime : Z -> string.

(** The collection never fails once the URL is parsed, and what it returns
    is [collected]. *)
Lemma collect_features_collected cfg w url netloc :
  urlparse_netloc url = Ok netloc ->
  exists f v,
    collect_features urlparse_netloc ip_search pattern_search str_datetime
      cfg w url = Ok f
    /\ f !! "url" = Some (PStr url)
    /\ collected cfg w netloc (ip_search netloc)
         (check_suspicious_patterns pattern_search cfg url) f v.
Proof.
  intros Hnet.
  destruct (ssl_record_typed (tls w netloc))
    as (ssl & valid & self & Hssl & Hvalid & Hself & Himp & Hfail).
  destruct (content_record_typed urlparse_netloc url (fetch w url))
    as (content & kws & pw & links & Hcontent & Hkws & Hpw & Hlinks).
  destruct (domain_record_typed str_datetime (clock w) (whois w netloc))
    as (dm & new & Hdom & Hnew & Hlost).
  unfold collect_features. rewrite Hnet. cbn [bind]. rewrite Hssl. cbn [bind].
  rewrite Hcontent. cbn [bind]. rewrite Hdom. cbn [bind].
  eexists _,
    {| has_ip := ip_search netloc;
       suspicious_patterns :=
         PStr <$> check_suspicious_patterns pattern_search cfg url;
       domain_length := Z.of_nat (String.length netloc);
       subdomain_count := Z.of_nat (length (split_on "."%char netloc)) - 2;
       tls_valid := valid; tls_self_signed := self;
       suspicious_keywords := kws; has_password_field := pw;
       external_links_count := links; is_new_domain := new;
       is_whitelisted := bool_decide (netloc ∈ cfg_whitelist cfg) |}.
  split; [reflexivity|]. split; [reflexivity|].
  split; cbn [has_ip suspicious_patterns domain_length subdomain_count
              tls_valid tls_self_signed suspicious_keywords is_new_domain
              is_whitelisted];
    try reflexivity; try assumption.
  - assert (bool_field ssl "valid" false = Some valid) as Hv
      by (unfold bool_field; rewrite Hvalid; reflexivity).
    assert (bool_field ssl "is_self_signed" false = Some self) as Hs
      by (unfold bool_field; rewrite Hself; reflexivity).
    assert (bool_field dm "is_new_domain" false = Some new) as Hn
      by (unfold bool_field; rewrite Hnew; reflexivity).
    unfold feature_vector.
    do 5 required_lookup. do 3 sub_record_lookup.
    rewrite Hv. cbn [mbind option_bind]. rewrite Hs. cbn [mbind option_bind].
    rewrite Hkws. cbn [mbind option_bind]. rewrite Hpw. cbn [mbind option_bind].
    rewrite Hlinks. cbn [mbind option_bind]. rewrite Hn. reflexivity.
  - exists ssl. split; [reflexivity | exact Hvalid].
  - exists content. split; [reflexivity | exact Hkws].
  - exists dm. split; [reflexivity | exact Hnew].
Qed.

End CollectFacts.


Lemma split_on_nonempty sep s : split_on sep s <> [].
Proof.
  destruct s as [|c s]; cbn; [discriminate|].
  destruct (Ascii.eqb c sep); [discriminate|].
  destruct (split_on sep s); discriminate.
Qed.

Lemma split_on_length sep s :
  length (split_on sep s) = S (count_char sep s).
Proof.
  induction s as [|c s IH]; [reflexivity|].
  cbn [split_on count_char].
  destruct (Ascii.eqb c sep); cbn [length]; [rewrite IH; reflexivity|].
  pose proof (split_on_nonempty sep s) as Hne.
  destruct (split_on sep s) as [|p ps]; [contradiction|].
  cbn [length] in *. lia.
Qed.

Lemma split_on_concat sep s :
  String.concat (String sep EmptyString) (split_on sep s) = s.
Proof.
  induction s as [|c s IH]; [reflexivity|].
  cbn [split_on].
  pose proof (split_on_nonempty sep s) as Hne.
  destruct (Ascii.eqb_spec c sep) as [->|Hc].
  - destruct (split_on sep s) as [|p ps]; [contradiction|].
    cbn [String.concat] in *. cbn. rewrite IH. reflexivity.
  - destruct (split_on sep s) as [|p ps]; [contradiction|].
    destruct ps as [|q qs]; cbn [String.concat] in *; rewrite <- IH; reflexivity.
Qed.

Lemma feature_vector_lookups (f : gmap string pyval) v :
  feature_vector f = Some v ->
  f !! "has_ip" = Some (PBool (has_ip v))
  /\ f !! "suspicious_patterns" = Some (PList (suspicious_patterns v))
  /\ f !! "domain_length" = Some (PInt (domain_length v))
  /\ f !! "subdomain_count" = Some (PInt (subdomain_count v))
  /\ f !! "is_whitelisted" = Some (PBool (is_whitelisted v)).
Proof.
  intros H. unfold feature_vector in H. option_bind H. injection H as <-.
  apply required_bool_lookup in E, E3.
  apply required_list_lookup in E0.
  apply required_int_lookup in E1, E2.
  cbn. auto.
Qed.

Section CollectTheorems.
Variable urlparse_netloc : string -> result string.
Variable ip_search : string -> bool.
Variable pattern_search : string -> string -> bool.
Variable str_datetime : Z -> string.

(** X6.  The reported patterns are the configured patterns that match the
    URL, each occurrence kept and in configuration order: every pattern is
    tried, none stops the scan, and an empty configuration reports
    nothing.  The patterns are taken to be valid regular expressions, so
    that every search answers. *)
Theorem check_suspicious_patterns_complete cfg url :
  let found := check_suspicious_patterns pattern_search cfg url in
  sublist found (cfg_patterns cfg)
  /\ (forall p, In p found <->
                In p (cfg_patterns cfg) /\ pattern_search p url = true)
  /\ (forall p, pattern_search p url = true ->
                count_occ string_dec found p
                = count_occ string_dec (cfg_patterns cfg) p)
  /\ (cfg_patterns cfg = [] -> found = []).
Proof.
  cbv zeta. unfold check_suspicious_patterns.
  split; [|split; [|split]].
  - induction (cfg_patterns cfg) as [|p ps IH]; [constructor|].
    cbn. destruct (pattern_search p url); [apply sublist_skip | apply sublist_cons];
      exact IH.
  - intros p. apply (filter_In (fun pattern => pattern_search pattern url)).
  - intros p Hp. induction (cfg_patterns cfg) as [|q qs IH]; [reflexivity|].
    cbn [List.filter count_occ].
    destruct (string_dec q p) as [->|Hq].
    + rewrite Hp. cbn [count_occ]. destruct (string_dec p p); [|contradiction].
      rewrite IH. reflexivity.
    + destruct (pattern_search q url); [cbn [count_occ]|]; 
        try (destruct (string_dec q p); [contradiction|]); exact IH.
  - intros ->. reflexivity.
Qed.

(** X7.  [subdomain_count] is the number of dots of the host minus one, so
    a host without a dot gets -1, and the deep-subdomain term of the score
    applies exactly to hosts with at least five dots.  The labels counted
    are those that, joined by dots, give the host back. *)
Theorem subdomain_count_counts_dots cfg w url netloc :
  urlparse_netloc url = Ok netloc ->
  exists f,
    collect_features urlparse_netloc ip_search pattern_search str_datetime
      cfg w url = Ok f
    /\ f !! "subdomain_count"
       = Some (PInt (Z.of_nat (count_char "."%char netloc) - 1))
    /\ (py_gt (PInt (Z.of_nat (count_char "."%char netloc) - 1)) (NInt 3) = Ok true
        <-> (5 <= count_char "."%char netloc)%nat)
    /\ String.concat "." (split_on "."%char netloc) = netloc.
Proof.
  intros Hnet.
  destruct (collect_features_collected urlparse_netloc ip_search pattern_search
              str_datetime cfg w url netloc Hnet) as (f & v & Hf & _ & Hc).
  exists f. split; [exact Hf|].
  pose proof (feature_vector_lookups _ _ (col_vector _ _ _ _ _ _ _ Hc))
    as (_ & _ & _ & Hsc & _).
  rewrite (col_subdomain_count _ _ _ _ _ _ _ Hc), split_on_length in Hsc.
  split; [rewrite Hsc; do 2 f_equal; lia|].
  split; [|apply split_on_concat].
  rewrite py_gt_int.
  destruct (Z.ltb_spec 3 (Z.of_nat (count_char "."%char netloc) - 1));
    split; intros H'; try reflexivity; try lia; try discriminate.
Qed.

(** X8.  Whatever the extractors meet, the collected features are
    complete and well typed: the dictionary has exactly the ten keys, it
    reads as a feature vector, and the rule-based scorer does not raise on
    it.  Only the URL parser can make the collection fail, the configured
    patterns being valid regular expressions and the whitelist a list of
    strings. *)
Theorem collect_features_well_typed cfg w url :
  match urlparse_netloc url with
  | Raise e =>
      collect_features urlparse_netloc ip_search pattern_search str_datetime
        cfg w url = Raise e
  | Ok netloc =>
      exists f v,
        collect_features urlparse_netloc ip_search pattern_search str_datetime
          cfg w url = Ok f
        /\ dom f = list_to_set feature_keys
        /\ feature_vector f = Some v
        /\ has_ip v = ip_search netloc
        /\ is_whitelisted v = bool_decide (netloc ∈ cfg_whitelist cfg)
        /\ (tls_valid v = false -> tls_self_signed v = true)
        /\ rule_based_scoring f = Ok (clamp01 (weighted_sum v))
  end.
Proof.
  destruct (urlparse_netloc url) as [netloc|e] eqn:Hnet.
  - destruct (collect_features_collected urlparse_netloc ip_search
                pattern_search str_datetime cfg w url netloc Hnet)
      as (f & v & Hf & _ & Hc).
    exists f, v. split; [exact Hf|].
    split; [exact (col_keys _ _ _ _ _ _ _ Hc)|].
    split; [exact (col_vector _ _ _ _ _ _ _ Hc)|].
    split; [exact (col_has_ip _ _ _ _ _ _ _ Hc)|].
    split; [exact (col_whitelisted _ _ _ _ _ _ _ Hc)|].
    split; [exact (col_self_signed _ _ _ _ _ _ _ Hc)|].
    apply rule_based_scoring_eq, (col_vector _ _ _ _ _ _ _ Hc).
  - unfold collect_features. rewrite Hnet. reflexivity.
Qed.

End CollectTheorems.


(** ** The whole analysis *)

Lemma get_ai_prediction_typed remote (f : gmap string pyval) v :
  feature_vector f = Some v ->
  exists p, get_ai_prediction remote f = Ok p
            /\ (unavailable remote -> p = PFloat (clamp01 (weighted_sum v)))
            /\ (forall q, remote_prediction remote = Ok q -> p = q).
Proof.
  intros Hv. unfold get_ai_prediction.
  destruct (remote_prediction remote) as [q|e] eqn:Hr.
  - exists q. split; [reflexivity|]. split.
    + intros [e He]%unavailable_raises. congruence.
    + intros q' [= ->]. reflexivity.
  - rewrite (rule_based_scoring_eq _ _ Hv). cbn [bind].
    eexists. split; [reflexivity|]. split; [reflexivity | discriminate].
Qed.

Lemma calculate_risk_level_whitelisted (f : gmap string pyval) p :
  f !! "is_whitelisted" = Some (PBool true) ->
  calculate_risk_level f p = Ok LOW.
Proof.
  intros Hf. unfold calculate_risk_level, getitem. rewrite Hf. reflexivity.
Qed.

Lemma calculate_risk_level_not_number (f : gmap string pyval) p :
  f !! "is_whitelisted" = Some (PBool false) ->
  as_num p = None ->
  calculate_risk_level f p
  = Raise (TypeError ("'>' not supported between instances of '"
                      ++ type_name p ++ "' and 'float'")).
Proof.
  intros Hf Hp. unfold calculate_risk_level, getitem. rewrite Hf.
  cbn [bind truthy]. unfold py_gt. rewrite Hp. reflexivity.
Qed.

Lemma calculate_risk_level_number (f : gmap string pyval) p n :
  f !! "is_whitelisted" = Some (PBool false) ->
  as_num p = Some n ->
  exists label, calculate_risk_level f p = Ok label.
Proof.
  intros Hf Hp. unfold calculate_risk_level, getitem. rewrite Hf.
  cbn [bind truthy]. unfold py_gt. rewrite Hp. cbn [bind].
  destruct (num_compare n (NFloat (F64.dec 7 10))) as [[]|]; cbn [bind]; eauto;
    destruct (num_compare n (NFloat (F64.dec 4 10))) as [[]|]; eauto.
Qed.

Section AnalyzeTheorems.
Variable urlparse_netloc : string -> result string.
Variable ip_search : string -> bool.
Variable pattern_search : string -> string -> bool.
Variable str_datetime : Z -> string.


(** X9.  With the remote classifier unavailable the analysis of a URL the
    parser accepts never raises: the result has exactly the keys
    [features], [ai_score] and [risk_level]; the score is the rule-based
    score of the collected features and lies in [0, 1]; the label is LOW for
    a whitelisted host and otherwise the label of that score. *)
Theorem analyze_url_fallback cfg w url netloc :
  urlparse_netloc url = Ok netloc ->
  (forall f, unavailable (post w (cfg_endpoint cfg) f)) ->
  exists d f v,
    analyze_url urlparse_netloc ip_search pattern_search str_datetime
      cfg w url = Ok d
    /\ dom d = {["features"; "ai_score"; "risk_level"]}
    /\ d !! "features" = Some (PDict f)
    /\ collect_features urlparse_netloc ip_search pattern_search
         str_datetime cfg w url = Ok f
    /\ feature_vector f = Some v
    /\ d !! "ai_score" = Some (PFloat (clamp01 (weighted_sum v)))
    /\ in_unit_interval (clamp01 (weighted_sum v))
    /\ d !! "risk_level"
       = Some (PStr (risk_level_str
                       (if is_whitelisted v then LOW
                        else label_of (clamp01 (weighted_sum v))))).
Proof.
  intros Hnet Hdown.
  destruct (collect_features_collected urlparse_netloc ip_search pattern_search
              str_datetime cfg w url netloc Hnet) as (f & v & Hf & _ & Hc).
  pose proof (col_vector _ _ _ _ _ _ _ Hc) as Hv.
  destruct (get_ai_prediction_typed (post w (cfg_endpoint cfg) f) f _ Hv)
    as (p & Hp & Hfallback & _).
  rewrite (Hfallback (Hdown f)) in Hp.
  pose proof (feature_vector_lookups _ _ Hv) as (_ & _ & _ & _ & Hwl).
  unfold analyze_url. rewrite Hf. cbn [bind]. rewrite Hp. cbn [bind].
  rewrite (calculate_risk_level_code _ _ _ Hwl). cbn [bind].
  eexists _, f, _. split; [reflexivity|]. split; [reflexivity|].
  split; [reflexivity|]. split; [reflexivity|]. split; [exact Hv|].
  split; [reflexivity|]. split; [apply clamp01_in_unit_interval | reflexivity].
Qed.

(** X10.  A whitelisted host is analysed to LOW whatever the remote
    classifier answers, a value that is no number included, and the
    analysis does not raise. *)
Theorem analyze_url_whitelisted cfg w url netloc :
  urlparse_netloc url = Ok netloc ->
  netloc ∈ cfg_whitelist cfg ->
  exists d, analyze_url urlparse_netloc ip_search pattern_search str_datetime
      cfg w url = Ok d /\ d !! "risk_level" = Some (PStr "LOW").
Proof.
  intros Hnet Hwl.
  destruct (collect_features_collected urlparse_netloc ip_search pattern_search
              str_datetime cfg w url netloc Hnet) as (f & v & Hf & _ & Hc).
    pose proof (col_vector _ _ _ _ _ _ _ Hc) as Hv.
    pose proof (feature_vector_lookups _ _ Hv) as (_ & _ & _ & _ & Hw).
    rewrite (col_whitelisted _ _ _ _ _ _ _ Hc) in Hw.
  destruct (get_ai_prediction_typed (post w (cfg_endpoint cfg) f) f _ Hv)
    as (p & Hp & _).
  rewrite (bool_decide_eq_true_2 _ Hwl) in Hw.
  unfold analyze_url. rewrite Hf. cbn [bind]. rewrite Hp. cbn [bind].
  rewrite (calculate_risk_level_whitelisted _ _ Hw). cbn [bind].
  eexists. split; reflexivity.
Qed.

Lemma analyze_url_raise_cases cfg w url e :
  analyze_url urlparse_netloc ip_search pattern_search str_datetime
      cfg w url = Raise e
  <-> (urlparse_netloc url = Raise e
       \/ exists netloc f p,
            urlparse_netloc url = Ok netloc
            /\ collect_features urlparse_netloc ip_search pattern_search
         str_datetime cfg w url = Ok f
            /\ (netloc ∉ cfg_whitelist cfg)
            /\ remote_prediction (post w (cfg_endpoint cfg) f) = Ok p
            /\ as_num p = None
            /\ e = TypeError ("'>' not supported between instances of '"
                              ++ type_name p ++ "' and 'float'")).
Proof.
  destruct (urlparse_netloc url) as [netloc|e0] eqn:Hnet.
  - destruct (collect_features_collected urlparse_netloc ip_search pattern_search
              str_datetime cfg w url netloc Hnet) as (f & v & Hf & _ & Hc).
    pose proof (col_vector _ _ _ _ _ _ _ Hc) as Hv.
    pose proof (feature_vector_lookups _ _ Hv) as (_ & _ & _ & _ & Hw).
    rewrite (col_whitelisted _ _ _ _ _ _ _ Hc) in Hw.
    destruct (get_ai_prediction_typed (post w (cfg_endpoint cfg) f) f _ Hv)
      as (p & Hp & Hfallback & Hremote).
    unfold analyze_url. rewrite Hf. cbn [bind]. rewrite Hp. cbn [bind].
    destruct (decide (netloc ∈ cfg_whitelist cfg)) as [Hin|Hout].
    + rewrite (bool_decide_eq_true_2 _ Hin) in Hw.
      rewrite (calculate_risk_level_whitelisted _ _ Hw). cbn [bind].
      split; [discriminate|].
      intros [H|(n' & f' & p' & [= <-] & _ & Hn & _)]; [discriminate | contradiction].
    + rewrite (bool_decide_eq_false_2 _ Hout) in Hw.
      destruct (as_num p) as [n|] eqn:Hnum.
      * destruct (calculate_risk_level_number _ _ _ Hw Hnum) as [label ->].
        cbn [bind]. split; [discriminate|].
        intros [H|(n' & f' & p' & _ & [= <-] & _ & Hr & Hnone & _)];
          [discriminate|].
        destruct (remote_prediction (post w (cfg_endpoint cfg) f)) as [q|e'] eqn:Hq.
        -- rewrite (Hremote q eq_refl) in Hnum. congruence.
        -- discriminate.
      * rewrite (calculate_risk_level_not_number _ _ Hw Hnum). cbn [bind].
        split.
        -- intros [= <-]. right. exists netloc, f, p.
           repeat split; try assumption; try reflexivity.
           destruct (remote_prediction (post w (cfg_endpoint cfg) f)) as [q|e'] eqn:Hq.
           ++ rewrite (Hremote q eq_refl). reflexivity.
           ++ assert (unavailable (post w (cfg_endpoint cfg) f)) as Hu
                by (apply unavailable_raises; eauto).
              rewrite (Hfallback Hu) in Hnum. discriminate.
        -- intros [H|(n' & f' & p' & _ & [= <-] & _ & Hr & _ & ->)];
             [discriminate H|].
           apply Hremote in Hr as <-. reflexivity.
  - unfold analyze_url, collect_features. rewrite Hnet. cbn [bind].
    split.
    + intros [= ->]. left. reflexivity.
    + intros [[= ->]|(n' & _ & _ & H & _)]; [reflexivity | discriminate].
Qed.

(** X11.  With a configuration of valid patterns and a whitelist of
    strings, the analysis raises in two cases only: the URL parser rejects
    the URL, and its exception is the one raised; or the host is not
    whitelisted and the remote classifier answered a value that is no
    number, which raises a [TypeError] from the comparison with 0.7.  Both
    cases do raise. *)
Theorem analyze_url_raises cfg w url e :
  (analyze_url urlparse_netloc ip_search pattern_search str_datetime
     cfg w url = Raise e ->
   urlparse_netloc url = Raise e
   \/ exists netloc f p msg,
        urlparse_netloc url = Ok netloc
        /\ collect_features urlparse_netloc ip_search pattern_search
             str_datetime cfg w url = Ok f
        /\ (netloc ∉ cfg_whitelist cfg)
        /\ remote_prediction (post w (cfg_endpoint cfg) f) = Ok p
        /\ as_num p = None
        /\ e = TypeError msg)
  /\ (urlparse_netloc url = Raise e ->
      analyze_url urlparse_netloc ip_search pattern_search str_datetime
        cfg w url = Raise e)
  /\ (forall netloc f p,
        urlparse_netloc url = Ok netloc ->
        collect_features urlparse_netloc ip_search pattern_search
          str_datetime cfg w url = Ok f ->
        netloc ∉ cfg_whitelist cfg ->
        remote_prediction (post w (cfg_endpoint cfg) f) = Ok p ->
        as_num p = None ->
        exists msg,
          analyze_url urlparse_netloc ip_search pattern_search str_datetime
            cfg w url = Raise (TypeError msg)).
Proof.
  split; [|split].
  - intros H. apply analyze_url_raise_cases in H
      as [H|(netloc & f & p & Hn & Hf & Hwl & Hr & Hnum & ->)].
    + left. exact H.
    + right. exists netloc, f, p. eexists. auto 10.
  - intros H. apply analyze_url_raise_cases. left. exact H.
  - intros netloc f p Hn Hf Hwl Hr Hnum. eexists.
    apply analyze_url_raise_cases. right. exists netloc, f, p. auto 10.
Qed.

End AnalyzeTheorems.


(** ** More on the extractors *)

Lemma timedelta_days_lt now t n :
  (timedelta_days now t <? n) = false <-> n * us_per_day <= now - t.
Proof.
  unfold timedelta_days.
  assert (0 < us_per_day) as Hd by reflexivity.
  pose proof (Z.div_mod (now - t) us_per_day) as Hdm.
  pose proof (Z.mod_pos_bound (now - t) us_per_day Hd) as Hr.
  destruct (Z.ltb_spec ((now - t) / us_per_day) n) as [H|H]; split;
    try discriminate; try reflexivity; intros; nia.
Qed.

(** X12.  A domain is reported as not new only on positive evidence: the
    lookup succeeded and the creation date it selects is a datetime at
    least 30 whole days (to the microsecond) before the clock.  A failed
    lookup, no date, an empty list, text the library could not parse, and a
    date in the future all give [is_new_domain = True]. *)
Theorem get_domain_info_not_new_needs_evidence str_datetime now lookup :
  exists r new,
    get_domain_info str_datetime now lookup = Ok r
    /\ r !! "is_new_domain" = Some (PBool new)
    /\ (new = false <->
        exists w t,
          lookup = Ok w
          /\ select_creation_date (creation_date w) = Ok (WDatetime t)
          /\ 30 * us_per_day <= now - t).
Proof.
  unfold get_domain_info.
  destruct lookup as [w|e]; cbn [bind try_except].
  - destruct (select_creation_date (creation_date w)) as [c|e] eqn:Hc;
      cbn [bind].
    + destruct c as [|t|s]; unfold days_since; cbn [wdate_truthy bind].
      * eexists _, true. split; [reflexivity|]. split; [reflexivity|].
        split; [discriminate|]. intros (w' & t & [= <-] & H & _).
        congruence.
      * eexists _, _. split; [reflexivity|]. split; [reflexivity|].
        rewrite timedelta_days_lt. split.
        -- intros H. exists w, t. auto.
        -- intros (w' & t' & [= <-] & H & Hle). congruence.
      * destruct (String.eqb s ""); cbn [negb bind];
          (eexists _, true; split; [reflexivity|]; split; [reflexivity|];
           split; [discriminate|]; intros (w' & t & [= <-] & H & _);
           congruence).
    + eexists _, true. split; [reflexivity|]. split; [reflexivity|].
      split; [discriminate|]. intros (w' & t & [= <-] & H & _). congruence.
  - eexists _, true. split; [reflexivity|]. split; [reflexivity|].
    split; [discriminate|]. intros (w' & t & H & _). discriminate.
Qed.

Lemma prefix_spec a b :
  String.prefix a b = true <-> exists post, b = (a ++ post)%string.
Proof.
  revert b. induction a as [|c a IH]; intros b.
  - destruct b; cbn; (split; [intros _; eexists; reflexivity | reflexivity]).
  - destruct b as [|c' b]; cbn;
      [split; [discriminate | intros [p Hp]; discriminate]|].
    destruct (ascii_dec c c') as [->|Hc].
    + rewrite IH. split.
      * intros [p ->]. exists p. reflexivity.
      * intros [p Hp]. cbn in Hp. injection Hp as ->. exists p. reflexivity.
    + split; [discriminate|]. intros [p Hp]. cbn in Hp.
      injection Hp as E _. symmetry in E. contradiction.
Qed.

Lemma contains_prefix needle hay :
  String.prefix needle hay = true -> contains needle hay = true.
Proof. destruct hay; cbn [contains]; intros ->; reflexivity. Qed.

(** [needle in hay]: the needle occurs somewhere in the text. *)
Lemma contains_spec needle hay :
  contains needle hay = true
  <-> exists pre post, hay = (pre ++ needle ++ post)%string.
Proof.
  split.
  - induction hay as [|c hay IH]; cbn [contains]; rewrite orb_true_iff.
    + intros [[p Hp]%prefix_spec|H]; [|discriminate].
      exists EmptyString, p. exact Hp.
    + intros [[p Hp]%prefix_spec|H].
      * exists EmptyString, p. exact Hp.
      * destruct (IH H) as (pre & post & ->).
        exists (String c pre), post. reflexivity.
  - intros (pre & post & ->). induction pre as [|c pre IH].
    + cbn [append]. apply contains_prefix, prefix_spec. eauto.
    + change (contains needle (String c (pre ++ needle ++ post)) = true).
      cbn [contains]. rewrite IH. apply orb_true_r.
Qed.

Lemma external_links_length urlparse_netloc url links l :
  external_links urlparse_netloc url links = Ok l ->
  (length l <= length links)%nat.
Proof.
  revert l. induction links as [|href rest IH]; intros l; cbn [external_links].
  - intros [= <-]. reflexivity.
  - destruct (if String.prefix "http" href
              then h <- urlparse_netloc href;; u <- urlparse_netloc url;;
                   Ok (negb (String.eqb h u))
              else Ok false) as [keep|e]; cbn [bind]; [|discriminate].
    destruct (external_links urlparse_netloc url rest) as [tail|e]; cbn [bind];
      [|discriminate].
    intros [= <-]. specialize (IH tail eq_refl).
    destruct keep; cbn [length]; lia.
Qed.

Lemma keyword_list_NoDup : NoDup keyword_list.
Proof. apply (bool_decide_unpack _). vm_compute. exact I. Qed.

Section ContentTheorems.
Variable urlparse_netloc : string -> result string.

(** X13.  On a page that was fetched and parsed, the reported keywords
    are the entries of the fixed nine-keyword list that occur somewhere in
    the lower-cased text, in list order and each at most once; so the
    keyword term of the score counts at most nine. *)
Theorem analyze_content_keywords url soup links :
  external_links urlparse_netloc url (anchors soup) = Ok links ->
  exists d found,
    analyze_content urlparse_netloc url (Ok soup) = Ok d
    /\ d !! "suspicious_keywords" = Some (PList (PStr <$> found))
    /\ sublist found keyword_list
    /\ NoDup found
    /\ (length found <= 9)%nat
    /\ (forall kw, kw ∈ found <->
          kw ∈ keyword_list
          /\ exists pre post, text_content soup = (pre ++ kw ++ post)%string).
Proof.
  intros Hlinks. unfold analyze_content. cbn [bind try_except].
  rewrite Hlinks. cbn [bind].
  eexists _, _. split; [reflexivity|]. split; [reflexivity|].
  split; [apply sublist_filter|].
  split; [apply NoDup_filter, keyword_list_NoDup|].
  split; [apply (length_filter _ keyword_list)|].
  intros kw. rewrite list_elem_of_filter, contains_spec. tauto.
Qed.

(** X14.  The counts of a parsed page are consistent: [has_forms] holds
    exactly when [form_count] is positive, a password field implies a form,
    and [external_links_count] lies between 0 and the number of anchors. *)
Theorem analyze_content_counts url soup links :
  external_links urlparse_netloc url (anchors soup) = Ok links ->
  exists d forms_n links_n pw,
    analyze_content urlparse_netloc url (Ok soup) = Ok d
    /\ d !! "form_count" = Some (PInt forms_n)
    /\ d !! "has_forms" = Some (PBool (0 <? forms_n))
    /\ d !! "has_password_field" = Some (PBool pw)
    /\ d !! "external_links_count" = Some (PInt links_n)
    /\ forms_n = Z.of_nat (length (forms soup))
    /\ (pw = true -> 0 < forms_n)
    /\ 0 <= links_n <= Z.of_nat (length (anchors soup)).
Proof.
  intros Hlinks. unfold analyze_content. cbn [bind try_except].
  rewrite Hlinks. cbn [bind].
  eexists _, _, _, _. split; [reflexivity|].
  do 4 (split; [reflexivity|]). split; [reflexivity|]. split.
  - destruct (forms soup); cbn; [discriminate | lia].
  - apply external_links_length in Hlinks. lia.
Qed.

(** X15.  Anchors whose href does not start with [http] (relative links,
    [mailto:], protocol-relative links, ...) are neither parsed nor counted:
    on a page with only such anchors the count is 0 and the analysis of the
    links cannot fail, whatever the URL parser would do with them. *)
Theorem external_links_skips_non_http url soup :
  Forall (fun href => String.prefix "http" href = false) (anchors soup) ->
  external_links urlparse_netloc url (anchors soup) = Ok []
  /\ exists d,
       analyze_content urlparse_netloc url (Ok soup) = Ok d
       /\ d !! "external_links_count" = Some (PInt 0)
       /\ d !! "analyzed" = None.
Proof.
  intros Hall.
  assert (external_links urlparse_netloc url (anchors soup) = Ok []) as Hl.
  { induction Hall as [|href rest Hh _ IH]; [reflexivity|].
    cbn [external_links]. rewrite Hh, IH. reflexivity. }
  split; [exact Hl|].
  unfold analyze_content. cbn [bind try_except]. rewrite Hl. cbn [bind].
  eexists. split; [reflexivity|]. split; reflexivity.
Qed.

End ContentTheorems.


(** ** Recommendations *)

Lemma py_eq_str_spec v s : WebInterface.py_eq_str v s = true <-> v = PStr s.
Proof.
  destruct v; cbn; try (split; [discriminate | congruence]).
  destruct (String.eqb_spec s0 s); split; congruence.
Qed.

Lemma generate_recommendations_shape analysis recs :
  WebInterface.generate_recommendations analysis = Ok recs ->
  exists features risk hip valid kws new,
    analysis !! "features" = Some features
    /\ analysis !! "risk_level" = Some risk
    /\ py_get features "has_ip" PNone = Ok hip
    /\ (ssl <- py_get features "ssl_info" (PDict ∅);; py_get ssl "valid" PNone)
       = Ok valid
    /\ (content <- py_get features "content_analysis" (PDict ∅);;
        py_get content "suspicious_keywords" PNone) = Ok kws
    /\ (dinfo <- py_get features "domain_info" (PDict ∅);;
        py_get dinfo "is_new_domain" PNone) = Ok new
    /\ recs
       = ((if WebInterface.py_eq_str risk "HIGH"
           then WebInterface.high_risk_block else [])
          ++ feature_recommendations (truthy hip) (negb (truthy valid))
               (truthy kws) (truthy new)
          ++ (if WebInterface.py_eq_str risk "LOW"
              then [WebInterface.rec_appears_legitimate] else []))%list.
Proof.
  unfold WebInterface.generate_recommendations, getitem.
  destruct (analysis !! "features") as [features|]; cbn [bind]; [|discriminate].
  destruct (analysis !! "risk_level") as [risk|]; cbn [bind]; [|discriminate].
  destruct (py_get features "has_ip" PNone) as [hip|] eqn:E1;
    cbn [bind]; [|discriminate].
  destruct (py_get features "ssl_info" (PDict ∅)) as [ssl|] eqn:E2;
    cbn [bind]; [|discriminate].
  destruct (py_get ssl "valid" PNone) as [valid|] eqn:E3;
    cbn [bind]; [|discriminate].
  destruct (py_get features "content_analysis" (PDict ∅)) as [content|] eqn:E4;
    cbn [bind]; [|discriminate].
  destruct (py_get content "suspicious_keywords" PNone) as [kws|] eqn:E5;
    cbn [bind]; [|discriminate].
  destruct (py_get features "domain_info" (PDict ∅)) as [dinfo|] eqn:E6;
    cbn [bind]; [|discriminate].
  destruct (py_get dinfo "is_new_domain" PNone) as [new|] eqn:E7;
    cbn [bind]; [|discriminate].
  intros [= <-]. exists features, risk, hip, valid, kws, new.
  split; [reflexivity|]. split; [reflexivity|]. split; [exact E1|].
  split; [rewrite E2; exact E3|]. split; [rewrite E4; exact E5|].
  split; [rewrite E6; exact E7|].
  unfold feature_recommendations.
  destruct (WebInterface.py_eq_str risk "HIGH"), (truthy hip), (truthy valid),
    (truthy kws), (truthy new), (WebInterface.py_eq_str risk "LOW"); reflexivity.
Qed.

Lemma labelled_recommendations (hi lo ip no_ssl urgent new : bool) :
  hi && lo = false ->
  let recs := ((if hi then WebInterface.high_risk_block else [])
               ++ feature_recommendations ip no_ssl urgent new
               ++ (if lo then [WebInterface.rec_appears_legitimate] else []))%list in
  sublist recs all_recommendations
  /\ (length recs <= 7)%nat
  /\ (forall r, In r WebInterface.high_risk_block -> (In r recs <-> hi = true))
  /\ (In WebInterface.rec_appears_legitimate recs <-> lo = true)
  /\ (In WebInterface.rec_ip_address recs <-> ip = true)
  /\ (In WebInterface.rec_no_ssl recs <-> no_ssl = true)
  /\ (In WebInterface.rec_urgent_language recs <-> urgent = true)
  /\ (In WebInterface.rec_new_domain recs <-> new = true).
Proof.
  intros Hx. cbv zeta.
  split; [|split; [|split]].
  - destruct hi, lo, ip, no_ssl, urgent, new; try discriminate Hx;
      cbn [app feature_recommendations WebInterface.high_risk_block];
      unfold all_recommendations;
      repeat first [apply sublist_nil | apply sublist_skip | apply sublist_cons].
  - destruct hi, lo, ip, no_ssl, urgent, new; try discriminate Hx; cbn; lia.
  - intros r Hr. cbn in Hr.
    destruct Hr as [<-|[<-|[<-|[]]]];
      destruct hi, lo, ip, no_ssl, urgent, new; try discriminate Hx;
      cbn; intuition discriminate.
  - repeat split; destruct hi, lo, ip, no_ssl, urgent, new;
      try discriminate Hx; cbn; intuition discriminate.
Qed.


(** X16.  The recommendations follow the label: they are part of the
    fixed list of eight, in that order and without repetition; the three
    warnings of the high-risk block are given exactly for the label HIGH and
    the closing reassurance exactly for LOW, so never both, and at most
    seven recommendations are given. *)
Theorem generate_recommendations_by_level analysis recs :
  WebInterface.generate_recommendations analysis = Ok recs ->
  exists risk,
    analysis !! "risk_level" = Some risk
    /\ sublist recs all_recommendations
    /\ (length recs <= 7)%nat
    /\ (forall r, In r WebInterface.high_risk_block ->
                  (In r recs <-> risk = PStr "HIGH"))
    /\ (In WebInterface.rec_appears_legitimate recs <-> risk = PStr "LOW").
Proof.
  intros H.
  destruct (generate_recommendations_shape _ _ H)
    as (features & risk & hip & valid & kws & new & _ & Hrisk & _ & _ & _ & _ & ->).
  exists risk. split; [exact Hrisk|].
  assert (WebInterface.py_eq_str risk "HIGH" && WebInterface.py_eq_str risk "LOW"
          = false) as Hx.
  { destruct (WebInterface.py_eq_str risk "HIGH") eqn:Hh; [|reflexivity].
    apply py_eq_str_spec in Hh as ->. reflexivity. }
  destruct (labelled_recommendations _ _ (truthy hip) (negb (truthy valid))
              (truthy kws) (truthy new) Hx)
    as (Hsub & Hlen & Hhigh & Hlow & _).
  split; [exact Hsub|]. split; [exact Hlen|]. split.
  - intros r Hr. rewrite (Hhigh r Hr). apply py_eq_str_spec.
  - rewrite Hlow. apply py_eq_str_spec.
Qed.

Lemma risk_level_str_exclusive label :
  WebInterface.py_eq_str (PStr (risk_level_str label)) "HIGH"
  && WebInterface.py_eq_str (PStr (risk_level_str label)) "LOW" = false.
Proof. destruct label; reflexivity. Qed.

Lemma collected_recommendations cfg w netloc ip patterns f v p label :
  collected cfg w netloc ip patterns f v ->
  WebInterface.generate_recommendations
    (<["features" := PDict f]>
     (<["ai_score" := p]>
     (<["risk_level" := PStr (risk_level_str label)]> ∅)))
  = Ok ((if WebInterface.py_eq_str (PStr (risk_level_str label)) "HIGH"
         then WebInterface.high_risk_block else [])
        ++ feature_recommendations (has_ip v) (negb (tls_valid v))
             (match suspicious_keywords v with [] => false | _ => true end)
             (is_new_domain v)
        ++ (if WebInterface.py_eq_str (PStr (risk_level_str label)) "LOW"
            then [WebInterface.rec_appears_legitimate] else []))%list.
Proof.
  intros Hc.
  pose proof (feature_vector_lookups _ _ (col_vector _ _ _ _ _ _ _ Hc))
    as (Hip & _).
  destruct (col_ssl_info _ _ _ _ _ _ _ Hc) as (ssl & Hssl & Hvalid).
  destruct (col_content _ _ _ _ _ _ _ Hc) as (content & Hcontent & Hkws).
  destruct (col_domain_info _ _ _ _ _ _ _ Hc) as (dinfo & Hdinfo & Hnew).
  unfold WebInterface.generate_recommendations, getitem.
  rewrite lookup_insert_eq. cbn [bind].
  rewrite lookup_insert_ne, lookup_insert_ne, lookup_insert_eq by discriminate.
  cbn [bind py_get]. unfold dict_get.
  rewrite Hip, Hssl, Hcontent, Hdinfo. cbn [default from_option id bind py_get].
  unfold dict_get. rewrite Hvalid, Hnew. cbn [default from_option id bind truthy].
  assert (truthy (default PNone (content !! "suspicious_keywords"))
          = match suspicious_keywords v with [] => false | _ => true end) as ->.
  { unfold list_field in Hkws.
    destruct (content !! "suspicious_keywords") as [[]|];
      try discriminate Hkws; injection Hkws as <-; reflexivity. }
  unfold feature_recommendations.
  destruct (WebInterface.py_eq_str (PStr (risk_level_str label)) "HIGH"),
    (has_ip v), (tls_valid v),
    (match suspicious_keywords v with [] => false | _ => true end),
    (is_new_domain v),
    (WebInterface.py_eq_str (PStr (risk_level_str label)) "LOW"); reflexivity.
Qed.

Section RecommendationTheorems.
Variable urlparse_netloc : string -> result string.
Variable ip_search : string -> bool.
Variable pattern_search : string -> string -> bool.
Variable str_datetime : Z -> string.

Lemma analyze_url_inversion cfg w url d :
  analyze_url urlparse_netloc ip_search pattern_search str_datetime cfg w url
  = Ok d ->
  exists netloc f v p label,
    urlparse_netloc url = Ok netloc
    /\ collect_features urlparse_netloc ip_search pattern_search str_datetime
         cfg w url = Ok f
    /\ collected cfg w netloc (ip_search netloc)
         (check_suspicious_patterns pattern_search cfg url) f v
    /\ get_ai_prediction (post w (cfg_endpoint cfg) f) f = Ok p
    /\ calculate_risk_level f p = Ok label
    /\ d = <["features" := PDict f]>
           (<["ai_score" := p]>
           (<["risk_level" := PStr (risk_level_str label)]> ∅)).
Proof.
  intros H.
  destruct (urlparse_netloc url) as [netloc|e] eqn:Hnet.
  - destruct (collect_features_collected urlparse_netloc ip_search
                pattern_search str_datetime cfg w url netloc Hnet)
      as (f & v & Hf & _ & Hc).
    unfold analyze_url in H. rewrite Hf in H. cbn [bind] in H.
    destruct (get_ai_prediction (post w (cfg_endpoint cfg) f) f) as [p|e]
      eqn:Hp; cbn [bind] in H; [|discriminate H].
    destruct (calculate_risk_level f p) as [label|e] eqn:Hl;
      cbn [bind] in H; [|discriminate H].
    injection H as <-. exists netloc, f, v, p, label. auto 10.
  - unfold analyze_url, collect_features in H. rewrite Hnet in H.
    discriminate H.
Qed.

(** X17.  Recommendations are computed for every analysis result, without
    an exception, and mirror what was collected: the IP-address warning is
    given exactly when the host matched the dotted-quad search, the SSL
    warning exactly when the TLS check failed, the urgent-language warning
    exactly when a keyword was found, the new-domain warning exactly when
    the domain was reported new, which a failed registration lookup always
    does; a whitelisted host gets the closing reassurance beside them. *)
Theorem analyze_url_recommendations cfg w url d :
  analyze_url urlparse_netloc ip_search pattern_search str_datetime cfg w url
  = Ok d ->
  exists netloc f v recs,
    urlparse_netloc url = Ok netloc
    /\ d !! "features" = Some (PDict f)
    /\ feature_vector f = Some v
    /\ WebInterface.generate_recommendations d = Ok recs
    /\ (In WebInterface.rec_ip_address recs <-> ip_search netloc = true)
    /\ (In WebInterface.rec_no_ssl recs <-> exists e, tls w netloc = Raise e)
    /\ (In WebInterface.rec_urgent_language recs
        <-> suspicious_keywords v <> [])
    /\ (In WebInterface.rec_new_domain recs <-> is_new_domain v = true)
    /\ ((exists e, whois w netloc = Raise e)
        -> In WebInterface.rec_new_domain recs)
    /\ (netloc ∈ cfg_whitelist cfg
        -> In WebInterface.rec_appears_legitimate recs).
Proof.
  intros H.
  destruct (analyze_url_inversion _ _ _ _ H)
    as (netloc & f & v & p & label & Hnet & Hf & Hc & Hp & Hl & ->).
  pose proof (col_vector _ _ _ _ _ _ _ Hc) as Hv.
  destruct (labelled_recommendations _ _ (has_ip v) (negb (tls_valid v))
              (match suspicious_keywords v with [] => false | _ => true end)
              (is_new_domain v) (risk_level_str_exclusive label))
    as (_ & _ & _ & Hlow & Hip & Hssl & Hkw & Hnew).
  eexists netloc, f, v, _. split; [exact Hnet|].
  split; [apply lookup_insert_eq|]. split; [exact Hv|].
  split; [exact (collected_recommendations _ _ _ _ _ _ _ p label Hc)|].
  split; [rewrite Hip, (col_has_ip _ _ _ _ _ _ _ Hc); reflexivity|].
  split.
  { rewrite Hssl, <- (col_tls_failed _ _ _ _ _ _ _ Hc).
    destruct (tls_valid v); cbn; intuition discriminate. }
  split.
  { rewrite Hkw. destruct (suspicious_keywords v); split; congruence. }
  split; [exact Hnew|]. split.
  { intros [e He]. apply Hnew, (col_whois_failed _ _ _ _ _ _ _ Hc e He). }
  intros Hwl. apply Hlow.
  pose proof (feature_vector_lookups _ _ Hv) as (_ & _ & _ & _ & Hw).
  rewrite (col_whitelisted _ _ _ _ _ _ _ Hc), (bool_decide_eq_true_2 _ Hwl) in Hw.
  rewrite (calculate_risk_level_whitelisted _ _ Hw) in Hl.
  injection Hl as <-. reflexivity.
Qed.

End RecommendationTheorems.

(** ** The /analyze endpoint *)

Section EndpointTheorems.
Variable urlparse_netloc : string -> result string.
Variable ip_search : string -> bool.
Variable pattern_search : string -> string -> bool.
Variable str_datetime : Z -> string.
Variable validate_float : pyval -> result pyval.

(** X18.  With the remote classifier unavailable, and a response model
    that accepts the floats of the unit interval, the endpoint answers every
    URL the parser accepts with a response, never with an error: its five
    fields are the URL as sent, the collected features, their rule-based
    score, the label of that score (LOW for a whitelisted host) and the
    recommendations computed from the analysis. *)
Theorem endpoint_answers_without_classifier cfg w url netloc :
  urlparse_netloc url = Ok netloc ->
  (forall f, unavailable (post w (cfg_endpoint cfg) f)) ->
  (forall x, in_unit_interval x -> validate_float (PFloat x) = Ok (PFloat x)) ->
  exists body d f v recs,
    WebInterface.analyze_url urlparse_netloc ip_search pattern_search
      str_datetime validate_float cfg w url = WebInterface.Response body
    /\ dom body
       = {["url"; "risk_level"; "ai_score"; "features"; "recommendations"]}
    /\ body !! "url" = Some (PStr url)
    /\ analyze_url urlparse_netloc ip_search pattern_search str_datetime
         cfg w url = Ok d
    /\ body !! "features" = Some (PDict f)
    /\ feature_vector f = Some v
    /\ body !! "ai_score" = Some (PFloat (clamp01 (weighted_sum v)))
    /\ body !! "risk_level"
       = Some (PStr (risk_level_str
                       (if is_whitelisted v then LOW
                        else label_of (clamp01 (weighted_sum v)))))
    /\ WebInterface.generate_recommendations d = Ok recs
    /\ body !! "recommendations" = Some (PList (PStr <$> recs)).
Proof.
  intros Hnet Hdown Hfloat.
  destruct (collect_features_collected urlparse_netloc ip_search pattern_search
              str_datetime cfg w url netloc Hnet) as (f & v & Hf & _ & Hc).
  pose proof (col_vector _ _ _ _ _ _ _ Hc) as Hv.
  destruct (get_ai_prediction_typed (post w (cfg_endpoint cfg) f) f _ Hv)
    as (p & Hp & Hfallback & _).
  rewrite (Hfallback (Hdown f)) in Hp.
  pose proof (feature_vector_lookups _ _ Hv) as (_ & _ & _ & _ & Hwl).
  unfold WebInterface.analyze_url, analyze_url.
  rewrite Hf. cbn [bind]. rewrite Hp. cbn [bind].
  rewrite (calculate_risk_level_code _ _ _ Hwl). cbn [bind].
  rewrite (collected_recommendations _ _ _ _ _ _ _ _ _ Hc). cbn [bind].
  unfold WebInterface.detection_response, getitem.
  rewrite lookup_insert_ne, lookup_insert_ne, lookup_insert_eq by discriminate.
  cbn [bind].
  rewrite lookup_insert_ne, lookup_insert_eq by discriminate. cbn [bind].
  rewrite lookup_insert_eq. cbn [bind].
  rewrite (Hfloat _ (clamp01_in_unit_interval _)). cbn [bind].
  eexists _, _, f, v, _. split; [reflexivity|].
  split; [reflexivity|]. split; [reflexivity|]. split; [reflexivity|].
  split; [reflexivity|]. split; [exact Hv|]. split; [reflexivity|].
  split; [reflexivity|].
  split; [exact (collected_recommendations _ _ _ _ _ _ _ _ _ Hc)|].
  reflexivity.
Qed.

(** X19.  The only error the handler of the endpoint raises is status 500,
    with the text of the exception as detail, and it has two causes only:
    the analysis raised, or the response model rejected the score of a
    finished analysis.  Computing the recommendations is never the cause. *)
Theorem endpoint_error_causes cfg w url status detail :
  WebInterface.analyze_url urlparse_netloc ip_search pattern_search
    str_datetime validate_float cfg w url = WebInterface.HTTPException status detail
  <-> (status = 500
       /\ exists e,
            detail = str_exn e
            /\ (analyze_url urlparse_netloc ip_search pattern_search
                  str_datetime cfg w url = Raise e
                \/ exists d score,
                     analyze_url urlparse_netloc ip_search pattern_search
                       str_datetime cfg w url = Ok d
                     /\ d !! "ai_score" = Some score
                     /\ validate_float score = Raise e)).
Proof.
  unfold WebInterface.analyze_url.
  destruct (analyze_url urlparse_netloc ip_search pattern_search str_datetime
              cfg w url) as [d|e0] eqn:Ha; cbn [bind].
  - destruct (analyze_url_inversion _ _ _ _ _ _ _ _ Ha)
      as (netloc & f & v & p & label & _ & _ & Hc & _ & _ & ->).
    rewrite (collected_recommendations _ _ _ _ _ _ _ _ _ Hc). cbn [bind].
    unfold WebInterface.detection_response, getitem.
    rewrite lookup_insert_ne, lookup_insert_ne, lookup_insert_eq by discriminate.
    cbn [bind].
    rewrite lookup_insert_ne, lookup_insert_eq by discriminate. cbn [bind].
    rewrite lookup_insert_eq. cbn [bind].
    destruct (validate_float p) as [q|e] eqn:Hq; cbn [bind].
    + split; [discriminate|].
      intros (_ & e & _ & [H|(d' & score & [= <-] & Hs & Hr)]);
        [discriminate H|].
      rewrite lookup_insert_ne, lookup_insert_eq in Hs by discriminate.
      injection Hs as <-. congruence.
    + split.
      * intros [= <- <-]. split; [reflexivity|]. exists e.
        split; [reflexivity|]. right. eexists _, p.
        split; [reflexivity|]. split; [|exact Hq].
        rewrite lookup_insert_ne, lookup_insert_eq by discriminate. reflexivity.
      * intros (-> & e' & -> & [H|(d' & score & [= <-] & Hs & Hr)]);
          [discriminate H|].
        rewrite lookup_insert_ne, lookup_insert_eq in Hs by discriminate.
        injection Hs as <-. rewrite Hq in Hr. injection Hr as <-. reflexivity.
  - split.
    + intros [= <- <-]. split; [reflexivity|]. exists e0. auto.
    + intros (-> & e & -> & [[= ->]|(d & score & H & _)]);
        [reflexivity | discriminate H].
Qed.

End EndpointTheorems.

(** ** Configuration *)

Lemma is_file_not_found_file_not_found path :
  is_file_not_found (file_not_found path) = true.
Proof. reflexivity. Qed.

(** X20.  Loading a configuration file that does not exist, at a path
    that can be written, returns the default configuration and stores it at
    that path, leaving every other file as it was; loading again from the
    resulting store returns the same configuration and writes nothing. *)
Theorem load_config_creates_default fs path :
  files fs !! path = None ->
  writable fs path = true ->
  exists fs',
    load_config fs path = Ok (PDict default_config, fs')
    /\ read_json fs' path = Ok (PDict default_config)
    /\ (forall other, other <> path -> files fs' !! other = files fs !! other)
    /\ load_config fs' path = Ok (PDict default_config, fs').
Proof.
  intros Hmissing Hw.
  unfold load_config, read_json at 1. rewrite Hmissing.
  rewrite is_file_not_found_file_not_found.
  unfold create_default_config, write_json. rewrite Hw. cbn [bind].
  eexists. split; [reflexivity|].
  unfold read_json. cbn [files]. rewrite lookup_insert_eq.
  split; [reflexivity|]. split; [|reflexivity].
  intros other Hother. apply lookup_insert_ne. congruence.
Qed.

(** X21.  Loading never replaces an existing file: a result comes either
    from a JSON file, with the store unchanged, or from a missing file
    created with the defaults at a writable path; and loading raises exactly
    when the file holds text that is not JSON, cannot be read, or is missing
    at a path that cannot be written: only the missing file is handled. *)
Theorem load_config_outcomes fs path :
  (forall v fs',
     load_config fs path = Ok (v, fs')
     <-> ((files fs !! path = Some (JsonFile v) /\ fs' = fs)
          \/ (files fs !! path = None /\ writable fs path = true
              /\ v = PDict default_config
              /\ fs' = {| files := <[path := JsonFile v]> (files fs);
                          writable := writable fs |})))
  /\ ((exists e, load_config fs path = Raise e)
      <-> ((exists text, files fs !! path = Some (TextFile text))
           \/ (exists msg, files fs !! path = Some (Unreadable msg))
           \/ (files fs !! path = None /\ writable fs path = false))).
Proof.
  unfold load_config, read_json, create_default_config, write_json.
  destruct (files fs !! path) as [[v0|text|msg]|] eqn:Hf; cbn [is_file_not_found].
  - split.
    + intros v fs'. split.
      * intros [= <- <-]. left. auto.
      * intros [([= ->] & ->)|(H & _)]; [reflexivity | discriminate H].
    + split; [intros [e H]; discriminate H|].
      intros [[? H]|[[? H]|[H _]]]; discriminate H.
  - split.
    + intros v fs'. split; [discriminate|].
      intros [(H & _)|(H & _)]; discriminate H.
    + split; eauto.
  - split.
    + intros v fs'. split; [discriminate|].
      intros [(H & _)|(H & _)]; discriminate H.
    + split; eauto.
  - cbn [String.eqb Ascii.eqb Bool.eqb]. destruct (writable fs path) eqn:Hw;
      cbn [bind].
    + split.
      * intros v fs'. split.
        -- intros [= <- <-]. right. auto.
        -- intros [(H & _)|(_ & _ & -> & ->)]; [discriminate H | reflexivity].
      * split; [intros [e H]; discriminate H|].
        intros [[? H]|[[? H]|[_ H]]]; discriminate H.
    + split.
      * intros v fs'. split; [discriminate|].
        intros [(H & _)|(_ & H & _)]; discriminate H.
      * split; eauto.
Qed.

(** X22.  A detector is built from any configuration that is a JSON
    object, the patterns and the whitelist being those of the object or
    the empty list where the key is absent: a configuration with neither
    key gives a detector that reports no pattern and whitelists no host.  A
    configuration that is JSON but no object makes the constructor raise an
    [AttributeError]. *)
Theorem init_reads_configuration fs path v :
  files fs !! path = Some (JsonFile v) ->
  match v with
  | PDict c =>
      exists d,
        init fs path = Ok (d, fs)
        /\ det_config d = v
        /\ det_patterns d = default (PList []) (c !! "suspicious_patterns")
        /\ det_whitelist d = default (PList []) (c !! "whitelist_domains")
        /\ (c !! "suspicious_patterns" = None ->
            c !! "whitelist_domains" = None ->
            exists cfg,
              detector_config d = Some cfg
              /\ (forall search url,
                    check_suspicious_patterns search cfg url = [])
              /\ (forall netloc, netloc ∉ cfg_whitelist cfg))
  | _ => exists msg, init fs path = Raise (AttributeError msg)
  end.
Proof.
  intros Hf. unfold init, load_config, read_json. rewrite Hf. cbn [bind fst snd].
  destruct v; try (eexists; reflexivity).
  cbn [py_get bind]. eexists. split; [reflexivity|].
  cbn [det_config det_patterns det_whitelist]. unfold dict_get.
  split; [reflexivity|]. split; [reflexivity|]. split; [reflexivity|].
  intros Hp Hw. unfold detector_config.
  cbn [det_config det_patterns det_whitelist]. rewrite Hp, Hw.
  cbn [default from_option id strings_of mbind option_bind].
  eexists. split; [reflexivity|]. cbn [cfg_patterns cfg_whitelist].
  split; [reflexivity|]. intros netloc. apply not_elem_of_nil.
Qed.

(** X23.  A first start without a configuration file gives the detector
    of the default configuration, with its four patterns, its whitelist of
    three hosts and its endpoint; a restart on the store it leaves gives the
    same detector and writes nothing. *)
Theorem init_default_restart fs path :
  files fs !! path = None ->
  writable fs path = true ->
  exists d fs' cfg,
    init fs path = Ok (d, fs')
    /\ init fs' path = Ok (d, fs')
    /\ detector_config d = Some cfg
    /\ PList (PStr <$> cfg_patterns cfg)
       = default PNone (default_config !! "suspicious_patterns")
    /\ PList (PStr <$> cfg_whitelist cfg)
       = default PNone (default_config !! "whitelist_domains")
    /\ (PStr <$> cfg_endpoint cfg) = default_config !! "ai_model_endpoint".
Proof.
  intros Hmissing Hw.
  unfold init, load_config, read_json at 1. rewrite Hmissing.
  rewrite is_file_not_found_file_not_found.
  unfold create_default_config, write_json. rewrite Hw.
  cbn [bind fst snd py_get].
  eexists _, _, _. split; [reflexivity|].
  unfold read_json. cbn [files]. rewrite lookup_insert_eq.
  cbn [bind fst snd py_get]. split; [reflexivity|].
  split; [vm_compute; reflexivity|].
  split; [vm_compute; reflexivity|]. split; vm_compute; reflexivity.
Qed.

(** * Instances on concrete inputs *)

Lemma tls_first_permutation v : tls_first v ≡ₚ positive_terms v.
Proof.
  unfold tls_first, positive_terms.
  apply (Permutation_app_swap_app [_; _] [_; _; _; _] _).
Qed.

(** C1 fails as stated: the score is no exact weighted sum and depends on
    the order of the additions.  A long host name, a failed TLS check and a
    password field give 0.1 + 0.3 + 0.2 + 0.1 in source order, which is
    0.7000000000000001 in binary64 and labelled HIGH; the same four terms
    with the TLS terms first sum to 0.7, which is labelled MEDIUM. *)
Lemma summation_order_changes_score :
  feature_vector rounding_features = Some rounding_vector
  /\ tls_first rounding_vector ≡ₚ positive_terms rounding_vector
  /\ clamp01 (weighted_sum_in (tls_first rounding_vector) rounding_vector)
     = F64.dec 7 10
  /\ rule_based_scoring rounding_features
     = Ok (clamp01 (weighted_sum rounding_vector))
  /\ F64.gt (clamp01 (weighted_sum rounding_vector)) (F64.dec 7 10) = true
  /\ calculate_risk_level rounding_features
       (PFloat (clamp01 (weighted_sum rounding_vector))) = Ok HIGH
  /\ calculate_risk_level rounding_features (PFloat (F64.dec 7 10)) = Ok MEDIUM.
Proof.
  split; [vm_compute; reflexivity|].
  split; [apply tls_first_permutation|].
  repeat split; vm_compute; reflexivity.
Qed.

Lemma rule_based_scoring_weighted_sum_witness :
  feature_vector sample_features = Some sample_vector
  /\ rule_based_scoring sample_features = Ok (clamp01 (weighted_sum sample_vector))
  /\ in_unit_interval (clamp01 (weighted_sum sample_vector)).
Proof.
  assert (feature_vector sample_features = Some sample_vector) as H
    by (vm_compute; reflexivity).
  split; [exact H|].
  destruct (rule_based_scoring_weighted_sum sample_features sample_vector H)
    as (Hscore & _ & Hrange & _).
  split; [exact Hscore | exact Hrange].
Defined.

Lemma calculate_risk_level_thresholds_witness :
  sample_features !! "is_whitelisted" = Some (PBool false)
  /\ calculate_risk_level sample_features (PFloat (F64.dec 7 10)) = Ok MEDIUM.
Proof.
  assert (sample_features !! "is_whitelisted" = Some (PBool false)) as H
    by (vm_compute; reflexivity).
  split; [exact H|].
  destruct (calculate_risk_level_thresholds sample_features false H)
    as (_ & _ & Hmedium & _).
  exact (Hmedium eq_refl).
Defined.

(** C3 fails as stated: a remote value of 1.5 is returned as the score. *)
Lemma remote_score_out_of_range :
  feature_vector sample_features = Some sample_vector
  /\ get_ai_prediction remote_too_high sample_features = Ok (PFloat (F64.dec 15 10))
  /\ ~ in_unit_interval (F64.dec 15 10).
Proof.
  split; [vm_compute; reflexivity|].
  split; [vm_compute; reflexivity|].
  intros [_ H]. vm_compute in H. discriminate H.
Qed.

Lemma get_ai_prediction_unclamped_witness :
  feature_vector sample_features = Some sample_vector
  /\ get_ai_prediction remote_too_high sample_features
     = Ok (dict_get (<["phishing_probability" := PFloat (F64.dec 15 10)]> ∅)
             "phishing_probability" (PFloat F64.zero)).
Proof.
  assert (feature_vector sample_features = Some sample_vector) as H
    by (vm_compute; reflexivity).
  split; [exact H|].
  destruct (get_ai_prediction_unclamped remote_too_high sample_features sample_vector H)
    as [_ Hbody].
  exact (Hbody 200 _ eq_refl).
Defined.

(** C4 fails as stated: an object without the field gives 0.0, and an
    error status with the field gives the field, while the rule-based score
    of the same features is neither. *)
Lemma missing_field_is_not_fallback :
  feature_vector sample_features = Some sample_vector
  /\ get_ai_prediction remote_missing_field sample_features = Ok (PFloat F64.zero)
  /\ get_ai_prediction remote_server_error sample_features = Ok (PFloat (F64.dec 1 10))
  /\ exists score,
       rule_based_scoring sample_features = Ok score
       /\ F64.gt score (F64.dec 1 10) = true
       /\ PFloat score <> PFloat F64.zero
       /\ PFloat score <> PFloat (F64.dec 1 10).
Proof.
  split; [vm_compute; reflexivity|].
  split; [vm_compute; reflexivity|].
  split; [vm_compute; reflexivity|].
  eexists. split; [vm_compute; reflexivity|].
  split; [vm_compute; reflexivity|].
  split; vm_compute; discriminate.
Qed.

Lemma get_ai_prediction_fallback_witness :
  feature_vector sample_features = Some sample_vector
  /\ unavailable remote_timeout
  /\ exists score,
       rule_based_scoring sample_features = Ok score
       /\ get_ai_prediction remote_timeout sample_features = Ok (PFloat score).
Proof.
  assert (feature_vector sample_features = Some sample_vector) as H
    by (vm_compute; reflexivity).
  assert (unavailable remote_timeout) as Hu by apply transport_failure.
  split; [exact H|]. split; [exact Hu|].
  destruct (get_ai_prediction_fallback remote_timeout sample_features sample_vector H)
    as [Hfallback _].
  exact (Hfallback Hu).
Defined.

(** C5 fails as stated: the self-signed default of the failed TLS check
    adds its 0.2 as well, and the scenario scores 1.0, not 0.8. *)
Lemma scenario_score_is_not_0_8 :
  (features <- scenario_features;; Ok (feature_vector features))
    = Ok (Some scenario_vector)
  /\ nth 5 (positive_terms scenario_vector) F64.zero = F64.dec 2 10
  /\ weighted_sum scenario_vector = F64.one
  /\ (features <- scenario_features;; rule_based_scoring features) = Ok F64.one
  /\ F64.one <> F64.dec 8 10.
Proof.
  split; [vm_compute; reflexivity|].
  split; [vm_compute; reflexivity|].
  split; [vm_compute; reflexivity|].
  split; [vm_compute; reflexivity|].
  vm_compute. discriminate.
Qed.

Lemma scenario_score_witness :
  exists features,
    scenario_features = Ok features
    /\ feature_vector features = Some scenario_vector
    /\ positive_terms scenario_vector
       = [ F64.dec 3 10; F64.zero; F64.zero; F64.zero; F64.dec 3 10;
           F64.dec 2 10; F64.zero; F64.zero; F64.zero; F64.dec 2 10 ]
    /\ weighted_sum scenario_vector = F64.one
    /\ rule_based_scoring features = Ok F64.one
    /\ calculate_risk_level features (PFloat F64.one) = Ok HIGH.
Proof.
  apply (scenario_score netloc_of has_dotted_quad literal_search
           (fun _ => EmptyString) scenario_config scenario_world
           (OSError "timed out")
           (LibraryError "ConnectionError" "connection refused")
           (LibraryError "PywhoisError" "no match"));
    try (vm_compute; reflexivity).
  apply (bool_decide_unpack _). vm_compute. exact I.
Defined.

(** C7 fails as stated: of the dates [day 990; day 100] the first is used,
    which makes the domain 10 days old and new, while the earliest would
    make it 900 days old. *)
Lemma first_creation_date_not_earliest :
  let dates := [day 990; day 100] in
  let lookup :=
    Ok {| creation_date := WMany (WDatetime <$> dates); registrar := PNone |} in
  (r <- get_domain_info (fun _ => EmptyString) (day 1000) lookup;;
   Ok (r !! "days_old", r !! "is_new_domain"))
    = Ok (Some (PInt 10), Some (PBool true))
  /\ earliest dates = Some (day 100)
  /\ timedelta_days (day 1000) (day 100) = 900
  /\ (900 <? 30) = false.
Proof. repeat split. Qed.

(** C8 fails as stated: the same outbound link twice counts 2, while the
    distinct outbound links number 1. *)
Lemma repeated_link_counted_twice :
  let soup := page_with_links [repeated_link; repeated_link] in
  (d <- analyze_content netloc_of page_url (Ok soup);;
   Ok (d !! "external_links_count")) = Ok (Some (PInt 2))
  /\ distinct_count (List.filter (outbound netloc_of "a.example") (anchors soup))
     = 1%nat.
Proof. split; vm_compute; reflexivity. Qed.

Lemma external_links_count_with_multiplicity_witness :
  let soup := page_with_links
                [unparsable_relative_link; repeated_link; repeated_link] in
  netloc_of page_url = Ok "a.example"
  /\ netloc_of unparsable_relative_link = Raise (ValueError "Invalid IPv6 URL")
  /\ exists d,
       analyze_content netloc_of page_url (Ok soup) = Ok d
       /\ d !! "external_links_count" = Some (PInt 2).
Proof.
  intros soup.
  assert (netloc_of page_url = Ok "a.example") as Hu by (vm_compute; reflexivity).
  split; [exact Hu|]. split; [vm_compute; reflexivity|].
  destruct (external_links_count_with_multiplicity netloc_of page_url
              "a.example" soup Hu) as ([Hcount _] & Hvalue & _).
  destruct Hcount as (d & c & Hd & Hc).
  { intros href [<-|[<-|[<-|[]]]] Hp; try discriminate Hp;
      eexists; vm_compute; reflexivity. }
  exists d. split; [exact Hd|]. rewrite Hc. f_equal.
  exact (Hvalue d c Hd Hc).
Defined.

(** C9 fails as stated: the failure record carries [error] and [analyzed]
    and none of the other content fields. *)
Lemma failure_record_lacks_content_fields :
  (d <- analyze_content netloc_of page_url (Raise (OSError "timed out"));;
   Ok (d !! "analyzed", d !! "error",
       [d !! "suspicious_keywords"; d !! "has_password_field"; d !! "form_count";
        d !! "external_links_count"; d !! "title"; d !! "has_favicon"]))
  = Ok (Some (PBool false), Some (PStr "timed out"),
        [None; None; None; None; None; None]).
Proof. vm_compute. reflexivity. Qed.

Lemma analyze_content_failure_record_witness :
  let soup := page_with_links [malformed_link] in
  external_links netloc_of page_url (anchors soup)
    = Raise (ValueError "Invalid IPv6 URL")
  /\ analyze_content netloc_of page_url (Ok soup)
     = Ok (content_failure (ValueError "Invalid IPv6 URL")).
Proof.
  intros soup.
  assert (external_links netloc_of page_url (anchors soup)
          = Raise (ValueError "Invalid IPv6 URL")) as H by (vm_compute; reflexivity).
  split; [exact H|].
  destruct (analyze_content_failure_record netloc_of page_url)
    as (_ & _ & Hparse & _).
  exact (Hparse soup _ H).
Defined.

Lemma rule_based_scoring_total_on_degraded_witness :
  (exists v,
     feature_vector content_degraded_features = Some v
     /\ rule_based_scoring content_degraded_features
        = Ok (clamp01 (weighted_sum v))
     /\ in_unit_interval (clamp01 (weighted_sum v))
     /\ tls_valid v = true
     /\ suspicious_keywords v = []
     /\ has_password_field v = false
     /\ external_links_count v = 0)
  /\ rule_based_scoring degraded_features
     = Ok (clamp01 (weighted_sum degraded_vector))
  /\ tls_valid degraded_vector = false
  /\ nth 4 (positive_terms degraded_vector) F64.zero = F64.dec 3 10.
Proof.
  destruct rule_based_scoring_total_on_degraded as (Htotal & Hread & _).
  assert (forall e, error_fields_only (content_failure e)) as Hfail.
  { intros e k [x Hx]. unfold content_failure in Hx.
    destruct (decide (k = "error")) as [|N1]; [left; assumption|].
    destruct (decide (k = "analyzed")) as [|N2]; [right; assumption|].
    rewrite !lookup_insert_ne, lookup_empty in Hx by congruence. discriminate Hx. }
  split.
  - assert (degraded (content_degraded_features !! "content_analysis")) as Hdeg.
    { right. eexists. split; [reflexivity | apply Hfail]. }
    assert (ssl_readable (content_degraded_features !! "ssl_info")) as Hssl.
    { right. eexists. split; [vm_compute; reflexivity|].
      split; eexists; vm_compute; reflexivity. }
    assert (domain_readable (content_degraded_features !! "domain_info")) as Hdom.
    { right. eexists. split; [vm_compute; reflexivity|].
      eexists; vm_compute; reflexivity. }
    destruct (Htotal content_degraded_features false [PStr "secure.*login"] 33 2
                false eq_refl eq_refl eq_refl eq_refl eq_refl Hssl
                (proj1 (proj2 (Hread _ Hdeg))) Hdom)
      as (v & Hv & Hscore & Hrange & _ & _ & Hcontent & _).
    exists v. split; [exact Hv|]. split; [exact Hscore|]. split; [exact Hrange|].
    split; [|exact (Hcontent Hdeg)].
    assert (feature_vector content_degraded_features
            = Some {| has_ip := false;
                      suspicious_patterns := [PStr "secure.*login"];
                      domain_length := 33; subdomain_count := 2;
                      tls_valid := true; tls_self_signed := false;
                      suspicious_keywords := []; has_password_field := false;
                      external_links_count := 0; is_new_domain := false;
                      is_whitelisted := false |}) as Hv'
      by (vm_compute; reflexivity).
    rewrite Hv in Hv'. injection Hv' as ->. reflexivity.
  - assert (degraded (degraded_features !! "ssl_info")) as Hssl.
    { right. eexists. split; [reflexivity|]. intros k [x Hx].
      destruct (decide (k = "error")) as [|N1]; [left; assumption|].
      rewrite lookup_insert_ne, lookup_empty in Hx by congruence.
      discriminate Hx. }
    assert (degraded (degraded_features !! "content_analysis")) as Hcontent.
    { right. eexists. split; [reflexivity | apply Hfail]. }
    assert (degraded (degraded_features !! "domain_info")) as Hdom
      by (left; reflexivity).
    destruct (Htotal degraded_features true [] 10 2 false
                eq_refl eq_refl eq_refl eq_refl eq_refl
                (proj1 (Hread _ Hssl)) (proj1 (proj2 (Hread _ Hcontent)))
                (proj2 (proj2 (Hread _ Hdom))))
      as (v & Hv & Hscore & _ & _ & _ & _ & _ & Hvalid).
    assert (feature_vector degraded_features = Some degraded_vector) as Hv'
      by (vm_compute; reflexivity).
    rewrite Hv in Hv'. injection Hv' as ->.
    split; [exact Hscore|].
    exact (Hvalid (<["error" := PStr "timed out"]> ∅) eq_refl eq_refl).
Defined.

(** ** Instances of the further properties *)

Lemma rule_based_scoring_missing_key_witness :
  feature_vector sample_features = Some sample_vector
  /\ rule_based_scoring (delete "domain_length" sample_features)
     = Raise (KeyError "domain_length").
Proof.
  assert (feature_vector sample_features = Some sample_vector) as H
    by (vm_compute; reflexivity).
  split; [exact H|].
  apply (rule_based_scoring_missing_key sample_features sample_vector
           "domain_length" H).
  cbn. auto.
Defined.

Lemma rule_based_scoring_ignores_other_keys_witness :
  rule_based_scoring (<["url" := PNone]> sample_features)
  = rule_based_scoring sample_features
  /\ rule_based_scoring (delete "url" sample_features)
     = rule_based_scoring sample_features.
Proof.
  apply (rule_based_scoring_ignores_other_keys sample_features "url" PNone).
  cbn. intuition discriminate.
Defined.

Lemma calculate_risk_level_monotone_witness :
  F64.leb (F64.dec 3 10) (F64.dec 8 10) = true
  /\ exists l1 l2,
       calculate_risk_level sample_features (PFloat (F64.dec 3 10)) = Ok l1
       /\ calculate_risk_level sample_features (PFloat (F64.dec 8 10)) = Ok l2
       /\ (risk_rank l1 <= risk_rank l2)%nat.
Proof.
  assert (F64.leb (F64.dec 3 10) (F64.dec 8 10) = true) as H
    by (vm_compute; reflexivity).
  split; [exact H|].
  apply (calculate_risk_level_monotone sample_features false); [|exact H].
  vm_compute; reflexivity.
Defined.

Lemma calculate_risk_level_score_types_witness :
  calculate_risk_level sample_features (PInt 1) = Ok HIGH
  /\ calculate_risk_level sample_features (PInt 0) = Ok LOW
  /\ exists msg,
       calculate_risk_level sample_features (PStr "0.9") = Raise (TypeError msg).
Proof.
  assert (sample_features !! "is_whitelisted" = Some (PBool false)) as H
    by (vm_compute; reflexivity).
  destruct (calculate_risk_level_score_types sample_features H)
    as (Hint & _ & Hother).
  split; [exact (Hint 1)|]. split; [exact (Hint 0)|].
  exact (Hother (PStr "0.9") eq_refl).
Defined.

Lemma subdomain_count_counts_dots_witness :
  netloc_of scenario_url = Ok scenario_host
  /\ exists f,
       scenario_features = Ok f
       /\ f !! "subdomain_count" = Some (PInt 2).
Proof.
  assert (netloc_of scenario_url = Ok scenario_host) as H
    by (vm_compute; reflexivity).
  split; [exact H|].
  destruct (subdomain_count_counts_dots netloc_of has_dotted_quad literal_search
              (fun _ => EmptyString) scenario_config scenario_world
              scenario_url scenario_host H) as (f & Hf & Hcount & _).
  exists f. split; [exact Hf | exact Hcount].
Defined.

Lemma analyze_url_fallback_witness :
  exists d f v,
    analyze_url netloc_of has_dotted_quad literal_search (fun _ => EmptyString)
      scenario_config scenario_world scenario_url = Ok d
    /\ d !! "features" = Some (PDict f)
    /\ feature_vector f = Some v
    /\ d !! "ai_score" = Some (PFloat (clamp01 (weighted_sum v)))
    /\ in_unit_interval (clamp01 (weighted_sum v)).
Proof.
  destruct (analyze_url_fallback netloc_of has_dotted_quad literal_search
              (fun _ => EmptyString) scenario_config scenario_world
              scenario_url scenario_host)
    as (d & f & v & Hd & _ & Hf & _ & Hv & Hs & Hr & _).
  - vm_compute; reflexivity.
  - intros f. apply transport_failure.
  - exists d, f, v. auto.
Defined.

Lemma analyze_url_whitelisted_witness :
  netloc_of whitelisted_url = Ok "google.com"
  /\ exists d,
       analyze_url netloc_of has_dotted_quad literal_search
         (fun _ => EmptyString) scenario_config scenario_world whitelisted_url
       = Ok d
       /\ d !! "risk_level" = Some (PStr "LOW").
Proof.
  assert (netloc_of whitelisted_url = Ok "google.com") as H
    by (vm_compute; reflexivity).
  split; [exact H|].
  apply (analyze_url_whitelisted netloc_of has_dotted_quad literal_search
           (fun _ => EmptyString) scenario_config scenario_world
           whitelisted_url "google.com" H).
  apply list_elem_of_here.
Defined.

Lemma analyze_content_keywords_witness :
  external_links netloc_of page_url (anchors login_page) = Ok []
  /\ exists d found,
       analyze_content netloc_of page_url (Ok login_page) = Ok d
       /\ d !! "suspicious_keywords" = Some (PList (PStr <$> found))
       /\ sublist found keyword_list
       /\ NoDup found.
Proof.
  assert (external_links netloc_of page_url (anchors login_page) = Ok []) as H
    by (vm_compute; reflexivity).
  split; [exact H|].
  destruct (analyze_content_keywords netloc_of page_url login_page [] H)
    as (d & found & Hd & Hk & Hsub & Hnd & _).
  exists d, found. auto.
Defined.

Lemma analyze_content_counts_witness :
  external_links netloc_of page_url
    (anchors (page_with_links [repeated_link; repeated_link]))
  = Ok [repeated_link; repeated_link]
  /\ exists d links_n,
       analyze_content netloc_of page_url
         (Ok (page_with_links [repeated_link; repeated_link])) = Ok d
       /\ d !! "external_links_count" = Some (PInt links_n)
       /\ 0 <= links_n <= 2.
Proof.
  assert (external_links netloc_of page_url
            (anchors (page_with_links [repeated_link; repeated_link]))
          = Ok [repeated_link; repeated_link]) as H
    by (vm_compute; reflexivity).
  split; [exact H|].
  destruct (analyze_content_counts netloc_of page_url
              (page_with_links [repeated_link; repeated_link])
              [repeated_link; repeated_link] H)
    as (d & forms_n & links_n & pw & Hd & _ & _ & _ & Hl & _ & _ & Hrange).
  exists d, links_n. auto.
Defined.

Lemma external_links_skips_non_http_witness :
  external_links netloc_of page_url (anchors login_page) = Ok []
  /\ exists d,
       analyze_content netloc_of page_url (Ok login_page) = Ok d
       /\ d !! "external_links_count" = Some (PInt 0)
       /\ d !! "analyzed" = None.
Proof.
  apply (external_links_skips_non_http netloc_of page_url login_page).
  repeat constructor.
Defined.

Lemma generate_recommendations_by_level_witness :
  WebInterface.generate_recommendations sample_analysis
  = Ok (WebInterface.high_risk_block ++ [WebInterface.rec_urgent_language])%list
  /\ exists risk,
       sample_analysis !! "risk_level" = Some risk
       /\ (In WebInterface.rec_appears_legitimate
             (WebInterface.high_risk_block ++ [WebInterface.rec_urgent_language])%list
           <-> risk = PStr "LOW").
Proof.
  assert (WebInterface.generate_recommendations sample_analysis
          = Ok (WebInterface.high_risk_block
                ++ [WebInterface.rec_urgent_language])%list) as H
    by (vm_compute; reflexivity).
  split; [exact H|].
  destruct (generate_recommendations_by_level sample_analysis _ H)
    as (risk & Hrisk & _ & _ & _ & Hlow).
  exists risk. auto.
Defined.

Lemma analyze_url_recommendations_witness :
  exists d recs,
    analyze_url netloc_of has_dotted_quad literal_search (fun _ => EmptyString)
      scenario_config scenario_world scenario_url = Ok d
    /\ WebInterface.generate_recommendations d = Ok recs
    /\ In WebInterface.rec_no_ssl recs
    /\ In WebInterface.rec_new_domain recs.
Proof.
  destruct (analyze_url netloc_of has_dotted_quad literal_search
              (fun _ => EmptyString) scenario_config scenario_world
              scenario_url) as [d|e] eqn:Hd.
  - destruct (analyze_url_recommendations netloc_of has_dotted_quad
                literal_search (fun _ => EmptyString) scenario_config
                scenario_world scenario_url d Hd)
      as (netloc & f & v & recs & _ & _ & _ & Hrecs & _ & Hssl & _ & _ & Hnew & _).
    exists d, recs. split; [reflexivity|]. split; [exact Hrecs|].
    split.
    + apply Hssl. eexists. reflexivity.
    + apply Hnew. eexists. reflexivity.
  - exfalso.
    assert (match analyze_url netloc_of has_dotted_quad literal_search
                    (fun _ => EmptyString) scenario_config scenario_world
                    scenario_url
            with Ok _ => true | Raise _ => false end = true) as Hok
      by (vm_compute; reflexivity).
    rewrite Hd in Hok. discriminate Hok.
Defined.

Lemma endpoint_answers_without_classifier_witness :
  exists body,
    WebInterface.analyze_url netloc_of has_dotted_quad literal_search
      (fun _ => EmptyString) strict_float scenario_config scenario_world
      scenario_url = WebInterface.Response body
    /\ body !! "url" = Some (PStr scenario_url).
Proof.
  destruct (endpoint_answers_without_classifier netloc_of has_dotted_quad
              literal_search (fun _ => EmptyString) strict_float
              scenario_config scenario_world scenario_url scenario_host)
    as (body & d & f & v & recs & Hbody & _ & Hurl & _).
  - vm_compute; reflexivity.
  - intros f. apply transport_failure.
  - intros x _. reflexivity.
  - exists body. auto.
Defined.

Lemma load_config_creates_default_witness :
  exists fs',
    load_config empty_store config_path = Ok (PDict default_config, fs')
    /\ read_json fs' config_path = Ok (PDict default_config)
    /\ load_config fs' config_path = Ok (PDict default_config, fs').
Proof.
  destruct (load_config_creates_default empty_store config_path)
    as (fs' & Hload & Hread & _ & Hagain).
  - reflexivity.
  - reflexivity.
  - exists fs'. auto.
Defined.

Lemma init_reads_configuration_witness :
  exists d cfg,
    init endpoint_only_store config_path = Ok (d, endpoint_only_store)
    /\ detector_config d = Some cfg
    /\ cfg_patterns cfg = []
    /\ cfg_whitelist cfg = [].
Proof.
  destruct (init_reads_configuration endpoint_only_store config_path
              (PDict endpoint_only))
    as (d & Hinit & _ & Hp & Hw & Hempty).
  - vm_compute; reflexivity.
  - destruct (Hempty eq_refl eq_refl) as (cfg & Hcfg & Hnone & Hnobody).
    exists d, cfg. split; [exact Hinit|]. split; [exact Hcfg|].
    unfold detector_config in Hcfg. rewrite Hp, Hw in Hcfg.
    cbn in Hcfg. destruct (det_config d); try discriminate Hcfg.
    injection Hcfg as <-. split; reflexivity.
Defined.

Lemma init_default_restart_witness :
  exists d fs',
    init empty_store config_path = Ok (d, fs')
    /\ init fs' config_path = Ok (d, fs').
Proof.
  destruct (init_default_restart empty_store config_path)
    as (d & fs' & cfg & Hinit & Hagain & _).
  - reflexivity.
  - reflexivity.
  - exists d, fs'. auto.
Defined.
